(** * ndspacker: a shallow embedding of [src/ndspacker/__main__.py]

    The program packs an ARM9 ELF and an optional ARM7 image into a
    Nintendo DS ROM by driving three external tools.  This file embeds
    the program as Rocq functions and proves the properties the
    specification states about it.

    Conventions of the embedding:
    - Python [bytes] are [list byte]; Python [int] is [Z] (unbounded).
    - Python [str] is Rocq [string]; a character is a code point below
      256 (the Latin-1 range of Unicode).
    - Python [dict] with string keys is stdpp's [gmap string _].
    - A [pathlib.Path] is its text, [str(path)]: for a path made of a
      command-line argument the normal form [Py.path_str] of the
      argument. The working directory and the names [tempfile]
      chooses are such texts, with no NUL character and other than
      the root; joining one with a file name inserts one slash. The
      file system maps the text of a path to what is there.
    - Console output is part of the model where it can fail:
      [rich.print] raises [MarkupError] on a text whose markup it
      rejects, and the texts of lines 40, 104, 108 and 122 carry a
      command line, a path or a header value. The other texts the
      program prints are fixed in the source, with numbers filled in,
      and their tags balance; the usage line goes through the
      built-in [print].
    - Making a temporary directory succeeds. Permissions are not
      part of the model, and the output of a tool is the text
      [subprocess] decodes. *)

From Stdlib Require Import ZArith Lia.
From Stdlib Require Import Strings.Ascii Strings.Byte.
From stdpp Require Import base option list strings gmap pretty.

Local Open Scope Z_scope.

(** ** Exceptions and results *)

(** The exceptions the program can raise. [sys.exit(n)] raises
    [SystemExit n]; [TOMLDecodeError] is the error of the decoder of
    the configuration file, which for bytes that are no UTF-8 Python
    names [UnicodeDecodeError]; [MarkupError] is the error of [rich]. *)
Inductive exn :=
| SystemExit (code : Z)
| IndexError
| KeyError (key : string)
| ValueError
| TypeError
| FileNotFoundError
| IsADirectoryError
| CalledProcessError (returncode : Z)
| TOMLDecodeError
| MarkupError.

Inductive result (A : Type) :=
| Ok (a : A)
| Raise (e : exn).
Arguments Ok {A} a.
Arguments Raise {A} e.

#[global] Instance result_ret : MRet result := fun A a => Ok a.
#[global] Instance result_bind : MBind result := fun A B f r =>
  match r with
  | Ok a => f a
  | Raise e => Raise e
  end.

(** ** Python values used by the program *)

Module Py.

(** [seq[lo:hi]] with a step of one: a negative index counts from the
    end, and every index is clamped into [0, len]. *)
Definition slice_index (len i : Z) : Z :=
  if i <? 0 then Z.max 0 (i + len) else Z.min i len.

Definition slice {A} (l : list A) (lo hi : Z) : list A :=
  let n := Z.of_nat (List.length l) in
  let start := slice_index n lo in
  let stop := slice_index n hi in
  take (Z.to_nat (stop - start)) (drop (Z.to_nat start) l).

Definition byte_val (b : byte) : Z := Z.of_N (Byte.to_N b).

(** [int.from_bytes(bs, byteorder="little")], for any length of [bs]. *)
Definition int_from_bytes_little (bs : list byte) : Z :=
  fold_right (fun b acc => byte_val b + 256 * acc) 0 bs.

Definition code (c : ascii) : Z := Z.of_N (N_of_ascii c).

(** [str.isspace] on one character, as [str.strip] uses it. *)
Definition is_space (c : ascii) : bool :=
  let n := code c in
  (9 <=? n) && (n <=? 13) || (28 <=? n) && (n <=? 31)
  || (n =? 32) || (n =? 133) || (n =? 160).

Fixpoint lstrip (s : string) : string :=
  match s with
  | String c s' => if is_space c then lstrip s' else s
  | EmptyString => EmptyString
  end.

Fixpoint rstrip (s : string) : string :=
  match s with
  | String c s' =>
      match rstrip s' with
      | EmptyString => if is_space c then EmptyString else String c EmptyString
      | r => String c r
      end
  | EmptyString => EmptyString
  end.

(** [s.strip()] *)
Definition strip (s : string) : string := rstrip (lstrip s).

Definition lower_char (c : ascii) : ascii :=
  let n := code c in
  if (65 <=? n) && (n <=? 90)
     || (192 <=? n) && (n <=? 222) && negb (n =? 215)
  then ascii_of_N (Z.to_N (n + 32)) else c.

Fixpoint map_chars (f : ascii -> ascii) (s : string) : string :=
  match s with
  | String c s' => String (f c) (map_chars f s')
  | EmptyString => EmptyString
  end.

(** [s.lower()] *)
Definition lower (s : string) : string := map_chars lower_char s.

(** [s.replace(old, new)] for one-character [old] and [new]. *)
Definition replace (old new : ascii) (s : string) : string :=
  map_chars (fun c => if Ascii.eqb c old then new else c) s.

(** [s.partition(sep)] for a one-character [sep]: the text before the
    first [sep] and the text after it, when [sep] occurs. *)
Fixpoint partition (sep : ascii) (s : string) : option (string * string) :=
  match s with
  | String c s' =>
      if Ascii.eqb c sep then Some (EmptyString, s')
      else match partition sep s' with
           | Some (before, after) => Some (String c before, after)
           | None => None
           end
  | EmptyString => None
  end.

(** [s.split(sep, 1)] for a one-character [sep]. *)
Definition split1 (sep : ascii) (s : string) : list string :=
  match partition sep s with
  | Some (before, after) => [before; after]
  | None => [s]
  end.

(** The line boundaries of [str.splitlines]. *)
Definition is_linebreak (c : ascii) : bool :=
  let n := code c in
  (10 <=? n) && (n <=? 13) || (28 <=? n) && (n <=? 30) || (n =? 133).

(** [s.splitlines()]: [cur] holds the characters of the line being
    read, last one first; a carriage return followed by a line feed is
    one boundary, and no empty line follows a final boundary. *)
Fixpoint splitlines_go (cur : string) (s : string) : list string :=
  match s with
  | String c s' =>
      if is_linebreak c then
        String.rev cur ::
          match s' with
          | String c' s'' =>
              if Ascii.eqb c "013" && Ascii.eqb c' "010"
              then splitlines_go EmptyString s''
              else splitlines_go EmptyString s'
          | EmptyString => []
          end
      else splitlines_go (String c cur) s'
  | EmptyString =>
      match cur with
      | EmptyString => []
      | _ => [String.rev cur]
      end
  end.

Definition splitlines (s : string) : list string := splitlines_go EmptyString s.

(** [s[n:]] for a string and a non-negative [n]. *)
Fixpoint str_from (n : nat) (s : string) : string :=
  match n, s with
  | S n', String _ s' => str_from n' s'
  | _, _ => s
  end.

(** The value of a character as a digit, for bases up to 36. *)
Definition digit_value (c : ascii) : option Z :=
  let n := code c in
  if (48 <=? n) && (n <=? 57) then Some (n - 48)
  else if (97 <=? n) && (n <=? 122) then Some (n - 87)
  else if (65 <=? n) && (n <=? 90) then Some (n - 55)
  else None.

(** The white space [int] skips around a literal. *)
Definition is_int_space (c : ascii) : bool :=
  let n := code c in
  (9 <=? n) && (n <=? 13) || (n =? 32) || (n =? 133) || (n =? 160).

Fixpoint skip_int_space (s : string) : string :=
  match s with
  | String c s' => if is_int_space c then skip_int_space s' else s
  | EmptyString => EmptyString
  end.

(** Reads digits of [base], single underscores allowed between two
    digits. Returns the value, the number of digits and the text left;
    [None] on a doubled or a final underscore. *)
Fixpoint scan_digits (base : Z) (s : string) (prev_underscore : bool)
    (acc : Z) (digits : nat) : option (Z * nat * string) :=
  let stop := if prev_underscore then None else Some (acc, digits, s) in
  match s with
  | String c s' =>
      if Ascii.eqb c "_" then
        if prev_underscore then None else scan_digits base s' true acc digits
      else
        match digit_value c with
        | Some d =>
            if d <? base
            then scan_digits base s' false (acc * base + d) (S digits)
            else stop
        | None => stop
        end
  | EmptyString => stop
  end.

(** The base prefix [int] accepts when the base is given: [0x], [0o]
    or [0b] in either case. *)
Definition has_base_prefix (base : Z) (s : string) : bool :=
  match s with
  | String c0 (String c _) =>
      Ascii.eqb c0 "0"
      && ((base =? 16) && (Ascii.eqb c "x" || Ascii.eqb c "X")
          || (base =? 8) && (Ascii.eqb c "o" || Ascii.eqb c "O")
          || (base =? 2) && (Ascii.eqb c "b" || Ascii.eqb c "B"))
  | _ => false
  end.

(** The sign of a literal and the text after the sign. *)
Definition split_sign (s : string) : Z * string :=
  match s with
  | String c s' =>
      if Ascii.eqb c "+" then (1, s')
      else if Ascii.eqb c "-" then (-1, s')
      else (1, s)
  | EmptyString => (1, s)
  end.

(** The text after a base prefix and the one underscore that may
    follow it. *)
Definition skip_base_prefix (base : Z) (s : string) : string :=
  if has_base_prefix base s then
    match str_from 2 s with
    | String c s' => if Ascii.eqb c "_" then s' else String c s'
    | EmptyString => EmptyString
    end
  else s.

Definition starts_with_underscore (s : string) : bool :=
  match s with
  | String c _ => Ascii.eqb c "_"
  | EmptyString => false
  end.

(** The default of [sys.get_int_max_str_digits()]. *)
Definition max_str_digits : nat := 4300.

(** [int(s, base)] for a string [s] and a base from 2 to 36: white
    space, a sign, a base prefix, then digits up to the end or to
    trailing white space. A base that is no power of two limits the
    number of digits. *)
Definition int (s : string) (base : Z) : result Z :=
  let '(sign, s) := split_sign (skip_int_space s) in
  let s := skip_base_prefix base s in
  if starts_with_underscore s then Raise ValueError
  else
    match scan_digits base s false 0 0 with
    | Some (value, digits, rest) =>
        if bool_decide (digits = 0%nat) then Raise ValueError
        else if negb (String.eqb (skip_int_space rest) EmptyString)
        then Raise ValueError
        else if negb (Z.land base (base - 1) =? 0)
                && bool_decide (max_str_digits < digits)%nat
        then Raise ValueError
        else Ok (sign * value)
    | None => Raise ValueError
    end.

(** [str(n)] for an integer [n]. *)
Definition str (n : Z) : result string :=
  if bool_decide (max_str_digits < String.length (pretty (Z.abs n)))%nat
  then Raise ValueError
  else Ok (pretty n).

(** [s.split(sep)] for a one-character [sep]. *)
Fixpoint split (sep : ascii) (s : string) : list string :=
  match s with
  | String c s' =>
      if Ascii.eqb c sep then EmptyString :: split sep s'
      else match split sep s' with
           | first :: rest => String c first :: rest
           | [] => [String c EmptyString]
           end
  | EmptyString => [EmptyString]
  end.

(** [sep.join(parts)] *)
Fixpoint join (sep : string) (parts : list string) : string :=
  match parts with
  | [] => EmptyString
  | [part] => part
  | part :: rest => part +:+ sep +:+ join sep rest
  end.

(** [chr(0) in s] *)
Fixpoint has_nul (s : string) : bool :=
  match s with
  | String c s' => Ascii.eqb c "000" || has_nul s'
  | EmptyString => false
  end.

Fixpoint leading_slashes (s : string) : nat :=
  match s with
  | String c s' => if Ascii.eqb c "/" then S (leading_slashes s') else O
  | EmptyString => O
  end.

(** The root of a POSIX path: one slash, or two when the text begins
    with exactly two. *)
Definition path_root (s : string) : string :=
  match leading_slashes s with
  | O => EmptyString
  | 2%nat => "//"
  | _ => "/"
  end.

(** The components of a path: empty ones and single dots are dropped. *)
Definition path_parts (s : string) : list string :=
  filter (fun part => part <> EmptyString /\ part <> ".") (split "/" s).

(** [str(Path(s))] on POSIX: repeated and final slashes and the
    components [.] go, [..] stays; the empty path is [.]. *)
Definition path_str (s : string) : string :=
  match path_root s, path_parts s with
  | EmptyString, [] => "."
  | root, parts => root +:+ join "/" parts
  end.

(** [d[key]] for a dictionary [d]. *)
Definition getitem {V} (d : gmap string V) (key : string) : result V :=
  match d !! key with
  | Some v => Ok v
  | None => Raise (KeyError key)
  end.

End Py.

(** ** The ROM header reader *)

(** [read_arm7_from_rom(raw_rom)], lines 68-77. *)
Definition read_arm7_from_rom (raw_rom : list byte) : Z * list byte :=
  let entrypoint := Py.int_from_bytes_little (Py.slice raw_rom 0x34 (0x34 + 4)) in
  let rom_offset := Py.int_from_bytes_little (Py.slice raw_rom 0x30 (0x30 + 4)) in
  let rom_size := Py.int_from_bytes_little (Py.slice raw_rom 0x3C (0x3C + 4)) in
  (entrypoint, Py.slice raw_rom rom_offset (rom_offset + rom_size)).

(** *** The reading the specification gives of the header fields *)

(** The byte at position [i], read as zero past the end of the input. *)
Definition byte_at (raw : list byte) (i : nat) : Z :=
  from_option Py.byte_val 0 (raw !! i).

(** The little-endian 32-bit field that starts at position [off]. *)
Definition le_u32_at (raw : list byte) (off : nat) : Z :=
  byte_at raw off + 2 ^ 8 * byte_at raw (off + 1)
  + 2 ^ 16 * byte_at raw (off + 2) + 2 ^ 24 * byte_at raw (off + 3).

(** The byte range [[off, off + size)] of [raw], cut at the end of [raw]. *)
Definition byte_range (raw : list byte) (off size : Z) : list byte :=
  take (Z.to_nat size) (drop (Z.to_nat off) raw).

(** ** The world the program runs in *)

(** A value that reaches a command line or comes out of the
    configuration file: a string, or anything else. *)
Inductive pyobj :=
| Str (s : string)
| NonStr.

(** A path names a file with its content, or a directory. *)
Inductive node :=
| File (content : list byte)
| Dir.

(** What a run does to its surroundings, in order. *)
Inductive event :=
| Which (name : string)
| Run (command : list string)
| Mkdtemp (suffix dir : string)
| WriteBytes (path : string) (data : list byte)
| Rmtree (dir : string).

Record state := State {
  fs : gmap string node;
  trace : list event;
}.

(** Everything the program takes from outside itself:
    - [argv]: [sys.argv];
    - [cwd]: [Path.cwd()];
    - [which]: [shutil.which];
    - [spawn]: what running a command does: [None] when the executable
      cannot be started, else its return code, its standard output and
      the file system it leaves;
    - [mkdtemp]: the name [tempfile] chooses for a new directory;
    - [toml_load]: [tomllib.load], [None] on a document it rejects;
    - [suffix]: [Path.suffix];
    - [markup]: whether [rich] renders a text; it raises
      [MarkupError] on one it does not, as on a closing tag that
      closes nothing. *)
Record world := World {
  argv : list string;
  cwd : string;
  which : string -> option string;
  spawn : list string -> gmap string node -> option (Z * string * gmap string node);
  mkdtemp : string -> gmap string node -> string;
  toml_load : list byte -> option (gmap string pyobj);
  suffix : string -> string;
  markup : string -> bool;
}.

(** ** Computations: state passing with exceptions *)

Definition M (A : Type) : Type := state -> result A * state.

#[global] Instance M_ret : MRet M := fun A a s => (Ok a, s).
#[global] Instance M_bind : MBind M := fun A B f m s =>
  match m s with
  | (Ok a, s') => f a s'
  | (Raise e, s') => (Raise e, s')
  end.

Definition raise {A} (e : exn) : M A := fun s => (Raise e, s).

Definition lift {A} (r : result A) : M A := fun s => (r, s).

Definition log (e : event) : M unit :=
  fun s => (Ok tt, State (fs s) (trace s ++ [e])).

(** [try: body  except FileNotFoundError: handler] *)
Definition try_except_FileNotFoundError {A} (body handler : M A) : M A :=
  fun s =>
    match body s with
    | (Raise FileNotFoundError, s') => handler s'
    | other => other
    end.

(** [Path(dir) / name] *)
Definition joinpath (dir name : string) : string := dir +:+ "/" +:+ name.

(** The paths below the directory [dir]. *)
Definition below (dir path : string) : bool := String.prefix (dir +:+ "/") path.

(** [shutil.rmtree(dir)]: the directory goes, with all below it. *)
Definition rmtree (dir : string) (files : gmap string node) : gmap string node :=
  filter (fun '(path, _) => path <> dir /\ below dir path = false) files.

(** [present files path]: something is at [path]. No path holds a
    NUL character. *)
Definition present (files : gmap string node) (path : string) : bool :=
  negb (Py.has_nul path) && bool_decide (is_Some (files !! path)).

(** [path.exists()] *)
Definition path_exists (path : string) : M bool :=
  fun s => (Ok (present (fs s) path), s).

(** [path.read_bytes()], and [path.open(mode="rb")] followed by [read()]. *)
Definition read_bytes (path : string) : M (list byte) :=
  fun s =>
    match fs s !! path with
    | Some (File content) => (Ok content, s)
    | Some Dir => (Raise IsADirectoryError, s)
    | None => (Raise FileNotFoundError, s)
    end.

(** [path.write_bytes(data)], in a directory that exists. *)
Definition write_bytes (path : string) (data : list byte) : M unit :=
  fun s =>
    match fs s !! path with
    | Some Dir => (Raise IsADirectoryError, s)
    | _ => (Ok tt, State (<[path := File data]> (fs s)) (trace s ++ [WriteBytes path data]))
    end.

(** The strings of a command line, when each element is a string. *)
Fixpoint strings_of (command : list pyobj) : option (list string) :=
  match command with
  | [] => Some []
  | Str s :: rest => cons s <$> strings_of rest
  | NonStr :: _ => None
  end.

(** The text of the echo of line 40. *)
Definition echo (cmd : list string) : string :=
  match cmd with
  | tool :: args =>
      "[cyan]running command:[/cyan] [pink]" +:+ tool +:+ "[/pink] "
      +:+ Py.join " " args
  | [] => ""
  end.

(** The text of lines 104 and 108. *)
Definition no_such_file (path : string) : string :=
  "[red]no such file[/red]: " +:+ path.

(** The text of line 122; it begins with an inverted question mark. *)
Definition not_arm (type : string) : string :=
  String "191" (" this is [red]" +:+ type +:+ "[/red], not ARM ?").

(** ** The program *)

(** [DEFAULT_PACKER_SETTINGS], lines 13-17. *)
Definition DEFAULT_PACKER_SETTINGS : gmap string pyobj :=
  <["maker_code" := Str "01"]>
    (<["game_code" := Str "ENAE"]>
       (<["game_title" := Str "NDSPACKER"]> ∅)).

Section Program.

Variable W : world.

(** [get_tool_prefix()], lines 22-29. A result of [shutil.which] is
    true when it is a path, which is never the empty string. *)
Definition get_tool_prefix : M string :=
  log (Which "arm-none-eabi-readelf");;
  if bool_decide (is_Some (which W "arm-none-eabi-readelf")) then mret "arm-none-eabi-"
  else
    log (Which "llvm-readelf");;
    if bool_decide (is_Some (which W "llvm-readelf")) then mret "llvm-"
    else raise FileNotFoundError.

(** [with tempfile.TemporaryDirectory(suffix) as dir: body]. The
    directory is made, [body] runs, and the directory is removed with
    all below it, however [body] ends. *)
Definition TemporaryDirectory {A} (sfx : string) (body : string -> M A) : M A :=
  fun s =>
    let dir := mkdtemp W sfx (fs s) in
    let '(r, s') := body dir (State (<[dir := Dir]> (fs s)) (trace s ++ [Mkdtemp sfx dir])) in
    (r, State (rmtree dir (fs s')) (trace s' ++ [Rmtree dir])).

(** [rich.print(text)] *)
Definition rich_print (text : string) : M unit :=
  if markup W text then mret tt else raise MarkupError.

(** [subprocess.run(cmd, stdout=PIPE, check=True, encoding="utf-8")];
    the result is the standard output of the completed process. An
    argument that holds a NUL character is refused with [ValueError]
    before any process is started. [check=True] turns a return code
    other than zero into [CalledProcessError]. *)
Definition subprocess_run (cmd : list string) : M string :=
  fun s =>
    if existsb Py.has_nul cmd then (Raise ValueError, s)
    else
      let s := State (fs s) (trace s ++ [Run cmd]) in
      match spawn W cmd (fs s) with
      | None => (Raise FileNotFoundError, s)
      | Some (returncode, stdout, files) =>
          (if returncode =? 0 then Ok stdout else Raise (CalledProcessError returncode),
           State files (trace s))
      end.

(** [run_with_echo(command)], lines 35-41. Building the text of the
    echo fails on an empty command ([command[0]]) and on an argument
    that is not a string (the join); then the echo is printed, and
    the command run. The program puts a string first in every
    command; for another value there the model gives the [TypeError]
    of [subprocess.run]. *)
Definition run_with_echo (command : list pyobj) : M string :=
  match command with
  | [] => raise IndexError
  | _ :: _ =>
      match strings_of command with
      | None => raise TypeError
      | Some cmd => rich_print (echo cmd);; subprocess_run cmd
      end
  end.

Variable TOOL_PREFIX : string.

(** The loop of [get_elf_headers], lines 58-63. Unpacking
    [line.split(":", 1)] into two names fails on a line without a
    colon. *)
Fixpoint parse_header_lines (lines : list string) (headers : gmap string string)
    : result (gmap string string) :=
  match lines with
  | [] => Ok headers
  | line :: lines' =>
      match Py.split1 ":" line with
      | [key; value] =>
          let key := Py.replace " " "_" (Py.strip (Py.lower key)) in
          let value := Py.strip value in
          parse_header_lines lines' (<[key := value]> headers)
      | _ => Raise ValueError
      end
  end.

(** [get_elf_headers(elf_path)], lines 47-65. *)
Definition get_elf_headers (elf_path : string) : M (gmap string string) :=
  stdout ← run_with_echo [Str (TOOL_PREFIX +:+ "readelf"); Str "-h"; Str elf_path];
  let lines := drop 1 (Py.splitlines stdout) in
  lift (parse_header_lines lines ∅).

(** [read_from_elf(elf_path)], lines 80-88. *)
Definition read_from_elf (elf_path : string) : M (list byte) :=
  TemporaryDirectory "" (fun tdir =>
    let output_path := joinpath tdir "out.o" in
    run_with_echo [Str (TOOL_PREFIX +:+ "objcopy"); Str "-O"; Str "binary";
                   Str elf_path; Str output_path];;
    read_bytes output_path).

(** The command line of the ROM builder, lines 171-181. *)
Definition ndstool_command (saved_arm9 saved_arm7 arm9_ep arm7_ep : string)
    (game_code maker_code game_title : pyobj) : list pyobj :=
  [Str "ndstool"; Str "-c"; Str "./rom.nds";
   Str "-9"; Str saved_arm9; Str "-7"; Str saved_arm7;
   Str "-e9"; Str arm9_ep; Str "-r9"; Str "0x2000000";
   Str "-e7"; Str arm7_ep;
   Str "-g"; game_code; maker_code; game_title; Str "1"].

(** Lines 111-115 of [main]: the settings of the configuration file,
    or the built-in table when the file is missing. *)
Definition load_packer_settings : M (gmap string pyobj) :=
  try_except_FileNotFoundError
    (content ← read_bytes (joinpath (cwd W) "ndspacker.toml");
     match toml_load W content with
     | Some settings => mret settings
     | None => raise TOMLDecodeError
     end)
    (mret DEFAULT_PACKER_SETTINGS).

(** Line 125 of [main]:
    [int(arm9_headers["entry_point_address"][2:], 16)]. *)
Definition arm9_entry_point (arm9_headers : gmap string string) : result Z :=
  address ← Py.getitem arm9_headers "entry_point_address";
  Py.int (Py.str_from 2 address) 16.

(** Line 150 of [main]:
    [int(get_elf_headers(arm7_image)["entry_point_address"])]. *)
Definition arm7_entry_point (arm7_headers : gmap string string) : result Z :=
  address ← Py.getitem arm7_headers "entry_point_address";
  Py.int address 10.

(** Lines 138-155 of [main]: the ARM7 entrypoint and blob, taken from
    a ROM, from an ELF file, or built in. *)
Definition read_arm7 (arm7_image : option string) : M (Z * list byte) :=
  match arm7_image with
  | Some path =>
      if String.eqb (suffix W path) ".nds" then
        raw_data ← read_bytes path;
        mret (read_arm7_from_rom raw_data)
      else
        arm7_headers ← get_elf_headers path;
        arm7_ep ← lift (arm7_entry_point arm7_headers);
        arm7_data ← read_from_elf path;
        mret (arm7_ep, arm7_data)
  | None => mret (0x2380000, [xfe; xff; xff; xea])
  end.

(** Lines 160-162 of [main]: maker code, game code and game title. *)
Definition metadata (packer_settings : gmap string pyobj) : pyobj * pyobj * pyobj :=
  (default (Str "01") (packer_settings !! "maker_code"),
   default (Str "ABCD") (packer_settings !! "game_code"),
   default (Str "NITRO-SDK") (packer_settings !! "game_title")).

(** Lines 164-181 of [main]: both blobs are saved in a temporary
    directory and the ROM builder is run on them. *)
Definition packer_invocation (arm9_ep : Z) (arm9_data : list byte)
    (arm7_ep : Z) (arm7_data : list byte)
    (maker_code game_code game_title : pyobj) : M unit :=
  TemporaryDirectory "ndspacker" (fun directory =>
    let saved_arm9 := joinpath directory "arm9.tmp.bin" in
    let saved_arm7 := joinpath directory "arm7.tmp.bin" in
    write_bytes saved_arm9 arm9_data;;
    write_bytes saved_arm7 arm7_data;;
    arm9_ep_str ← lift (Py.str arm9_ep);
    arm7_ep_str ← lift (Py.str arm7_ep);
    run_with_echo
      (ndstool_command saved_arm9 saved_arm7 arm9_ep_str arm7_ep_str
         game_code maker_code game_title);;
    mret tt).

(** [sys.exit(1)] after a message printed with [rich.print]. *)
Definition exit_with (text : string) : M unit :=
  rich_print text;; raise (SystemExit 1).

(** [main()], lines 92-181. *)
Definition main : M unit :=
  arm9_image ←
    match argv W !! 1%nat with
    | Some arg => mret (Py.path_str arg)
    | None =>
        match argv W !! 0%nat with
        | Some _ => raise (SystemExit 1)
        | None => raise IndexError
        end
    end;
  let arm7_image := Py.path_str <$> argv W !! 2%nat in
  arm9_exists ← path_exists arm9_image;
  (if (arm9_exists : bool) then mret tt else exit_with (no_such_file arm9_image) : M unit);;
  (match arm7_image with
   | Some path =>
       arm7_exists ← path_exists path;
       if (arm7_exists : bool) then mret tt else exit_with (no_such_file path)
   | None => mret tt
   end : M unit);;
  packer_settings ← load_packer_settings;
  arm9_headers ← get_elf_headers arm9_image;
  type ← lift (Py.getitem arm9_headers "machine");
  (if String.eqb type "ARM" then mret tt else exit_with (not_arm type) : M unit);;
  arm9_ep ← lift (arm9_entry_point arm9_headers);
  arm9_data ← read_from_elf arm9_image;
  '(arm7_ep, arm7_data) ← read_arm7 arm7_image;
  let '(maker_code, game_code, game_title) := metadata packer_settings in
  packer_invocation arm9_ep arm9_data arm7_ep arm7_data
    maker_code game_code game_title.

End Program.

(** The module run as a script: line 32 resolves the tool prefix while
    the module loads, line 195 then calls [main]. *)
Definition script (W : world) : M unit :=
  TOOL_PREFIX ← get_tool_prefix W;
  main W TOOL_PREFIX.

(** The exit status of the interpreter: zero after a normal end, the
    code of a [SystemExit], and one after any other exception. *)
Definition exit_status {A} (r : result A) : Z :=
  match r with
  | Ok _ => 0
  | Raise (SystemExit code) => code
  | Raise _ => 1
  end.

(** ** Notions the statements use *)

(** [colon_free s]: no colon occurs in [s]. *)
Definition colon_free (s : string) : Prop :=
  ":"%char ∉ String.list_ascii_of_string s.

(** The entry the parser makes of a line, when the line has a colon. *)
Definition header_entry (line : string) : option (string * string) :=
  match Py.partition ":" line with
  | Some (before, after) =>
      Some (Py.replace " " "_" (Py.strip (Py.lower before)), Py.strip after)
  | None => None
  end.

(** The key as the specification words it: lower-cased, spaces
    replaced by underscores. *)
Definition claimed_key (before : string) : string :=
  Py.replace " " "_" (Py.lower before).

(** The mapping as the specification words it. *)
Fixpoint claimed_mapping (lines : list string) (headers : gmap string string)
    : gmap string string :=
  match lines with
  | [] => headers
  | line :: lines' =>
      match Py.partition ":" line with
      | Some (before, after) =>
          claimed_mapping lines' (<[claimed_key before := Py.strip after]> headers)
      | None => claimed_mapping lines' headers
      end
  end.

Definition claimed_headers (stdout : string) : gmap string string :=
  claimed_mapping (drop 1 (Py.splitlines stdout)) ∅.

(** What stops a command before it is started: an echo that [rich]
    does not render, then an argument that holds a NUL character. *)
Definition refused (W : world) (cmd : list string) : option exn :=
  if negb (markup W (echo cmd)) then Some MarkupError
  else if existsb Py.has_nul cmd then Some ValueError
  else None.

(** How [exit_with] ends: with [sys.exit(1)], unless the message
    cannot be printed. *)
Definition exit_error (W : world) (text : string) : exn :=
  if markup W text then SystemExit 1 else MarkupError.

(** The first path of the command line that names nothing: lines 103
    and 107 look at the ARM9 path, then at the ARM7 path. *)
Definition missing_input (W : world) (s : state) : option string :=
  match Py.path_str <$> argv W !! 1%nat with
  | Some arm9_image =>
      if present (fs s) arm9_image then
        match Py.path_str <$> argv W !! 2%nat with
        | Some arm7_image => if present (fs s) arm7_image then None else Some arm7_image
        | None => None
        end
      else Some arm9_image
  | None => None
  end.

(** The claim as the specification words it: the mapping of every
    header dump is [claimed_headers]. *)
Definition claimed_parse (W : world) (TOOL_PREFIX elf_path : string) (s : state) : Prop :=
  forall stdout files,
    refused W [TOOL_PREFIX +:+ "readelf"; "-h"; elf_path] = None ->
    spawn W [TOOL_PREFIX +:+ "readelf"; "-h"; elf_path] (fs s) = Some (0, stdout, files) ->
    (get_elf_headers W TOOL_PREFIX elf_path s).1 = Ok (claimed_headers stdout).

(** The place of a character in a string of digits. *)
Fixpoint position (c : ascii) (digits : string) : option Z :=
  match digits with
  | String c' digits' =>
      if Ascii.eqb c c' then Some 0 else Z.succ <$> position c digits'
  | EmptyString => None
  end.

(** The digit a hexadecimal character stands for, in either case. *)
Definition hex_digit (c : ascii) : option Z :=
  match position c "0123456789abcdef" with
  | Some d => Some d
  | None => position c "0123456789ABCDEF"
  end.

(** The number a hexadecimal numeral denotes, the most significant
    digit first; [None] when a character is no hexadecimal digit. *)
Fixpoint hex_value (s : string) : option Z :=
  match s with
  | String c s' =>
      match hex_digit c, hex_value s' with
      | Some d, Some v => Some (d * 16 ^ Z.of_nat (String.length s') + v)
      | _, _ => None
      end
  | EmptyString => Some 0
  end.

(** [n] zeros. *)
Fixpoint zeros (n : nat) : string :=
  match n with
  | O => ""
  | S n' => String "0" (zeros n')
  end.

(** The digit a decimal character stands for. *)
Definition dec_digit (c : ascii) : option Z := position c "0123456789".

(** The number a decimal numeral denotes. *)
Fixpoint dec_value (s : string) : option Z :=
  match s with
  | String c s' =>
      match dec_digit c, dec_value s' with
      | Some d, Some v => Some (d * 10 ^ Z.of_nat (String.length s') + v)
      | _, _ => None
      end
  | EmptyString => Some 0
  end.

(** The characters a base-10 literal of [int] can hold: white space, a
    sign, an underscore, a decimal digit. *)
Definition decimal_char (c : ascii) : bool :=
  Py.is_int_space c || Ascii.eqb c "+" || Ascii.eqb c "-" || Ascii.eqb c "_"
  || bool_decide (is_Some (dec_digit c)).

(** The letters that are hexadecimal digits. *)
Definition hex_letter (c : ascii) : Prop :=
  c ∈ String.list_ascii_of_string "abcdefABCDEF".

(** [all_chars P s]: every character of [s] satisfies [P]. *)
Fixpoint all_chars (P : ascii -> bool) (s : string) : bool :=
  match s with
  | String c s' => P c && all_chars P s'
  | EmptyString => true
  end.

(** ** Traces of runs *)

(** [extends P s s']: the trace of [s'] is the trace of [s] followed by
    events that satisfy [P]. *)
Definition extends (P : event -> Prop) (s s' : state) : Prop :=
  exists evs, trace s' = trace s ++ evs /\ Forall P evs.

(** [emits P m]: whatever [m] does, it adds only events that satisfy [P]. *)
Definition emits {A} (P : event -> Prop) (m : M A) : Prop :=
  forall s, extends P s (m s).2.

(** The events of the steps of [main] that come before the ROM builder:
    runs of the two ELF tools, and the temporary directory of
    [read_from_elf]. *)
Definition tool_event (TOOL_PREFIX : string) (e : event) : Prop :=
  match e with
  | Run cmd =>
      (exists elf_path, cmd = [TOOL_PREFIX +:+ "readelf"; "-h"; elf_path])
      \/ (exists elf_path tdir,
            cmd = [TOOL_PREFIX +:+ "objcopy"; "-O"; "binary"; elf_path;
                   joinpath tdir "out.o"])
  | Mkdtemp sfx _ => sfx = ""
  | Rmtree _ => True
  | Which _ | WriteBytes _ _ => False
  end.

(** The events of [packer_invocation] between the making and the
    removal of its directory [dir]: the two writes and the run of the
    ROM builder, up to the first step that fails. *)
Definition packer_events (dir : string) (arm9_ep : Z) (arm9_data : list byte)
    (arm7_ep : Z) (arm7_data : list byte) (mk gc gt : pyobj)
    (body : list event) : Prop :=
  let w9 := WriteBytes (joinpath dir "arm9.tmp.bin") arm9_data in
  let w7 := WriteBytes (joinpath dir "arm7.tmp.bin") arm7_data in
  body = [] \/ body = [w9] \/ body = [w9; w7]
  \/ exists e9 e7 cmd,
       Py.str arm9_ep = Ok e9 /\ Py.str arm7_ep = Ok e7
       /\ strings_of (ndstool_command (joinpath dir "arm9.tmp.bin")
                        (joinpath dir "arm7.tmp.bin") e9 e7 gc mk gt) = Some cmd
       /\ body = [w9; w7; Run cmd].

(** The value of [key] in the headers a run returned, if it returned any. *)
Definition returned_header (r : result (gmap string string)) (key : string)
    : option string :=
  match r with
  | Ok headers => headers !! key
  | Raise _ => None
  end.

(** ** Example worlds *)

(** A stand-in for [rich] in the example worlds. It follows
    [rich.markup.render]: a tag is a bracket, a character that can
    begin a tag, and the text up to the next closing bracket, with no
    opening bracket in between; backslashes before a tag pair up, and
    a tag after an odd number of them is text. The name of a tag is
    its text before the first equals sign. A name that begins with a
    slash closes the last open tag of that name, or the last open tag
    when nothing follows the slash, and the text is rejected when
    there is no such tag. Names are compared stripped and in lower
    case, as [rich] compares names that it does not read as a style;
    [rich] also takes two spellings of one style for the same name,
    and reads the parameters of a tag that begins with [@] when it
    closes it, which this stand-in leaves out. *)
Definition tag_start (c : ascii) : bool :=
  let n := Py.code c in
  (97 <=? n) && (n <=? 122) || Ascii.eqb c "#" || Ascii.eqb c "/" || Ascii.eqb c "@".

Definition tag_name (tag : string) : string :=
  match Py.partition "=" tag with
  | Some (name, _) => name
  | None => tag
  end.

(** [close_tag name opened]: the open tags, last opened first, less
    the last opened of this name. *)
Fixpoint close_tag (name : string) (opened : list string) : option (list string) :=
  match opened with
  | [] => None
  | tag :: rest =>
      if String.eqb tag name then Some rest
      else cons tag <$> close_tag name rest
  end.

(** The open tags after the tag [tag], [None] when it closes nothing. *)
Definition apply_tag (tag : string) (opened : list string) : option (list string) :=
  match tag_name tag with
  | String "/" closed =>
      match Py.strip closed with
      | EmptyString =>
          match opened with
          | _ :: rest => Some rest
          | [] => None
          end
      | name => close_tag (Py.lower name) opened
      end
  | name => Some (Py.lower (Py.strip name) :: opened)
  end.

(** What the scan of a text is reading: plain text, after an odd or
    even number of backslashes, or a tag, with its characters read so
    far, last one first, whether it is escaped, and whether it ends in
    an odd number of backslashes. *)
Inductive scan :=
| Plain (odd_backslashes : bool)
| Tag (escaped : bool) (read : string) (odd_backslashes : bool).

Fixpoint example_markup_go (text : string) (st : scan) (opened : list string) : bool :=
  match text with
  | String c rest =>
      match st with
      | Plain odd =>
          if Ascii.eqb c "\" then example_markup_go rest (Plain (negb odd)) opened
          else if Ascii.eqb c "[" then example_markup_go rest (Tag odd "" false) opened
          else example_markup_go rest (Plain false) opened
      | Tag escaped EmptyString _ =>
          if Ascii.eqb c "[" then example_markup_go rest (Tag false "" false) opened
          else if tag_start c then
            example_markup_go rest (Tag escaped (String c "") false) opened
          else example_markup_go rest (Plain (Ascii.eqb c "\")) opened
      | Tag escaped read odd =>
          if Ascii.eqb c "]" then
            if escaped then example_markup_go rest (Plain false) opened
            else match apply_tag (String.rev read) opened with
                 | Some opened' => example_markup_go rest (Plain false) opened'
                 | None => false
                 end
          else if Ascii.eqb c "[" then example_markup_go rest (Tag odd "" false) opened
          else if Ascii.eqb c "\" then
            example_markup_go rest (Tag escaped (String c read) (negb odd)) opened
          else example_markup_go rest (Tag escaped (String c read) false) opened
      end
  | EmptyString => true
  end.

Definition example_markup (text : string) : bool :=
  example_markup_go text (Plain false) [].

Definition nl : string := String "010" "".

Definition readelf_output : string :=
  "ELF Header:" +:+ nl
  +:+ "  Class:                             ELF32" +:+ nl
  +:+ "  Machine:                           ARM" +:+ nl
  +:+ "  Entry point address:               0x2000800" +:+ nl.

Definition example_tools (cmd : list string) (files : gmap string node)
    : option (Z * string * gmap string node) :=
  match cmd with
  | [_; "-h"; _] => Some (0, readelf_output, files)
  | [_; "-O"; "binary"; _; out] => Some (0, "", <[out := File [x01; x02; x03]]> files)
  | "ndstool" :: _ => Some (0, "", <["./rom.nds" := File [x4e; x44; x53]]> files)
  | _ => None
  end.

Definition example_world : world := {|
  argv := ["ndspacker"; "arm9.elf"];
  cwd := "/work";
  which := fun name =>
    if String.eqb name "llvm-readelf" then Some "/usr/bin/llvm-readelf" else None;
  spawn := example_tools;
  mkdtemp := fun sfx _ => "/tmp/tmpk3v9" +:+ sfx;
  toml_load := fun _ => Some ∅;
  suffix := fun _ => "";
  markup := example_markup;
|}.

(** The files of the examples: the working directory and an ARM9
    file in it. *)
Definition example_files : gmap string node :=
  <["arm9.elf" := File [x7f; x45; x4c; x46]]> (<["." := Dir]> ∅).

Definition example_world_arm7_elf : world := {|
  argv := ["ndspacker"; "arm9.elf"; "arm7.elf"];
  cwd := "/work";
  which := fun name =>
    if String.eqb name "llvm-readelf" then Some "/usr/bin/llvm-readelf" else None;
  spawn := example_tools;
  mkdtemp := fun sfx _ => "/tmp/tmpk3v9" +:+ sfx;
  toml_load := fun _ => Some ∅;
  suffix := fun path => if String.eqb path "arm7.nds" then ".nds" else ".elf";
  markup := example_markup;
|}.

Definition example_files_arm7_elf : gmap string node :=
  <["arm7.elf" := File [x7f; x45; x4c; x46]]> example_files.

Definition x86_readelf_output : string :=
  "ELF Header:" +:+ nl
  +:+ "  Class:                             ELF64" +:+ nl
  +:+ "  Machine:                           Advanced Micro Devices X86-64" +:+ nl
  +:+ "  Entry point address:               0x401000" +:+ nl.

Definition x86_tools (cmd : list string) (files : gmap string node)
    : option (Z * string * gmap string node) :=
  match cmd with
  | [_; "-h"; _] => Some (0, x86_readelf_output, files)
  | _ => example_tools cmd files
  end.

Definition example_world_x86 : world := {|
  argv := ["ndspacker"; "arm9.elf"];
  cwd := "/work";
  which := fun name =>
    if String.eqb name "llvm-readelf" then Some "/usr/bin/llvm-readelf" else None;
  spawn := x86_tools;
  mkdtemp := fun sfx _ => "/tmp/tmpk3v9" +:+ sfx;
  toml_load := fun _ => Some ∅;
  suffix := fun _ => ".elf";
  markup := example_markup;
|}.

(** The files of [example_files] and an empty configuration file. *)
Definition example_files_with_config : gmap string node :=
  <["/work/ndspacker.toml" := File []]> example_files.

Definition byte_of (n : Z) : byte := default x00 (Byte.of_N (Z.to_N (n mod 256))).

Definition le_u32_bytes (n : Z) : list byte :=
  [byte_of n; byte_of (n / 2 ^ 8); byte_of (n / 2 ^ 16); byte_of (n / 2 ^ 24)].

Fixpoint counting (n : nat) (k : Z) : list byte :=
  match n with
  | O => []
  | S n' => byte_of k :: counting n' (k + 1)
  end.

(** A buffer of 0x10000 bytes with offset 0x4000 at 0x30, entrypoint
    0x02380000 at 0x34 and size 0x100 at 0x3C. *)
Definition synthetic_rom : list byte :=
  replicate 0x30 x00 ++ le_u32_bytes 0x4000 ++ le_u32_bytes 0x02380000
  ++ replicate 4 x00 ++ le_u32_bytes 0x100
  ++ counting (Z.to_nat (0x10000 - 0x40)) 0.

(** Headers whose entry point address is written as [readelf] writes it. *)
Definition example_arm7_headers : gmap string string :=
  <["entry_point_address" := "0x2380000"]> ∅.

(** The command lines of the runs of the ROM builder in a trace. *)
Definition ndstool_runs (events : list event) : list (list string) :=
  omap (fun e =>
          match e with
          | Run (tool :: args) =>
              if String.eqb tool "ndstool" then Some (tool :: args) else None
          | _ => None
          end) events.


(** ** Notions of the further properties *)

(** The input files named on the command line exist; [arm9_image]
    is the path of the first. *)
Definition inputs_present (W : world) (s : state) (arm9_image : string) : Prop :=
  Py.path_str <$> argv W !! 1%nat = Some arm9_image
  /\ present (fs s) arm9_image = true
  /\ forall arm7_image,
       Py.path_str <$> argv W !! 2%nat = Some arm7_image ->
       present (fs s) arm7_image = true.

(** A probe of [shutil.which]. *)
Definition probe (e : event) : Prop := exists name, e = Which name.

(** Some tool prefix can be resolved. *)
Definition tools_found (W : world) : bool :=
  bool_decide (is_Some (which W "arm-none-eabi-readelf"))
  || bool_decide (is_Some (which W "llvm-readelf")).

(** ** Further example worlds *)

(** [example_world] with another command line. *)
Definition example_world_argv (args : list string) : world := {|
  argv := args;
  cwd := cwd example_world;
  which := which example_world;
  spawn := spawn example_world;
  mkdtemp := mkdtemp example_world;
  toml_load := toml_load example_world;
  suffix := suffix example_world;
  markup := markup example_world;
|}.

(** [example_world] with a decoder that rejects every document. *)
Definition example_world_bad_config : world := {|
  argv := argv example_world;
  cwd := cwd example_world;
  which := which example_world;
  spawn := spawn example_world;
  mkdtemp := mkdtemp example_world;
  toml_load := fun _ => None;
  suffix := suffix example_world;
  markup := example_markup;
|}.

(** [example_world] with other tools. *)
Definition example_world_tools
    (tools : list string -> gmap string node -> option (Z * string * gmap string node))
    : world := {|
  argv := argv example_world;
  cwd := cwd example_world;
  which := which example_world;
  spawn := tools;
  mkdtemp := mkdtemp example_world;
  toml_load := toml_load example_world;
  suffix := suffix example_world;
  markup := markup example_world;
|}.

(** A header dump without a machine line. *)
Definition headerless_tools (cmd : list string) (files : gmap string node)
    : option (Z * string * gmap string node) :=
  match cmd with
  | [_; "-h"; _] =>
      Some (0, "ELF Header:" +:+ nl +:+ "  Class:                             ELF32" +:+ nl,
            files)
  | _ => example_tools cmd files
  end.



(** A header dump that names the machine [type]. *)
Definition machine_tools (type : string) (cmd : list string) (files : gmap string node)
    : option (Z * string * gmap string node) :=
  match cmd with
  | [_; "-h"; _] =>
      Some (0, "ELF Header:" +:+ nl +:+ "  Machine: " +:+ type +:+ nl, files)
  | _ => example_tools cmd files
  end.

(** A header dump with an empty line. *)
Definition blank_line_output : string :=
  "ELF Header:" +:+ nl +:+ "  Machine:                           ARM" +:+ nl +:+ nl.

Definition blank_line_tools (cmd : list string) (files : gmap string node)
    : option (Z * string * gmap string node) :=
  match cmd with
  | [_; "-h"; _] => Some (0, blank_line_output, files)
  | _ => example_tools cmd files
  end.

(** The characters of a string. *)
Definition chars (s : string) : list ascii := String.list_ascii_of_string s.

(** [outside dir path]: [path] is neither [dir] nor below it. *)
Definition outside (dir path : string) : Prop := path <> dir /\ below dir path = false.

#[global] Instance outside_dec dir path : Decision (outside dir path) :=
  and_dec (not_dec (decide (path = dir))) (decide (below dir path = false)).

(** [fresh_directory dir files]: nothing is at [dir] or below it, as
    for the name of a directory that is about to be made. *)
Definition fresh_directory (dir : string) (files : gmap string node) : Prop :=
  map_Forall (fun path _ => outside dir path) files.

#[global] Instance fresh_directory_dec dir files : Decision (fresh_directory dir files) :=
  map_Forall_dec (fun path _ => outside dir path) files.

(** The texts the program prints that carry a command line, a path
    or a header value. *)
Definition free_text (text : string) : Prop :=
  (exists cmd, text = echo cmd)
  \/ (exists path, text = no_such_file path)
  \/ (exists type, text = not_arm type).

(** What is known of an exception a run ends with: the exit code of
    [sys.exit] is 1; [IndexError] needs an empty [sys.argv]; a
    [KeyError] names one of the two headers [main] looks up; the
    return code of a failed command is not zero; the error of [rich]
    needs a text that [rich] rejects. Of the other exceptions nothing
    is recorded. *)
Definition expected_error (W : world) (e : exn) : Prop :=
  match e with
  | SystemExit code => code = 1
  | IndexError => argv W = []
  | KeyError key => key = "machine" \/ key = "entry_point_address"
  | CalledProcessError returncode => returncode <> 0
  | MarkupError => exists text, free_text text /\ markup W text = false
  | ValueError | TypeError | FileNotFoundError | IsADirectoryError | TOMLDecodeError => True
  end.

(** [example_world] with a configuration file that gives the maker
    code as a number. *)
Definition example_world_numeric_maker_code : world := {|
  argv := argv example_world;
  cwd := cwd example_world;
  which := which example_world;
  spawn := spawn example_world;
  mkdtemp := mkdtemp example_world;
  toml_load := fun _ => Some (<["maker_code" := NonStr]> ∅);
  suffix := suffix example_world;
  markup := example_markup;
|}.

(** A ROM image of 0x44 bytes: an ARM7 blob of four bytes at offset
    0x40, entered at 0x02380000. *)
Definition small_rom : list byte :=
  replicate 0x30 x00 ++ le_u32_bytes 0x40 ++ le_u32_bytes 0x02380000
  ++ replicate 4 x00 ++ le_u32_bytes 4 ++ [x0a; x0b; x0c; x0d].

(** A command line that takes the ARM7 image from a ROM. *)
Definition example_world_arm7_nds : world := {|
  argv := ["ndspacker"; "arm9.elf"; "arm7.nds"];
  cwd := cwd example_world_arm7_elf;
  which := which example_world_arm7_elf;
  spawn := spawn example_world_arm7_elf;
  mkdtemp := mkdtemp example_world_arm7_elf;
  toml_load := toml_load example_world_arm7_elf;
  suffix := suffix example_world_arm7_elf;
  markup := markup example_world_arm7_elf;
|}.

Definition example_files_arm7_nds : gmap string node :=
  <["arm7.nds" := File small_rom]> example_files.

(** Tools that write nothing: [readelf] prints the dump of
    [example_tools], every other command succeeds in silence. *)
Definition quiet_tools (cmd : list string) (files : gmap string node)
    : option (Z * string * gmap string node) :=
  match cmd with
  | [_; "-h"; _] => Some (0, readelf_output, files)
  | _ => Some (0, "", files)
  end.


(** * Properties *)

(** ** The ROM header reader *)

Section RomReader.

Lemma byte_val_range b : 0 <= Py.byte_val b < 256.
Proof.
  unfold Py.byte_val. pose proof (Byte.to_N_bounded b). lia.
Qed.

Lemma byte_at_range raw i : 0 <= byte_at raw i < 256.
Proof.
  unfold byte_at. destruct (raw !! i); simpl; [apply byte_val_range | lia].
Qed.

Lemma byte_at_past_end raw i : (length raw <= i)%nat -> byte_at raw i = 0.
Proof.
  intros H. unfold byte_at. by rewrite lookup_ge_None_2.
Qed.

Lemma le_u32_at_range raw off : 0 <= le_u32_at raw off < 2 ^ 32.
Proof.
  unfold le_u32_at.
  pose proof (byte_at_range raw off). pose proof (byte_at_range raw (off + 1)).
  pose proof (byte_at_range raw (off + 2)). pose proof (byte_at_range raw (off + 3)).
  lia.
Qed.

Lemma le_u32_at_past_end raw off : (length raw <= off)%nat -> le_u32_at raw off = 0.
Proof.
  intros H. unfold le_u32_at. rewrite !byte_at_past_end by lia. lia.
Qed.

(** A slice between two indices that are not negative, the second not
    below the first, is a [take] of a [drop]. *)
Lemma slice_forward {A} (l : list A) lo n :
  0 <= lo -> 0 <= n ->
  Py.slice l lo (lo + n) = take (Z.to_nat n) (drop (Z.to_nat lo) l).
Proof.
  intros Hlo Hn. unfold Py.slice, Py.slice_index.
  destruct (Z.ltb_spec lo 0); [lia|].
  destruct (Z.ltb_spec (lo + n) 0); [lia|].
  destruct (Z.le_gt_cases lo (Z.of_nat (length l))) as [Hin | Hout].
  - rewrite (Z.min_l lo) by done.
    destruct (Z.le_gt_cases (lo + n) (Z.of_nat (length l))).
    + rewrite Z.min_l by done. f_equal. lia.
    + rewrite Z.min_r by lia.
      rewrite !take_ge; [done | rewrite length_drop; lia | rewrite length_drop; lia].
  - rewrite !Z.min_r by lia. rewrite Z.sub_diag.
    rewrite (drop_ge l (Z.to_nat lo)) by lia. by rewrite take_nil.
Qed.

Lemma int_from_bytes_take4 raw off :
  Py.int_from_bytes_little (take 4 (drop off raw)) = le_u32_at raw off.
Proof.
  unfold le_u32_at, byte_at.
  replace (raw !! off) with (drop off raw !! 0%nat)
    by (rewrite lookup_drop; f_equal; lia).
  rewrite <- !lookup_drop.
  destruct (drop off raw) as [|b0 [|b1 [|b2 [|b3 rest]]]]; simpl; lia.
Qed.

Lemma field_read raw (off : nat) :
  Py.int_from_bytes_little (Py.slice raw (Z.of_nat off) (Z.of_nat off + 4))
  = le_u32_at raw off.
Proof.
  rewrite slice_forward by lia. rewrite Nat2Z.id.
  apply int_from_bytes_take4.
Qed.

(** The reader returns the field at 0x34 and the range the fields at
    0x30 and 0x3C give, cut at the end of the input. *)
Lemma read_arm7_from_rom_eq raw :
  read_arm7_from_rom raw
  = (le_u32_at raw 0x34,
     byte_range raw (le_u32_at raw 0x30) (le_u32_at raw 0x3C)).
Proof.
  unfold read_arm7_from_rom, byte_range.
  assert (Hentry : Py.int_from_bytes_little (Py.slice raw 0x34 (0x34 + 4))
                   = le_u32_at raw 0x34) by exact (field_read raw 0x34).
  assert (Hoffset : Py.int_from_bytes_little (Py.slice raw 0x30 (0x30 + 4))
                    = le_u32_at raw 0x30) by exact (field_read raw 0x30).
  assert (Hsize : Py.int_from_bytes_little (Py.slice raw 0x3C (0x3C + 4))
                  = le_u32_at raw 0x3C) by exact (field_read raw 0x3C).
  rewrite Hentry, Hoffset, Hsize.
  rewrite slice_forward; [done | apply le_u32_at_range ..].
Qed.

End RomReader.

(** C1: on an input of at least 0x40 bytes whose fields satisfy
    [rom_offset + rom_size <= len(raw_rom)], [read_arm7_from_rom]
    returns the little-endian field at 0x34 as entrypoint and, as blob,
    exactly the bytes from [rom_offset] up to [rom_offset + rom_size],
    both read little-endian at 0x30 and 0x3C. *)
Theorem read_arm7_from_rom_in_bounds (raw_rom : list byte) :
  let rom_offset := le_u32_at raw_rom 0x30 in
  let rom_size := le_u32_at raw_rom 0x3C in
  0x40 <= Z.of_nat (length raw_rom) ->
  rom_offset + rom_size <= Z.of_nat (length raw_rom) ->
  read_arm7_from_rom raw_rom
    = (le_u32_at raw_rom 0x34, byte_range raw_rom rom_offset rom_size)
  /\ Z.of_nat (length (byte_range raw_rom rom_offset rom_size)) = rom_size
  /\ forall i : nat, Z.of_nat i < rom_size ->
       byte_range raw_rom rom_offset rom_size !! i
       = raw_rom !! (Z.to_nat rom_offset + i)%nat
       /\ is_Some (raw_rom !! (Z.to_nat rom_offset + i)%nat).
Proof.
  intros rom_offset rom_size Hlen Hfit.
  pose proof (le_u32_at_range raw_rom 0x30) as Hoff.
  pose proof (le_u32_at_range raw_rom 0x3C) as Hsize.
  fold rom_offset in Hoff. fold rom_size in Hsize.
  split; [apply read_arm7_from_rom_eq|].
  unfold byte_range. split.
  - rewrite length_take, length_drop. lia.
  - intros i Hi. split.
    + rewrite lookup_take_lt by lia. apply lookup_drop.
    + apply lookup_lt_is_Some. lia.
Qed.

Lemma read_arm7_from_rom_in_bounds_witness :
  Z.of_nat (length synthetic_rom) = 0x10000
  /\ le_u32_at synthetic_rom 0x30 = 0x4000
  /\ le_u32_at synthetic_rom 0x3C = 0x100
  /\ read_arm7_from_rom synthetic_rom
     = (0x02380000, Py.slice synthetic_rom 0x4000 0x4100).
Proof.
  split; [vm_compute; reflexivity|].
  split; [vm_compute; reflexivity|].
  split; [vm_compute; reflexivity|].
  assert (H1 : 0x40 <= Z.of_nat (length synthetic_rom))
    by (apply Z.leb_le; vm_compute; reflexivity).
  assert (H2 : le_u32_at synthetic_rom 0x30 + le_u32_at synthetic_rom 0x3C
               <= Z.of_nat (length synthetic_rom))
    by (apply Z.leb_le; vm_compute; reflexivity).
  destruct (read_arm7_from_rom_in_bounds synthetic_rom H1 H2) as [-> _].
  vm_compute. reflexivity.
Defined.

(** C2: [read_arm7_from_rom] returns on every input. The entrypoint is
    read from the bytes that exist at 0x34 to 0x37, a missing byte
    counting as zero; the blob is the range the fields give, cut at the
    end of the input, and empty when it starts past the end. *)
Theorem read_arm7_from_rom_total (raw_rom : list byte) :
  let rom_offset := le_u32_at raw_rom 0x30 in
  let rom_size := le_u32_at raw_rom 0x3C in
  let len := Z.of_nat (length raw_rom) in
  exists entrypoint blob,
    read_arm7_from_rom raw_rom = (entrypoint, blob)
    /\ entrypoint = le_u32_at raw_rom 0x34
    /\ 0 <= entrypoint < 2 ^ 32
    /\ blob = byte_range raw_rom rom_offset rom_size
    /\ Z.of_nat (length blob) = Z.max 0 (Z.min rom_size (len - rom_offset))
    /\ (forall i : nat, (i < length blob)%nat ->
          blob !! i = raw_rom !! (Z.to_nat rom_offset + i)%nat)
    /\ (len <= 0x34 -> entrypoint = 0)
    /\ (len <= 0x3C -> blob = [])
    /\ (len <= rom_offset -> blob = []).
Proof.
  intros rom_offset rom_size len.
  pose proof (le_u32_at_range raw_rom 0x30) as Hoff.
  pose proof (le_u32_at_range raw_rom 0x3C) as Hsize.
  fold rom_offset in Hoff. fold rom_size in Hsize.
  exists (le_u32_at raw_rom 0x34), (byte_range raw_rom rom_offset rom_size).
  split; [apply read_arm7_from_rom_eq|].
  split; [done|]. split; [apply le_u32_at_range|]. split; [done|].
  unfold byte_range. split; [rewrite length_take, length_drop; lia|].
  split.
  { intros i Hi. rewrite length_take in Hi.
    rewrite lookup_take_lt by lia. apply lookup_drop. }
  split; [intros Hshort; apply le_u32_at_past_end; lia|].
  split.
  - intros Hshort. subst rom_size. rewrite le_u32_at_past_end by lia. done.
  - intros Hpast. rewrite drop_ge by lia. by rewrite take_nil.
Qed.

Lemma read_arm7_from_rom_total_witness :
  read_arm7_from_rom [] = (0, [])
  /\ read_arm7_from_rom (take 0x37 synthetic_rom) = (0x380000, [])
  /\ exists blob,
       read_arm7_from_rom (take (Z.to_nat 0x4010) synthetic_rom) = (0x02380000, blob)
       /\ length blob = 0x10%nat.
Proof.
  destruct (read_arm7_from_rom_total (take (Z.to_nat 0x4010) synthetic_rom))
    as (entrypoint & blob & Hread & -> & _ & -> & Hlen & _).
  split; [reflexivity|]. split; [vm_compute; reflexivity|].
  eexists. split; [rewrite Hread; f_equal; vm_compute; reflexivity|].
  apply Nat2Z.inj. rewrite Hlen. vm_compute. reflexivity.
Defined.

(** ** Texts *)

Lemma append_nil_l (t : string) : "" +:+ t = t.
Proof. reflexivity. Qed.

Lemma append_cons c (s t : string) : String c s +:+ t = String c (s +:+ t).
Proof. reflexivity. Qed.

Lemma length_append (s t : string) :
  String.length (s +:+ t) = (String.length s + String.length t)%nat.
Proof.
  induction s as [|c s IH]; [done|].
  rewrite append_cons. cbn [String.length]. by rewrite IH.
Qed.

Lemma append_same_length_inv (s1 s2 t1 t2 : string) :
  s1 +:+ t1 = s2 +:+ t2 -> String.length t1 = String.length t2 -> t1 = t2.
Proof.
  revert s2. induction s1 as [|c s1 IH]; intros [|c' s2] Heq Hlen;
    rewrite ?append_nil_l, ?append_cons in Heq.
  - done.
  - subst t1. cbn [String.length] in Hlen. rewrite length_append in Hlen. lia.
  - subst t2. cbn [String.length] in Hlen. rewrite length_append in Hlen. lia.
  - injection Heq as _ Heq. by eapply IH.
Qed.

Lemma saved_paths_differ dir dir' :
  joinpath dir "arm9.tmp.bin" <> joinpath dir' "arm7.tmp.bin".
Proof.
  unfold joinpath. intros Heq.
  by apply append_same_length_inv in Heq.
Qed.

(** A file of a directory is not the directory. *)
Lemma joinpath_neq dir name : joinpath dir name <> dir.
Proof.
  unfold joinpath. intros Heq.
  apply (f_equal String.length) in Heq.
  rewrite !length_append in Heq. cbn [String.length] in Heq. lia.
Qed.

(** ** Runs and their traces *)

Section Runs.

Context (W : world) (TOOL_PREFIX : string).

Lemma bind_run {A B} (m : M A) (f : A -> M B) s :
  (m ≫= f) s
  = match m s with
    | (Ok a, s') => f a s'
    | (Raise e, s') => (Raise e, s')
    end.
Proof. reflexivity. Qed.

Lemma ret_run {A} (a : A) s : (mret a : M A) s = (Ok a, s).
Proof. reflexivity. Qed.

Lemma raise_run {A} e s : @raise A e s = (Raise e, s).
Proof. reflexivity. Qed.

Lemma lift_run {A} (r : result A) s : lift r s = (r, s).
Proof. reflexivity. Qed.

Lemma path_exists_run path s : path_exists path s = (Ok (present (fs s) path), s).
Proof. reflexivity. Qed.

Lemma rich_print_run text s :
  rich_print W text s = (if markup W text then Ok tt else Raise MarkupError, s).
Proof. unfold rich_print. by destruct (markup W text). Qed.

Lemma exit_with_run text s : exit_with W text s = (Raise (exit_error W text), s).
Proof.
  unfold exit_with, exit_error. rewrite bind_run, rich_print_run.
  by destruct (markup W text).
Qed.

Lemma exit_status_exit_error text :
  exit_status (Raise (exit_error W text) : result unit) = 1.
Proof. unfold exit_error. by destruct (markup W text). Qed.

Lemma extends_refl P s : extends P s s.
Proof. exists []. by rewrite app_nil_r. Qed.

Lemma extends_trans P s1 s2 s3 :
  extends P s1 s2 -> extends P s2 s3 -> extends P s1 s3.
Proof.
  intros (evs1 & H1 & HP1) (evs2 & H2 & HP2). exists (evs1 ++ evs2).
  split; [by rewrite H2, H1, app_assoc | by apply Forall_app].
Qed.

Lemma extends_one (P : event -> Prop) s files e :
  P e -> extends P s (State files (trace s ++ [e])).
Proof. intros He. exists [e]. split; [done | by constructor]. Qed.

Lemma emits_ret {A} P (a : A) : emits P (mret a).
Proof. intros s. apply extends_refl. Qed.

Lemma emits_raise {A} P e : emits P (@raise A e).
Proof. intros s. apply extends_refl. Qed.

Lemma emits_lift {A} P (r : result A) : emits P (lift r).
Proof. intros s. apply extends_refl. Qed.

Lemma emits_bind {A B} P (m : M A) (f : A -> M B) :
  emits P m -> (forall a, emits P (f a)) -> emits P (m ≫= f).
Proof.
  intros Hm Hf s. rewrite bind_run. specialize (Hm s).
  destruct (m s) as [[a|e] s']; simpl in *; [|done].
  eapply extends_trans; [done | apply Hf].
Qed.

Lemma emits_read_bytes P path : emits P (read_bytes path).
Proof.
  intros s. unfold read_bytes. destruct (fs s !! path) as [[]|]; apply extends_refl.
Qed.

Lemma emits_rich_print P text : emits P (rich_print W text).
Proof. intros s. rewrite rich_print_run. apply extends_refl. Qed.

Lemma emits_subprocess_run (P : event -> Prop) cmd :
  P (Run cmd) -> emits P (subprocess_run W cmd).
Proof.
  intros He s. unfold subprocess_run.
  destruct (existsb Py.has_nul cmd); [apply extends_refl|]. cbn [fs trace].
  destruct (spawn W cmd (fs s)) as [[[rc out] files]|]; by apply extends_one.
Qed.

Lemma emits_run_with_echo (P : event -> Prop) command :
  (forall cmd, strings_of command = Some cmd -> P (Run cmd)) ->
  emits P (run_with_echo W command).
Proof.
  intros He. unfold run_with_echo.
  destruct command as [|c command]; [apply emits_raise|].
  destruct (strings_of (c :: command)) as [cmd|]; [|apply emits_raise].
  apply emits_bind; [apply emits_rich_print|].
  intros _. by apply emits_subprocess_run, He.
Qed.

Lemma emits_TemporaryDirectory {A} (P : event -> Prop) sfx (body : string -> M A) :
  (forall dir, P (Mkdtemp sfx dir)) -> (forall dir, P (Rmtree dir)) ->
  (forall dir, emits P (body dir)) ->
  emits P (TemporaryDirectory W sfx body).
Proof.
  intros Hmk Hrm Hbody s. unfold TemporaryDirectory.
  set (dir := mkdtemp W sfx (fs s)).
  specialize (Hbody dir (State (<[dir:=Dir]> (fs s)) (trace s ++ [Mkdtemp sfx dir]))).
  destruct (body dir _) as [r s']. simpl in *.
  eapply extends_trans; [by apply (extends_one P s (fs s)), Hmk|].
  eapply extends_trans; [apply Hbody|]. by apply extends_one.
Qed.

Lemma emits_get_elf_headers elf_path :
  emits (tool_event TOOL_PREFIX) (get_elf_headers W TOOL_PREFIX elf_path).
Proof.
  unfold get_elf_headers. apply emits_bind; [|intros; apply emits_lift].
  apply emits_run_with_echo. intros cmd [= <-]. left. by eexists.
Qed.

Lemma emits_read_from_elf elf_path :
  emits (tool_event TOOL_PREFIX) (read_from_elf W TOOL_PREFIX elf_path).
Proof.
  unfold read_from_elf. apply emits_TemporaryDirectory; [done..|].
  intros dir. apply emits_bind; [|intros; apply emits_read_bytes].
  apply emits_run_with_echo. intros cmd [= <-]. right. by do 2 eexists.
Qed.

Lemma load_packer_settings_state s : (load_packer_settings W s).2 = s.
Proof.
  unfold load_packer_settings, try_except_FileNotFoundError.
  rewrite bind_run. unfold read_bytes.
  destruct (fs s !! _) as [[content|]|]; try done.
  by destruct (toml_load W content).
Qed.

Lemma emits_read_arm7 arm7_image :
  emits (tool_event TOOL_PREFIX) (read_arm7 W TOOL_PREFIX arm7_image).
Proof.
  unfold read_arm7. destruct arm7_image as [path|]; [|apply emits_ret].
  destruct (String.eqb _ _).
  - apply emits_bind; [apply emits_read_bytes | intros; apply emits_ret].
  - apply emits_bind; [apply emits_get_elf_headers | intros].
    apply emits_bind; [apply emits_lift | intros].
    apply emits_bind; [apply emits_read_from_elf | intros; apply emits_ret].
Qed.

Lemma read_arm7_default s :
  read_arm7 W TOOL_PREFIX None s = (Ok (0x2380000, [xfe; xff; xff; xea]), s).
Proof. reflexivity. Qed.

(** *** The program as a tree of cases *)

Lemma strings_of_strings (cmd : list string) : strings_of (Str <$> cmd) = Some cmd.
Proof. induction cmd as [|c cmd IH]; [done|]. cbn. by rewrite IH. Qed.

(** [run_with_echo] on a command of strings: the command is started
    unless it is refused, and the result is its output when it
    returns zero. *)
Lemma run_with_echo_strings (cmd : list string) s :
  cmd <> [] ->
  run_with_echo W (Str <$> cmd) s
  = match refused W cmd with
    | Some e => (Raise e, s)
    | None =>
        match spawn W cmd (fs s) with
        | None => (Raise FileNotFoundError, State (fs s) (trace s ++ [Run cmd]))
        | Some (returncode, stdout, files) =>
            (if returncode =? 0 then Ok stdout else Raise (CalledProcessError returncode),
             State files (trace s ++ [Run cmd]))
        end
    end.
Proof.
  intros Hne. unfold run_with_echo, refused.
  destruct cmd as [|tool args]; [done|].
  rewrite fmap_cons. cbv iota. rewrite <- fmap_cons.
  rewrite strings_of_strings, bind_run, rich_print_run.
  destruct (markup W (echo (tool :: args))); [|done]. cbn [negb].
  unfold subprocess_run. by destruct (existsb Py.has_nul (tool :: args)).
Qed.

(** [run_with_echo] on any command that is not empty. *)
Lemma run_with_echo_cases (command : list pyobj) s :
  command <> [] ->
  run_with_echo W command s
  = match strings_of command with
    | None => (Raise TypeError, s)
    | Some cmd =>
        match refused W cmd with
        | Some e => (Raise e, s)
        | None =>
            match spawn W cmd (fs s) with
            | None => (Raise FileNotFoundError, State (fs s) (trace s ++ [Run cmd]))
            | Some (returncode, stdout, files) =>
                (if returncode =? 0 then Ok stdout
                 else Raise (CalledProcessError returncode),
                 State files (trace s ++ [Run cmd]))
            end
        end
    end.
Proof.
  intros Hne. unfold run_with_echo, refused.
  destruct command as [|c command]; [done|].
  destruct (strings_of (c :: command)) as [cmd|]; [|done].
  rewrite bind_run, rich_print_run.
  destruct (markup W (echo cmd)); [|done]. cbn [negb].
  unfold subprocess_run. by destruct (existsb Py.has_nul cmd).
Qed.

(** A command is refused with [MarkupError] or [ValueError]. *)
Lemma refused_error cmd e :
  refused W cmd = Some e ->
  (e = MarkupError /\ markup W (echo cmd) = false) \/ e = ValueError.
Proof.
  unfold refused. destruct (markup W (echo cmd)); cbn [negb].
  - destruct (existsb _ _); [|done]. intros [= <-]. by right.
  - intros [= <-]. by left.
Qed.

(** [get_elf_headers] as cases on what the tool does. *)
Lemma get_elf_headers_cases elf_path s :
  get_elf_headers W TOOL_PREFIX elf_path s
  = let cmd := [TOOL_PREFIX +:+ "readelf"; "-h"; elf_path] in
    match refused W cmd with
    | Some e => (Raise e, s)
    | None =>
        match spawn W cmd (fs s) with
        | None => (Raise FileNotFoundError, State (fs s) (trace s ++ [Run cmd]))
        | Some (returncode, stdout, files) =>
            (if returncode =? 0
             then parse_header_lines (drop 1 (Py.splitlines stdout)) ∅
             else Raise (CalledProcessError returncode),
             State files (trace s ++ [Run cmd]))
        end
    end.
Proof.
  unfold get_elf_headers. rewrite bind_run.
  change [Str (TOOL_PREFIX +:+ "readelf"); Str "-h"; Str elf_path]
    with (Str <$> [TOOL_PREFIX +:+ "readelf"; "-h"; elf_path]).
  rewrite run_with_echo_strings by done. cbv zeta.
  destruct (refused W _); [done|].
  destruct (spawn W _ (fs s)) as [[[rc out] files]|]; [|done].
  by destruct (rc =? 0).
Qed.

(** [read_from_elf] as cases on what the tool does. *)
Lemma read_from_elf_cases elf_path s :
  read_from_elf W TOOL_PREFIX elf_path s
  = let tdir := mkdtemp W "" (fs s) in
    let cmd := [TOOL_PREFIX +:+ "objcopy"; "-O"; "binary"; elf_path; joinpath tdir "out.o"] in
    let events := [Mkdtemp "" tdir; Run cmd; Rmtree tdir] in
    match refused W cmd with
    | Some e =>
        (Raise e,
         State (rmtree tdir (<[tdir := Dir]> (fs s)))
           (trace s ++ [Mkdtemp "" tdir; Rmtree tdir]))
    | None =>
        match spawn W cmd (<[tdir := Dir]> (fs s)) with
        | None =>
            (Raise FileNotFoundError,
             State (rmtree tdir (<[tdir := Dir]> (fs s))) (trace s ++ events))
        | Some (returncode, stdout, files) =>
            (if returncode =? 0 then
               match files !! joinpath tdir "out.o" with
               | Some (File content) => Ok content
               | Some Dir => Raise IsADirectoryError
               | None => Raise FileNotFoundError
               end
             else Raise (CalledProcessError returncode),
             State (rmtree tdir files) (trace s ++ events))
        end
    end.
Proof.
  unfold read_from_elf, TemporaryDirectory. cbv zeta.
  set (tdir := mkdtemp W "" (fs s)).
  rewrite bind_run.
  change [Str (TOOL_PREFIX +:+ "objcopy"); Str "-O"; Str "binary"; Str elf_path;
          Str (joinpath tdir "out.o")]
    with (Str <$> [TOOL_PREFIX +:+ "objcopy"; "-O"; "binary"; elf_path;
                   joinpath tdir "out.o"]).
  rewrite run_with_echo_strings by done. cbn [fs trace].
  destruct (refused W _).
  { cbn [fs trace]. by rewrite <- !app_assoc. }
  destruct (spawn W _ _) as [[[rc out] files]|].
  2: { cbn [fs trace]. by rewrite <- !app_assoc. }
  destruct (rc =? 0).
  2: { cbn [fs trace]. by rewrite <- !app_assoc. }
  unfold read_bytes. cbn [fs trace].
  destruct (files !! joinpath tdir "out.o") as [[content|]|];
    cbn [fs trace]; by rewrite <- !app_assoc.
Qed.

(** [read_arm7] as cases. *)
Lemma read_arm7_cases arm7_image s :
  read_arm7 W TOOL_PREFIX arm7_image s
  = match arm7_image with
    | None => (Ok (0x2380000, [xfe; xff; xff; xea]), s)
    | Some path =>
        if String.eqb (suffix W path) ".nds" then
          match fs s !! path with
          | Some (File raw_data) => (Ok (read_arm7_from_rom raw_data), s)
          | Some Dir => (Raise IsADirectoryError, s)
          | None => (Raise FileNotFoundError, s)
          end
        else
          match get_elf_headers W TOOL_PREFIX path s with
          | (Raise e, s1) => (Raise e, s1)
          | (Ok arm7_headers, s1) =>
              match arm7_entry_point arm7_headers with
              | Raise e => (Raise e, s1)
              | Ok arm7_ep =>
                  match read_from_elf W TOOL_PREFIX path s1 with
                  | (Raise e, s2) => (Raise e, s2)
                  | (Ok arm7_data, s2) => (Ok (arm7_ep, arm7_data), s2)
                  end
              end
          end
    end.
Proof.
  unfold read_arm7. destruct arm7_image as [path|]; [|done].
  destruct (String.eqb _ _).
  - rewrite bind_run. unfold read_bytes. by destruct (fs s !! path) as [[]|].
  - rewrite bind_run.
    destruct (get_elf_headers W TOOL_PREFIX path s) as [[arm7_headers|e] s1]; [|done].
    rewrite bind_run, lift_run.
    destruct (arm7_entry_point arm7_headers) as [arm7_ep|e]; [|done].
    rewrite bind_run.
    by destruct (read_from_elf W TOOL_PREFIX path s1) as [[arm7_data|e] s2].
Qed.

(** [main] as cases: each step either ends the run or hands its
    result to the next one. *)
Lemma main_cases s :
  main W TOOL_PREFIX s
  = match Py.path_str <$> argv W !! 1%nat with
    | None =>
        (Raise (match argv W !! 0%nat with
                | Some _ => SystemExit 1
                | None => IndexError
                end), s)
    | Some arm9_image =>
        match missing_input W s with
        | Some path => (Raise (exit_error W (no_such_file path)), s)
        | None =>
          match load_packer_settings W s with
          | (Raise e, s0) => (Raise e, s0)
          | (Ok packer_settings, _) =>
              match get_elf_headers W TOOL_PREFIX arm9_image s with
              | (Raise e, s1) => (Raise e, s1)
              | (Ok arm9_headers, s1) =>
                  match arm9_headers !! "machine" with
                  | None => (Raise (KeyError "machine"), s1)
                  | Some type =>
                      if negb (String.eqb type "ARM")
                      then (Raise (exit_error W (not_arm type)), s1)
                      else
                        match arm9_entry_point arm9_headers with
                        | Raise e => (Raise e, s1)
                        | Ok arm9_ep =>
                            match read_from_elf W TOOL_PREFIX arm9_image s1 with
                            | (Raise e, s2) => (Raise e, s2)
                            | (Ok arm9_data, s2) =>
                                match read_arm7 W TOOL_PREFIX
                                        (Py.path_str <$> argv W !! 2%nat) s2 with
                                | (Raise e, s3) => (Raise e, s3)
                                | (Ok (arm7_ep, arm7_data), s3) =>
                                    packer_invocation W arm9_ep arm9_data arm7_ep arm7_data
                                      (metadata packer_settings).1.1
                                      (metadata packer_settings).1.2
                                      (metadata packer_settings).2 s3
                                end
                            end
                        end
                  end
              end
          end
        end
    end.
Proof.
  unfold main, missing_input.
  destruct (argv W !! 1%nat) as [arg|]; cbn [fmap option_fmap option_map].
  2: { by destruct (argv W !! 0%nat). }
  rewrite bind_run, ret_run, bind_run, path_exists_run, bind_run.
  destruct (present (fs s) (Py.path_str arg)); [|by rewrite exit_with_run].
  rewrite ret_run, bind_run.
  destruct (argv W !! 2%nat) as [arg7|]; cbn [fmap option_fmap option_map].
  1: rewrite bind_run, path_exists_run;
     destruct (present (fs s) (Py.path_str arg7)); [|by rewrite exit_with_run].
  all: rewrite ret_run, bind_run.
  all: pose proof (load_packer_settings_state s) as Hstate.
  all: destruct (load_packer_settings W s) as [[settings|e] s0]; [|done].
  all: cbn [snd] in Hstate; subst s0.
  all: rewrite bind_run.
  all: destruct (get_elf_headers W TOOL_PREFIX (Py.path_str arg) s)
         as [[arm9_headers|e] s1]; [|done].
  all: rewrite bind_run, lift_run; unfold Py.getitem.
  all: destruct (arm9_headers !! "machine") as [type|]; [|done].
  all: rewrite bind_run.
  all: destruct (String.eqb type "ARM"); [|by rewrite exit_with_run].
  all: rewrite ret_run, bind_run, lift_run; cbn [negb].
  all: destruct (arm9_entry_point arm9_headers) as [arm9_ep|e]; [|done].
  all: rewrite bind_run.
  all: destruct (read_from_elf W TOOL_PREFIX (Py.path_str arg) s1)
         as [[arm9_data|e] s2]; [|done].
  all: rewrite bind_run.
  - by destruct (read_arm7 W TOOL_PREFIX (Some (Py.path_str arg7)) s2)
      as [[[arm7_ep arm7_data]|e] s3].
  - by destruct (read_arm7 W TOOL_PREFIX None s2) as [[[arm7_ep arm7_data]|e] s3].
Qed.

(** [packer_invocation] as cases. A file cannot be saved where a
    directory is in the way. *)
Lemma packer_invocation_cases arm9_ep arm9_data arm7_ep arm7_data mk gc gt s :
  let dir := mkdtemp W "ndspacker" (fs s) in
  let saved_arm9 := joinpath dir "arm9.tmp.bin" in
  let saved_arm7 := joinpath dir "arm7.tmp.bin" in
  let made := <[dir := Dir]> (fs s) in
  let saved := <[saved_arm7 := File arm7_data]> (<[saved_arm9 := File arm9_data]> made) in
  let written := [Mkdtemp "ndspacker" dir; WriteBytes saved_arm9 arm9_data;
                  WriteBytes saved_arm7 arm7_data] in
  packer_invocation W arm9_ep arm9_data arm7_ep arm7_data mk gc gt s
  = match fs s !! saved_arm9, fs s !! saved_arm7 with
    | Some Dir, _ =>
        (Raise IsADirectoryError,
         State (rmtree dir made) (trace s ++ [Mkdtemp "ndspacker" dir; Rmtree dir]))
    | _, Some Dir =>
        (Raise IsADirectoryError,
         State (rmtree dir (<[saved_arm9 := File arm9_data]> made))
           (trace s ++ [Mkdtemp "ndspacker" dir; WriteBytes saved_arm9 arm9_data;
                        Rmtree dir]))
    | _, _ =>
      match Py.str arm9_ep with
      | Raise e => (Raise e, State (rmtree dir saved) (trace s ++ written ++ [Rmtree dir]))
      | Ok e9 =>
          match Py.str arm7_ep with
          | Raise e => (Raise e, State (rmtree dir saved) (trace s ++ written ++ [Rmtree dir]))
          | Ok e7 =>
              match strings_of (ndstool_command saved_arm9 saved_arm7 e9 e7 gc mk gt) with
              | None =>
                  (Raise TypeError,
                   State (rmtree dir saved) (trace s ++ written ++ [Rmtree dir]))
              | Some cmd =>
                  match refused W cmd with
                  | Some e =>
                      (Raise e,
                       State (rmtree dir saved) (trace s ++ written ++ [Rmtree dir]))
                  | None =>
                      match spawn W cmd saved with
                      | None =>
                          (Raise FileNotFoundError,
                           State (rmtree dir saved)
                             (trace s ++ written ++ [Run cmd; Rmtree dir]))
                      | Some (returncode, stdout, files) =>
                          (if returncode =? 0 then Ok tt
                           else Raise (CalledProcessError returncode),
                           State (rmtree dir files)
                             (trace s ++ written ++ [Run cmd; Rmtree dir]))
                      end
                  end
              end
          end
      end
    end.
Proof.
  intros dir saved_arm9 saved_arm7 made saved written. subst made saved written.
  unfold packer_invocation, TemporaryDirectory. fold dir saved_arm9 saved_arm7.
  rewrite bind_run. unfold write_bytes at 1. cbn [fs trace].
  rewrite lookup_insert_ne by (symmetry; apply joinpath_neq).
  destruct (fs s !! saved_arm9) as [[content9|]|].
  2: { cbn [fs trace]. destruct (fs s !! saved_arm7) as [[?|]|]; by rewrite <- !app_assoc. }
  all: rewrite bind_run; unfold write_bytes at 1; cbn [fs trace].
  all: rewrite lookup_insert_ne by apply saved_paths_differ.
  all: rewrite lookup_insert_ne by (symmetry; apply joinpath_neq).
  all: destruct (fs s !! saved_arm7) as [[content7|]|];
    [|cbn [fs trace]; by rewrite <- !app_assoc|].
  all: rewrite bind_run, lift_run.
  all: destruct (Py.str arm9_ep) as [e9|e];
    [|cbn [fs trace]; by rewrite <- !app_assoc].
  all: rewrite bind_run, lift_run.
  all: destruct (Py.str arm7_ep) as [e7|e];
    [|cbn [fs trace]; by rewrite <- !app_assoc].
  all: rewrite bind_run, run_with_echo_cases by done.
  all: destruct (strings_of _) as [cmd|];
    [|cbn [fs trace]; by rewrite <- !app_assoc].
  all: destruct (refused W cmd);
    [cbn [fs trace]; by rewrite <- !app_assoc|].
  all: cbn [fs trace].
  all: destruct (spawn W cmd _) as [[[rc out] files]|];
    [|cbn [fs trace]; by rewrite <- !app_assoc].
  all: destruct (rc =? 0); [rewrite ret_run|]; cbn [fs trace]; by rewrite <- !app_assoc.
Qed.

(** The events of [packer_invocation]. *)
Lemma packer_invocation_run arm9_ep arm9_data arm7_ep arm7_data mk gc gt s :
  let dir := mkdtemp W "ndspacker" (fs s) in
  exists files body,
    (packer_invocation W arm9_ep arm9_data arm7_ep arm7_data mk gc gt s).2
    = State (rmtree dir files) (trace s ++ Mkdtemp "ndspacker" dir :: body ++ [Rmtree dir])
    /\ packer_events dir arm9_ep arm9_data arm7_ep arm7_data mk gc gt body.
Proof.
  intros dir. rewrite packer_invocation_cases. cbv zeta. fold dir.
  unfold packer_events.
  set (w9 := WriteBytes (joinpath dir "arm9.tmp.bin") arm9_data).
  set (w7 := WriteBytes (joinpath dir "arm7.tmp.bin") arm7_data).
  destruct (fs s !! joinpath dir "arm9.tmp.bin") as [[content9|]|].
  2: { destruct (fs s !! joinpath dir "arm7.tmp.bin") as [[?|]|];
         (eexists _, []; split; [done | by left]). }
  all: destruct (fs s !! joinpath dir "arm7.tmp.bin") as [[content7|]|];
    [|eexists _, [w9]; split; [done | by auto]|].
  all: destruct (Py.str arm9_ep) as [e9|e] eqn:Hstr9;
    [|eexists _, [w9; w7]; split; [done | by auto]].
  all: destruct (Py.str arm7_ep) as [e7|e] eqn:Hstr7;
    [|eexists _, [w9; w7]; split; [done | by auto]].
  all: destruct (strings_of _) as [cmd|] eqn:Hcmd;
    [|eexists _, [w9; w7]; split; [done | by auto]].
  all: destruct (refused W cmd);
    [eexists _, [w9; w7]; split; [done | by auto]|].
  all: destruct (spawn W cmd _) as [[[rc out] files]|].
  all: eexists _, [w9; w7; Run cmd]; (split; [done|]).
  all: right; right; right; by exists e9, e7, cmd.
Qed.

(** With the inputs present, no check of [main] fails. *)
Lemma inputs_present_checks s arm9_image :
  inputs_present W s arm9_image -> missing_input W s = None.
Proof.
  intros (Hargv & Harm9 & Harm7). unfold missing_input.
  rewrite Hargv, Harm9.
  destruct (Py.path_str <$> argv W !! 2%nat) as [arm7_image|]; [|done].
  by rewrite (Harm7 arm7_image).
Qed.

(** A path that is missing is a path of the command line at which
    nothing is. *)
Lemma missing_input_absent s path :
  missing_input W s = Some path ->
  present (fs s) path = false
  /\ (Py.path_str <$> argv W !! 1%nat = Some path
      \/ Py.path_str <$> argv W !! 2%nat = Some path).
Proof.
  unfold missing_input.
  destruct (Py.path_str <$> argv W !! 1%nat) as [arm9_image|]; [|done].
  destruct (present (fs s) arm9_image) eqn:Harm9.
  - destruct (Py.path_str <$> argv W !! 2%nat) as [arm7_image|]; [|done].
    destruct (present (fs s) arm7_image) eqn:Harm7; [done|].
    intros [= <-]. auto.
  - intros [= <-]. auto.
Qed.

(** Either [main] stops before the ROM builder, having added only tool
    events, or it reaches [packer_invocation] after tool events only. *)
Lemma main_shape s :
  (extends (tool_event TOOL_PREFIX) s (main W TOOL_PREFIX s).2
   /\ exists e, (main W TOOL_PREFIX s).1 = Raise e)
  \/ exists s1 arm9_ep arm9_data arm7_ep arm7_data settings,
       extends (tool_event TOOL_PREFIX) s s1
       /\ (load_packer_settings W s).1 = Ok settings
       /\ (forall arm9_image arm9_headers s9,
             Py.path_str <$> argv W !! 1%nat = Some arm9_image ->
             get_elf_headers W TOOL_PREFIX arm9_image s = (Ok arm9_headers, s9) ->
             arm9_entry_point arm9_headers = Ok arm9_ep)
       /\ (argv W !! 2%nat = None ->
           arm7_ep = 0x2380000 /\ arm7_data = [xfe; xff; xff; xea])
       /\ main W TOOL_PREFIX s
          = packer_invocation W arm9_ep arm9_data arm7_ep arm7_data
              (metadata settings).1.1 (metadata settings).1.2 (metadata settings).2 s1.
Proof.
  rewrite main_cases.
  destruct (Py.path_str <$> argv W !! 1%nat) as [arm9_image|].
  2: { left. split; [apply extends_refl | by eexists]. }
  destruct (missing_input W s) as [path|].
  { left. split; [apply extends_refl | by eexists]. }
  destruct (load_packer_settings W s) as [[settings|e] s0] eqn:Esettings.
  2: { left. pose proof (load_packer_settings_state s) as Hload.
       rewrite Esettings in Hload. cbn [snd] in *. subst s0.
       split; [apply extends_refl | by eexists]. }
  pose proof (emits_get_elf_headers arm9_image s) as Hext.
  destruct (get_elf_headers W TOOL_PREFIX arm9_image s) as [[arm9_headers|e] s1]
    eqn:Eheaders; cbn [snd] in Hext.
  2: { left. split; [done | by eexists]. }
  destruct (arm9_headers !! "machine") as [type|].
  2: { left. split; [done | by eexists]. }
  destruct (negb (String.eqb type "ARM")).
  { left. split; [done | by eexists]. }
  destruct (arm9_entry_point arm9_headers) as [arm9_ep|e] eqn:Eentry.
  2: { left. split; [done | by eexists]. }
  pose proof (emits_read_from_elf arm9_image s1) as Hext1.
  destruct (read_from_elf W TOOL_PREFIX arm9_image s1) as [[arm9_data|e] s2];
    cbn [snd] in Hext1.
  2: { left. split; [by eapply extends_trans | by eexists]. }
  pose proof (emits_read_arm7 (Py.path_str <$> argv W !! 2%nat) s2) as Hext2.
  pose proof (read_arm7_default s2) as Hdefault.
  destruct (read_arm7 W TOOL_PREFIX (Py.path_str <$> argv W !! 2%nat) s2)
    as [[[arm7_ep arm7_data]|e] s3] eqn:E7; cbn [snd] in Hext2.
  2: { left. split; [by do 2 (eapply extends_trans; [|done]) | by eexists]. }
  right. exists s3, arm9_ep, arm9_data, arm7_ep, arm7_data, settings.
  split; [by do 2 (eapply extends_trans; [|done])|].
  split; [done|].
  split; [by intros image headers s9 [= <-]; rewrite Eheaders; intros [= <- _]|].
  split; [|done].
  intros Hargs. rewrite Hargs in E7. cbn [fmap option_fmap option_map] in E7.
  rewrite Hdefault in E7. by injection E7 as <- <- _.
Qed.

(** The trace of a run of [main]. *)
Lemma main_trace s :
  exists pre,
    Forall (tool_event TOOL_PREFIX) pre
    /\ ((trace (main W TOOL_PREFIX s).2 = trace s ++ pre
         /\ exists e, (main W TOOL_PREFIX s).1 = Raise e)
        \/ exists dir files body arm9_ep arm9_data arm7_ep arm7_data settings,
             (main W TOOL_PREFIX s).2
             = State (rmtree dir files)
                 (trace s ++ pre ++ Mkdtemp "ndspacker" dir :: body ++ [Rmtree dir])
             /\ packer_events dir arm9_ep arm9_data arm7_ep arm7_data
                  (metadata settings).1.1 (metadata settings).1.2 (metadata settings).2 body
             /\ (load_packer_settings W s).1 = Ok settings
             /\ (forall arm9_image arm9_headers s9,
                   Py.path_str <$> argv W !! 1%nat = Some arm9_image ->
                   get_elf_headers W TOOL_PREFIX arm9_image s = (Ok arm9_headers, s9) ->
                   arm9_entry_point arm9_headers = Ok arm9_ep)
             /\ (argv W !! 2%nat = None ->
                 arm7_ep = 0x2380000 /\ arm7_data = [xfe; xff; xff; xea])).
Proof.
  destruct (main_shape s) as [[(pre & Htrace & Hpre) He]
    | (s1 & arm9_ep & arm9_data & arm7_ep & arm7_data & settings
       & (pre & Htrace & Hpre) & Hsettings & Hentry & Hdefault & ->)].
  { exists pre. split; [done | by left]. }
  exists pre. split; [done | right].
  destruct (packer_invocation_run arm9_ep arm9_data arm7_ep arm7_data
              (metadata settings).1.1 (metadata settings).1.2 (metadata settings).2 s1)
    as (files & body & -> & Hbody).
  exists (mkdtemp W "ndspacker" (fs s1)), files, body,
    arm9_ep, arm9_data, arm7_ep, arm7_data, settings.
  split; [by rewrite Htrace, <- app_assoc | done].
Qed.

End Runs.
Lemma get_tool_prefix_run W s :
  get_tool_prefix W s
  = if bool_decide (is_Some (which W "arm-none-eabi-readelf"))
    then (Ok "arm-none-eabi-", State (fs s) (trace s ++ [Which "arm-none-eabi-readelf"]))
    else if bool_decide (is_Some (which W "llvm-readelf"))
    then (Ok "llvm-",
          State (fs s) (trace s ++ [Which "arm-none-eabi-readelf"; Which "llvm-readelf"]))
    else (Raise FileNotFoundError,
          State (fs s) (trace s ++ [Which "arm-none-eabi-readelf"; Which "llvm-readelf"])).
Proof.
  unfold get_tool_prefix. rewrite bind_run. unfold log at 1.
  destruct (bool_decide (is_Some (which W "arm-none-eabi-readelf"))); [done|].
  rewrite bind_run. unfold log at 1. cbn [fs trace].
  rewrite <- app_assoc.
  by destruct (bool_decide (is_Some (which W "llvm-readelf"))).
Qed.

(** The run of the script is the probes of [get_tool_prefix] and then,
    with a prefix found, the run of [main]. *)
Lemma script_run W s :
  exists probes,
    Forall (fun e => exists name, e = Which name) probes
    /\ ((script W s = (Raise FileNotFoundError, State (fs s) (trace s ++ probes)))
        \/ exists prefix,
             (prefix = "arm-none-eabi-" \/ prefix = "llvm-")
             /\ script W s = main W prefix (State (fs s) (trace s ++ probes))).
Proof.
  unfold script. rewrite bind_run, get_tool_prefix_run.
  destruct (bool_decide _).
  { eexists. split; [|right; eexists; split; [by left | done]].
    repeat constructor; by eexists. }
  destruct (bool_decide _).
  { eexists. split; [|right; eexists; split; [by right | done]].
    repeat constructor; by eexists. }
  eexists. split; [|by left]. repeat constructor; by eexists.
Qed.

Lemma tool_event_not_ndstool prefix cmd :
  tool_event prefix (Run cmd) -> cmd !! 0%nat <> Some "ndstool".
Proof.
  intros [[elf ->] | (elf & tdir & ->)]; simpl; intros [= Heq].
  - by apply (append_same_length_inv prefix "" "readelf" "ndstool") in Heq.
  - by apply (append_same_length_inv prefix "" "objcopy" "ndstool") in Heq.
Qed.

Lemma strings_of_ndstool_command saved_arm9 saved_arm7 e9 e7 gc mk gt cmd :
  strings_of (ndstool_command saved_arm9 saved_arm7 e9 e7 gc mk gt) = Some cmd ->
  exists g m t,
    gc = Str g /\ mk = Str m /\ gt = Str t
    /\ cmd = ["ndstool"; "-c"; "./rom.nds"; "-9"; saved_arm9; "-7"; saved_arm7;
              "-e9"; e9; "-r9"; "0x2000000"; "-e7"; e7; "-g"; g; m; t; "1"].
Proof.
  destruct gc as [g|], mk as [m|], gt as [t|]; try discriminate.
  intros [= <-]. by exists g, m, t.
Qed.

(** ** Runs in the example worlds *)

Lemma ndstool_runs_elem events cmd :
  cmd ∈ ndstool_runs events -> Run cmd ∈ events.
Proof.
  unfold ndstool_runs. intros (e & Hin & Hcmd)%list_elem_of_omap.
  destruct e as [| [|tool args] | | |]; try done.
  destruct (String.eqb tool "ndstool"); [|done].
  by injection Hcmd as <-.
Qed.

(** ** The header parser *)

Section HeaderParser.

Lemma partition_first_colon before after :
  colon_free before ->
  Py.partition ":" (before +:+ ":" +:+ after) = Some (before, after).
Proof.
  unfold colon_free. induction before as [|c before IH]; intros Hfree.
  - done.
  - rewrite append_cons. cbn [Py.partition].
    cbn [String.list_ascii_of_string] in Hfree.
    apply not_elem_of_cons in Hfree as [Hne Hfree].
    destruct (Ascii.eqb_spec c ":") as [->|_]; [done|].
    by rewrite IH.
Qed.

Lemma partition_inv line before after :
  Py.partition ":" line = Some (before, after) ->
  line = before +:+ ":" +:+ after /\ colon_free before.
Proof.
  unfold colon_free. revert before.
  induction line as [|c line IH]; intros before; [done|].
  cbn [Py.partition].
  destruct (Ascii.eqb_spec c ":") as [->|Hne].
  { intros [= <- <-]. split; [done | apply not_elem_of_nil]. }
  destruct (Py.partition ":" line) as [[before' after']|]; [|done].
  intros [= <- <-]. destruct (IH before' eq_refl) as [-> Hfree].
  split; [done|]. cbn [String.list_ascii_of_string].
  apply not_elem_of_cons. split; [congruence | done].
Qed.

Lemma partition_has_colon a b : Py.partition ":" (a +:+ ":" +:+ b) <> None.
Proof.
  induction a as [|c a IH]; [done|].
  rewrite append_cons. cbn [Py.partition].
  destruct (Ascii.eqb c ":"); [done|].
  by destruct (Py.partition ":" (a +:+ ":" +:+ b)) as [[? ?]|].
Qed.

(** The loop adds the entries of the lines one by one. *)
Lemma parse_header_lines_entries lines entries headers :
  Forall2 (fun line entry => header_entry line = Some entry) lines entries ->
  parse_header_lines lines headers
  = Ok (foldl (fun m entry => <[entry.1 := entry.2]> m) headers entries).
Proof.
  intros Hall. revert headers.
  induction Hall as [|line entry lines entries Hentry _ IH]; intros headers; [done|].
  cbn [parse_header_lines foldl]. unfold header_entry, Py.split1 in *.
  destruct (Py.partition ":" line) as [[before after]|]; [|done].
  injection Hentry as <-. apply IH.
Qed.

(** The last entry with a given key decides the value of the key. *)
Lemma foldl_insert_lookup (entries : list (string * string)) k v :
  foldl (fun m entry => <[entry.1 := entry.2]> m) (∅ : gmap string string) entries !! k
  = Some v
  <-> exists i : nat,
        entries !! i = Some (k, v)
        /\ forall (j : nat) v', (i < j)%nat -> entries !! j <> Some (k, v').
Proof.
  induction entries as [|[k' v'] entries IH] using rev_ind.
  { cbn. rewrite lookup_empty. split; [done | by intros (i & ? & _)]. }
  rewrite foldl_app. cbn [foldl fst snd].
  destruct (decide (k' = k)) as [->|Hne].
  - rewrite lookup_insert_eq. split.
    + intros [= ->]. exists (List.length entries). split.
      * by rewrite lookup_app_r, Nat.sub_diag.
      * intros j v'' Hlt. rewrite lookup_ge_None_2; [done|].
        rewrite length_app. cbn. lia.
    + intros (i & Hi & Hlast).
      destruct (decide (i < List.length entries)%nat) as [Hlt|Hge].
      * exfalso. apply (Hlast (List.length entries) v' Hlt).
        by rewrite lookup_app_r, Nat.sub_diag.
      * rewrite lookup_app_r in Hi by lia.
        destruct (i - List.length entries)%nat; [|done].
        by injection Hi as ->.
  - rewrite lookup_insert_ne by done. rewrite IH. split.
    + intros (i & Hi & Hlast). exists i. split.
      * by rewrite lookup_app_l by (by eapply lookup_lt_Some).
      * intros j v'' Hlt Hj. apply lookup_app_Some in Hj as [Hj | [_ Hj]].
        { by eapply Hlast. }
        destruct (j - List.length entries)%nat; [|done]. by injection Hj.
    + intros (i & Hi & Hlast). exists i.
      apply lookup_app_Some in Hi as [Hi | [_ Hi]].
      * split; [done|]. intros j v'' Hlt Hj. apply (Hlast j v'' Hlt).
        by rewrite lookup_app_l by (by eapply lookup_lt_Some).
      * destruct (i - List.length entries)%nat; [|done]. by injection Hi.
Qed.

End HeaderParser.

Lemma get_elf_headers_run W TOOL_PREFIX elf_path s stdout files :
  refused W [TOOL_PREFIX +:+ "readelf"; "-h"; elf_path] = None ->
  spawn W [TOOL_PREFIX +:+ "readelf"; "-h"; elf_path] (fs s) = Some (0, stdout, files) ->
  get_elf_headers W TOOL_PREFIX elf_path s
  = (parse_header_lines (drop 1 (Py.splitlines stdout)) ∅,
     State files (trace s ++ [Run [TOOL_PREFIX +:+ "readelf"; "-h"; elf_path]])).
Proof.
  intros Hrefused Hspawn. rewrite get_elf_headers_cases. cbv zeta.
  by rewrite Hrefused, Hspawn.
Qed.

(** C7, as amended: for a header dump whose lines after the first all
    hold a colon, printed by a [readelf] that was started,
    [get_elf_headers] ignores the first line and makes
    of every other line one entry by splitting it at its first colon:
    the key is the text before the colon, lower-cased, stripped of
    surrounding white space, its remaining spaces replaced by
    underscores; the value is the text after the colon, stripped. The
    mapping returned holds exactly these entries, a later line
    overwriting an earlier one with the same key. *)
Theorem get_elf_headers_mapping (W : world) (TOOL_PREFIX elf_path : string)
    (s : state) (stdout : string) (files : gmap string node) :
  refused W [TOOL_PREFIX +:+ "readelf"; "-h"; elf_path] = None ->
  spawn W [TOOL_PREFIX +:+ "readelf"; "-h"; elf_path] (fs s) = Some (0, stdout, files) ->
  let lines := drop 1 (Py.splitlines stdout) in
  Forall (fun line => exists a b, line = a +:+ ":" +:+ b) lines ->
  exists headers entries,
    (get_elf_headers W TOOL_PREFIX elf_path s).1 = Ok headers
    /\ Forall2 (fun line entry =>
                  (exists before after,
                      line = before +:+ ":" +:+ after /\ colon_free before)
                  /\ forall before after,
                       line = before +:+ ":" +:+ after -> colon_free before ->
                       entry = (Py.replace " " "_" (Py.strip (Py.lower before)),
                                Py.strip after))
         lines entries
    /\ forall k v,
         headers !! k = Some v
         <-> exists i : nat,
               entries !! i = Some (k, v)
               /\ forall (j : nat) v', (i < j)%nat -> entries !! j <> Some (k, v').
Proof.
  intros Hrefused Hspawn lines Hcolons.
  rewrite (get_elf_headers_run _ _ _ _ _ _ Hrefused Hspawn). fold lines. cbn [fst].
  assert (Hentries : exists entries,
             Forall2 (fun line entry => header_entry line = Some entry) lines entries).
  { clear Hrefused Hspawn. induction Hcolons as [|line lines' (a & b & ->) _ (entries & IH)].
    - by exists [].
    - pose proof (partition_has_colon a b) as Hsome. unfold header_entry.
      destruct (Py.partition ":" (a +:+ ":" +:+ b)) as [[before after]|] eqn:E; [|done].
      eexists (_ :: entries). constructor; [|done]. unfold header_entry. by rewrite E. }
  destruct Hentries as (entries & Hentries).
  eexists _, entries.
  split; [by apply parse_header_lines_entries|].
  split; [|apply foldl_insert_lookup].
  eapply Forall2_impl; [done|]. intros line entry Hentry. unfold header_entry in Hentry.
  destruct (Py.partition ":" line) as [[before after]|] eqn:E; [|done].
  injection Hentry as <-. split.
  - apply partition_inv in E as [-> Hfree]. by exists before, after.
  - intros before' after' -> Hfree. rewrite partition_first_colon in E by done.
    by injection E as <- <-.
Qed.

Lemma get_elf_headers_mapping_witness :
  refused example_world ["llvm-readelf"; "-h"; "arm9.elf"] = None
  /\ spawn example_world ["llvm-readelf"; "-h"; "arm9.elf"] example_files
     = Some (0, readelf_output, example_files)
  /\ exists headers,
       (get_elf_headers example_world "llvm-" "arm9.elf" (State example_files [])).1
       = Ok headers
       /\ headers !! "machine" = Some "ARM"
       /\ headers !! "entry_point_address" = Some "0x2000800".
Proof.
  split; [reflexivity|]. split; [reflexivity|].
  assert (Hcolons : Forall (fun line => exists a b, line = a +:+ ":" +:+ b)
                      (drop 1 (Py.splitlines readelf_output))).
  { vm_compute. repeat constructor.
    - by exists "  Class", "                             ELF32".
    - by exists "  Machine", "                           ARM".
    - by exists "  Entry point address", "               0x2000800". }
  destruct (get_elf_headers_mapping example_world "llvm-" "arm9.elf"
              (State example_files []) readelf_output example_files eq_refl eq_refl
              Hcolons)
    as (headers & entries & Hrun & _ & _).
  exists headers. split; [done|].
  assert (Hmachine :
    returned_header
      (get_elf_headers example_world "llvm-" "arm9.elf" (State example_files [])).1
      "machine" = Some "ARM") by (vm_compute; reflexivity).
  assert (Hentry :
    returned_header
      (get_elf_headers example_world "llvm-" "arm9.elf" (State example_files [])).1
      "entry_point_address" = Some "0x2000800") by (vm_compute; reflexivity).
  rewrite Hrun in Hmachine, Hentry. done.
Defined.

(** C7 as stated fails: on the dump of [readelf_output] the parser
    returns the key [machine], where lower-casing and replacing spaces
    alone would give [__machine]; and on a dump with a line that holds
    no colon the loop raises [ValueError] instead of giving a mapping. *)
Lemma claimed_parse_counterexample :
  returned_header
    (get_elf_headers example_world "llvm-" "arm9.elf" (State example_files [])).1
    "machine" = Some "ARM"
  /\ returned_header
       (get_elf_headers example_world "llvm-" "arm9.elf" (State example_files [])).1
       "__machine" = None
  /\ claimed_headers readelf_output !! "machine" = None
  /\ claimed_headers readelf_output !! "__machine" = Some "ARM"
  /\ ~ claimed_parse example_world "llvm-" "arm9.elf" (State example_files [])
  /\ parse_header_lines
       (drop 1 (Py.splitlines ("ELF Header:" +:+ nl +:+ nl +:+ "  Machine: ARM" +:+ nl)))
       ∅ = Raise ValueError.
Proof.
  assert (Hcode :
    returned_header
      (get_elf_headers example_world "llvm-" "arm9.elf" (State example_files [])).1
      "machine" = Some "ARM") by (vm_compute; reflexivity).
  assert (Hclaim : claimed_headers readelf_output !! "machine" = None)
    by (vm_compute; reflexivity).
  split; [done|]. split; [vm_compute; reflexivity|]. split; [done|].
  split; [vm_compute; reflexivity|].
  split; [|vm_compute; reflexivity].
  intros Hparse. specialize (Hparse readelf_output example_files eq_refl eq_refl).
  rewrite Hparse in Hcode. cbn [returned_header] in Hcode.
  congruence.
Qed.

(** ** The ARM9 entrypoint *)

Section HexEntryPoint.

Lemma hex_digit_char c d :
  hex_digit c = Some d ->
  Py.digit_value c = Some d /\ 0 <= d < 16
  /\ Py.is_int_space c = false
  /\ Ascii.eqb c "+" = false /\ Ascii.eqb c "-" = false /\ Ascii.eqb c "_" = false
  /\ Ascii.eqb c "x" = false /\ Ascii.eqb c "X" = false.
Proof.
  destruct c as [[] [] [] [] [] [] [] []]; intros Hdigit;
    vm_compute in Hdigit; try discriminate Hdigit; injection Hdigit as <-;
    vm_compute; repeat split; congruence.
Qed.

Lemma scan_hex_digits s acc n v :
  hex_value s = Some v ->
  Py.scan_digits 16 s false acc n
  = Some (acc * 16 ^ Z.of_nat (String.length s) + v, (n + String.length s)%nat, "").
Proof.
  revert acc n v. induction s as [|c s IH]; intros acc n v.
  { intros [= <-]. cbn. do 3 f_equal; lia. }
  cbn [hex_value].
  destruct (hex_digit c) as [d|] eqn:Hdigit; [|done].
  destruct (hex_value s) as [v'|] eqn:Hvalue; [|done].
  intros [= <-].
  destruct (hex_digit_char c d Hdigit) as (Hval & Hd & _ & _ & _ & Hunder & _).
  cbn [Py.scan_digits]. rewrite Hunder, Hval.
  destruct (Z.ltb_spec d 16); [|lia].
  rewrite (IH _ _ v' eq_refl). cbn [String.length].
  rewrite Nat2Z.inj_succ, Z.pow_succ_r by lia.
  do 3 f_equal; lia.
Qed.

(** [int(s, 16)] of a string of hexadecimal digits is its value. *)
Lemma int16_hex_digits s v :
  s <> "" -> hex_value s = Some v -> Py.int s 16 = Ok v.
Proof.
  intros Hne Hvalue. destruct s as [|c s]; [done|].
  pose proof Hvalue as Hscan.
  cbn [hex_value] in Hvalue.
  destruct (hex_digit c) as [d|] eqn:Hdigit; [|done].
  destruct (hex_digit_char c d Hdigit) as (_ & _ & Hspace & Hplus & Hminus & Hunder & _).
  unfold Py.int. cbn [Py.skip_int_space]. rewrite Hspace.
  cbn [Py.split_sign]. rewrite Hplus, Hminus.
  assert (Hprefix : Py.has_base_prefix 16 (String c s) = false).
  { destruct s as [|c' s']; [done|]. cbn [Py.has_base_prefix].
    destruct (hex_value (String c' s')) as [v'|] eqn:Hrest; [|done].
    cbn [hex_value] in Hrest.
    destruct (hex_digit c') as [d'|] eqn:Hdigit'; [|done].
    destruct (hex_digit_char c' d' Hdigit') as (_ & _ & _ & _ & _ & _ & -> & ->).
    cbn. by rewrite andb_false_r. }
  unfold Py.skip_base_prefix. rewrite Hprefix.
  cbn [Py.starts_with_underscore]. rewrite Hunder.
  rewrite (scan_hex_digits _ 0 0%nat v Hscan).
  cbn [String.length]. rewrite bool_decide_false by done.
  cbn. f_equal. lia.
Qed.

Lemma hex_value_zeros n s : hex_value (zeros n +:+ s) = hex_value s.
Proof.
  induction n as [|n IH]; [done|].
  cbn [zeros]. rewrite append_cons. cbn [hex_value].
  change (hex_digit "0") with (Some 0). rewrite IH.
  destruct (hex_value s); [f_equal; lia | done].
Qed.

End HexEntryPoint.

Lemma ndstool_runs_app evs evs' :
  ndstool_runs (evs ++ evs') = ndstool_runs evs ++ ndstool_runs evs'.
Proof. apply omap_app. Qed.

Lemma ndstool_runs_tool_events prefix evs :
  Forall (tool_event prefix) evs -> ndstool_runs evs = [].
Proof.
  induction 1 as [|e evs He _ IH]; [done|].
  change (e :: evs) with ([e] ++ evs).
  rewrite ndstool_runs_app, IH, app_nil_r.
  destruct e as [| [|tool args] | | |]; try done.
  apply tool_event_not_ndstool in He. cbn in He. cbn.
  destruct (String.eqb_spec tool "ndstool") as [->|_]; [done | done].
Qed.

Lemma extends_ndstool_runs prefix s s' :
  extends (tool_event prefix) s s' -> ndstool_runs (trace s') = ndstool_runs (trace s).
Proof.
  intros (evs & -> & Hevs).
  by rewrite ndstool_runs_app, (ndstool_runs_tool_events _ _ Hevs), app_nil_r.
Qed.

Lemma ndstool_command_head saved_arm9 saved_arm7 e9 e7 gc mk gt cmd :
  strings_of (ndstool_command saved_arm9 saved_arm7 e9 e7 gc mk gt) = Some cmd ->
  cmd !! 0%nat = Some "ndstool" /\ ndstool_runs [Run cmd] = [cmd].
Proof.
  intros (g & m & t & _ & _ & _ & ->)%strings_of_ndstool_command. done.
Qed.

(** A run of [main] whose steps before the ROM builder all succeed is
    the run of [packer_invocation] that follows them. *)
Lemma main_reaches_packer W TOOL_PREFIX s arm9_image settings arm9_headers s1
    arm9_ep arm9_data s2 arm7_ep arm7_data s3 :
  inputs_present W s arm9_image ->
  (load_packer_settings W s).1 = Ok settings ->
  get_elf_headers W TOOL_PREFIX arm9_image s = (Ok arm9_headers, s1) ->
  arm9_headers !! "machine" = Some "ARM" ->
  arm9_entry_point arm9_headers = Ok arm9_ep ->
  read_from_elf W TOOL_PREFIX arm9_image s1 = (Ok arm9_data, s2) ->
  read_arm7 W TOOL_PREFIX (Py.path_str <$> argv W !! 2%nat) s2
  = (Ok (arm7_ep, arm7_data), s3) ->
  main W TOOL_PREFIX s
  = packer_invocation W arm9_ep arm9_data arm7_ep arm7_data
      (metadata settings).1.1 (metadata settings).1.2 (metadata settings).2 s3.
Proof.
  intros Hinputs Hload Hheaders Hmachine Hentry Hdata Harm7.
  rewrite main_cases, (inputs_present_checks _ _ _ Hinputs).
  destruct Hinputs as (-> & _).
  destruct (load_packer_settings W s) as [r s0]. cbn [fst] in Hload. subst r.
  by rewrite Hheaders, Hmachine, String.eqb_refl, Hentry, Hdata, Harm7.
Qed.

(** C5: when the entry point address of the header dump is [0x]
    followed by zeros and a hexadecimal numeral, the ARM9 entrypoint
    is the number the numeral denotes, whatever the number of zeros.
    A run of [main] on that dump whose steps before the ROM builder
    succeed is the run of [packer_invocation] on this number, and when
    the ROM builder is started it is started once, with the decimal
    text of this number after [-e9]. In any run of [main] on that
    dump, a command of the ROM builder has this text after [-e9]. *)
Theorem arm9_entry_point_hex (arm9_headers : gmap string string)
    (digits : string) (padding : nat) (value : Z) :
  digits <> "" ->
  hex_value digits = Some value ->
  (arm9_headers !! "entry_point_address" = Some ("0x" +:+ zeros padding +:+ digits)
   \/ arm9_headers !! "entry_point_address" = Some ("0X" +:+ zeros padding +:+ digits)) ->
  arm9_entry_point arm9_headers = Ok value
  /\ (forall W TOOL_PREFIX s arm9_image settings s1 arm9_data s2 arm7_ep arm7_data s3,
        inputs_present W s arm9_image ->
        (load_packer_settings W s).1 = Ok settings ->
        get_elf_headers W TOOL_PREFIX arm9_image s = (Ok arm9_headers, s1) ->
        arm9_headers !! "machine" = Some "ARM" ->
        read_from_elf W TOOL_PREFIX arm9_image s1 = (Ok arm9_data, s2) ->
        read_arm7 W TOOL_PREFIX (Py.path_str <$> argv W !! 2%nat) s2
        = (Ok (arm7_ep, arm7_data), s3) ->
        main W TOOL_PREFIX s
        = packer_invocation W value arm9_data arm7_ep arm7_data
            (metadata settings).1.1 (metadata settings).1.2 (metadata settings).2 s3
        /\ forall e9 e7 cmd,
             fs s3 !! joinpath (mkdtemp W "ndspacker" (fs s3)) "arm9.tmp.bin" <> Some Dir ->
             fs s3 !! joinpath (mkdtemp W "ndspacker" (fs s3)) "arm7.tmp.bin" <> Some Dir ->
             Py.str value = Ok e9 ->
             Py.str arm7_ep = Ok e7 ->
             strings_of
               (ndstool_command
                  (joinpath (mkdtemp W "ndspacker" (fs s3)) "arm9.tmp.bin")
                  (joinpath (mkdtemp W "ndspacker" (fs s3)) "arm7.tmp.bin")
                  e9 e7 (metadata settings).1.2 (metadata settings).1.1
                  (metadata settings).2) = Some cmd ->
             refused W cmd = None ->
             ndstool_runs (trace (main W TOOL_PREFIX s).2)
             = ndstool_runs (trace s) ++ [cmd]
             /\ cmd !! 7%nat = Some "-e9" /\ cmd !! 8%nat = Some e9)
  /\ forall W TOOL_PREFIX s arm9_image s9 cmd,
       Py.path_str <$> argv W !! 1%nat = Some arm9_image ->
       get_elf_headers W TOOL_PREFIX arm9_image s = (Ok arm9_headers, s9) ->
       Run cmd ∈ trace (main W TOOL_PREFIX s).2 ->
       Run cmd ∉ trace s ->
       cmd !! 0%nat = Some "ndstool" ->
       exists e9,
         Py.str value = Ok e9 /\ cmd !! 7%nat = Some "-e9" /\ cmd !! 8%nat = Some e9.
Proof.
  intros Hne Hvalue Haddress.
  assert (Hint : Py.int (zeros padding +:+ digits) 16 = Ok value).
  { apply int16_hex_digits; [|by rewrite hex_value_zeros].
    destruct padding; [done|]. cbn [zeros]. by rewrite append_cons. }
  assert (Hep : arm9_entry_point arm9_headers = Ok value).
  { unfold arm9_entry_point, Py.getitem. by destruct Haddress as [-> | ->]. }
  split; [done|]. split.
  { intros W TOOL_PREFIX s arm9_image settings s1 arm9_data s2 arm7_ep arm7_data s3
      Hinputs Hload Hheaders Hmachine Hdata Harm7.
    pose proof (main_reaches_packer _ _ _ _ _ _ _ _ _ _ _ _ _
                  Hinputs Hload Hheaders Hmachine Hep Hdata Harm7) as Hmain.
    split; [done|].
    intros e9 e7 cmd Hdir9 Hdir7 Hstr9 Hstr7 Hcmd Hrefused.
    assert (Hruns : ndstool_runs (trace s3) = ndstool_runs (trace s)).
    { apply (extends_ndstool_runs TOOL_PREFIX).
      pose proof (emits_get_elf_headers W TOOL_PREFIX arm9_image s) as H1.
      pose proof (emits_read_from_elf W TOOL_PREFIX arm9_image s1) as H2.
      pose proof (emits_read_arm7 W TOOL_PREFIX (Py.path_str <$> argv W !! 2%nat) s2)
        as H3.
      rewrite Hheaders in H1. rewrite Hdata in H2. rewrite Harm7 in H3.
      cbn [snd] in *. by do 2 (eapply extends_trans; [|done]). }
    pose proof (strings_of_ndstool_command _ _ _ _ _ _ _ _ Hcmd)
      as (g & m & t & _ & _ & _ & Hshape).
    split; [|by rewrite Hshape].
    rewrite Hmain, packer_invocation_cases. cbv zeta.
    destruct (fs s3 !! joinpath (mkdtemp W "ndspacker" (fs s3)) "arm9.tmp.bin")
      as [[content9|]|]; [|done|].
    all: destruct (fs s3 !! joinpath (mkdtemp W "ndspacker" (fs s3)) "arm7.tmp.bin")
      as [[content7|]|]; [|done|].
    all: rewrite Hstr9, Hstr7, Hcmd, Hrefused.
    all: destruct (spawn W cmd _) as [[[rc out] files]|]; cbn [snd trace].
    all: rewrite !ndstool_runs_app, Hruns, Hshape; done. }
  intros W TOOL_PREFIX s arm9_image s9 cmd Hargv Hheaders Hin Hnew Hhead.
  destruct (main_trace W TOOL_PREFIX s) as (pre & Hpre & Hmain).
  rewrite Forall_forall in Hpre.
  destruct Hmain as [[Htrace _]
    | (dir & files & body & arm9_ep & arm9_data & arm7_ep & arm7_data & settings
       & Hstate & Hbody & _ & Hentry & _)].
  { rewrite Htrace in Hin. apply elem_of_app in Hin as [Hin | Hin%Hpre]; [done|].
    by apply tool_event_not_ndstool in Hin. }
  rewrite Hstate in Hin. cbn [trace] in Hin.
  rewrite !elem_of_app, elem_of_cons, elem_of_app, list_elem_of_singleton in Hin.
  destruct Hin as [Hin | [Hin%Hpre | [[=] | [Hin | [=]]]]]; [done | |].
  { by apply tool_event_not_ndstool in Hin. }
  specialize (Hentry _ _ _ Hargv Hheaders). rewrite Hep in Hentry.
  injection Hentry as <-.
  destruct Hbody as [-> | [-> | [-> | (e9 & e7 & cmd' & Hstr9 & _ & Hcmd & ->)]]];
    repeat (apply elem_of_cons in Hin as [[=] | Hin]);
    try (by apply elem_of_nil in Hin).
  subst cmd'.
  apply strings_of_ndstool_command in Hcmd as (g & m & t & _ & _ & _ & ->).
  by exists e9.
Qed.

Lemma arm9_entry_point_hex_witness :
  hex_value "2000800" = Some 0x2000800
  /\ arm9_entry_point (<["entry_point_address" := "0x2000800"]> ∅) = Ok 0x2000800
  /\ arm9_entry_point (<["entry_point_address" := "0x0000000002000800"]> ∅) = Ok 0x2000800
  /\ Py.str 0x2000800 = Ok "33556480"
  /\ exists cmd,
       ndstool_runs (trace (main example_world "llvm-" (State example_files [])).2) = [cmd]
       /\ cmd !! 7%nat = Some "-e9"
       /\ cmd !! 8%nat = Some "33556480".
Proof.
  assert (Hvalue : hex_value "2000800" = Some 0x2000800) by reflexivity.
  assert (Hne : "2000800" <> "") by discriminate.
  assert (Hstr : Py.str 0x2000800 = Ok "33556480") by (vm_compute; reflexivity).
  split; [done|]. split.
  { apply (arm9_entry_point_hex _ "2000800" 0 _ Hne Hvalue). left. reflexivity. }
  split.
  { apply (arm9_entry_point_hex _ "2000800" 9 _ Hne Hvalue). left. reflexivity. }
  split; [done|].
  pose proof (get_elf_headers_run example_world "llvm-" "arm9.elf"
                (State example_files []) readelf_output example_files eq_refl eq_refl)
    as Hrun.
  assert (Hentry :
    returned_header (parse_header_lines (drop 1 (Py.splitlines readelf_output)) ∅)
      "entry_point_address" = Some "0x2000800") by (vm_compute; reflexivity).
  assert (Hmachine :
    returned_header (parse_header_lines (drop 1 (Py.splitlines readelf_output)) ∅)
      "machine" = Some "ARM") by (vm_compute; reflexivity).
  destruct (parse_header_lines (drop 1 (Py.splitlines readelf_output)) ∅)
    as [headers|e]; [|discriminate Hentry].
  cbn [returned_header] in Hentry, Hmachine.
  destruct (arm9_entry_point_hex headers "2000800" 0 _ Hne Hvalue (or_introl Hentry))
    as (_ & Hmain & _).
  assert (Hinputs : inputs_present example_world (State example_files []) "arm9.elf").
  { split; [reflexivity|]. split; [reflexivity|]. intros path [=]. }
  destruct (Hmain example_world "llvm-" (State example_files []) "arm9.elf"
              DEFAULT_PACKER_SETTINGS _ _ _ _ _ _ Hinputs eq_refl Hrun Hmachine
              (read_from_elf_cases example_world "llvm-" "arm9.elf" _)
              (read_arm7_cases example_world "llvm-" None _))
    as (_ & Hbuilder).
  eexists. apply (Hbuilder "33556480" "37224448").
  - vm_compute. discriminate.
  - vm_compute. discriminate.
  - done.
  - vm_compute. reflexivity.
  - vm_compute. reflexivity.
  - vm_compute. reflexivity.
Defined.

(** ** The ARM7 entrypoint *)

Section DecimalEntryPoint.

Lemma dec_digit_char c d :
  dec_digit c = Some d ->
  Py.digit_value c = Some d /\ 0 <= d < 10
  /\ Py.is_int_space c = false
  /\ Ascii.eqb c "+" = false /\ Ascii.eqb c "-" = false /\ Ascii.eqb c "_" = false.
Proof.
  destruct c as [[] [] [] [] [] [] [] []]; intros Hdigit;
    vm_compute in Hdigit; try discriminate Hdigit; injection Hdigit as <-;
    vm_compute; repeat split; congruence.
Qed.

Lemma digit_below_10 c d :
  Py.digit_value c = Some d -> d < 10 -> decimal_char c = true.
Proof.
  destruct c as [[] [] [] [] [] [] [] []]; vm_compute; intros [= <-]; congruence.
Qed.

Lemma all_chars_skip_int_space P s :
  (forall c, Py.is_int_space c = true -> P c = true) ->
  all_chars P (Py.skip_int_space s) = true -> all_chars P s = true.
Proof.
  intros Hspace. induction s as [|c s IH]; [done|].
  cbn [Py.skip_int_space all_chars].
  destruct (Py.is_int_space c) eqn:Hc; [|done].
  intros Hrest. by rewrite (Hspace c Hc), IH.
Qed.

Lemma all_chars_only_space P s :
  (forall c, Py.is_int_space c = true -> P c = true) ->
  Py.skip_int_space s = "" -> all_chars P s = true.
Proof.
  intros Hspace Hskip. apply all_chars_skip_int_space; [done|]. by rewrite Hskip.
Qed.

Lemma all_chars_scan_digits s prev acc n v n' rest :
  Py.scan_digits 10 s prev acc n = Some (v, n', rest) ->
  all_chars decimal_char rest = true -> all_chars decimal_char s = true.
Proof.
  revert prev acc n. induction s as [|c s IH]; intros prev acc n.
  { cbn. destruct prev; [done|]. by intros [= _ _ <-]. }
  cbn [Py.scan_digits all_chars].
  destruct (Ascii.eqb_spec c "_") as [->|Hne].
  { destruct prev; [done|]. intros Hscan Hrest. by rewrite (IH _ _ _ Hscan Hrest). }
  destruct (Py.digit_value c) as [d|] eqn:Hdigit.
  - destruct (Z.ltb_spec d 10).
    + intros Hscan Hrest. rewrite (IH _ _ _ Hscan Hrest).
      by rewrite (digit_below_10 c d).
    + destruct prev; [done|]. by intros [= _ _ <-].
  - destruct prev; [done|]. by intros [= _ _ <-].
Qed.

(** A base-10 literal that [int] accepts holds decimal characters only. *)
Lemma int10_chars s v : Py.int s 10 = Ok v -> all_chars decimal_char s = true.
Proof.
  unfold Py.int. intros Hint.
  apply all_chars_skip_int_space; [by intros c Hc; unfold decimal_char; rewrite Hc|].
  destruct (Py.skip_int_space s) as [|c s1]; [done|].
  assert (Hprefix : forall t, Py.skip_base_prefix 10 t = t).
  { intros [|c0 [|c1 t]]; try done. unfold Py.skip_base_prefix. cbn.
    by rewrite andb_false_r. }
  assert (Hdigits : forall sign t,
    (let s0 := Py.skip_base_prefix 10 t in
     if Py.starts_with_underscore s0 then Raise ValueError
     else match Py.scan_digits 10 s0 false 0 0 with
          | Some (value, digits, rest) =>
              if bool_decide (digits = 0%nat) then Raise ValueError
              else if negb (String.eqb (Py.skip_int_space rest) "") then Raise ValueError
              else if negb (Z.land 10 (10 - 1) =? 0)
                      && bool_decide (Py.max_str_digits < digits)%nat
              then Raise ValueError else Ok (sign * value)
          | None => Raise ValueError
          end) = Ok v -> all_chars decimal_char t = true).
  { intros sign t. cbv zeta. rewrite Hprefix.
    destruct (Py.starts_with_underscore t); [done|].
    destruct (Py.scan_digits 10 t false 0 0) as [[[value digits] rest]|] eqn:Hscan; [|done].
    destruct (bool_decide (digits = 0%nat)); [done|].
    destruct (String.eqb_spec (Py.skip_int_space rest) "") as [Hrest|]; [|done].
    intros _. eapply all_chars_scan_digits; [done|].
    apply all_chars_only_space; [|done].
    by intros c' Hc; unfold decimal_char; rewrite Hc. }
  cbn [Py.split_sign] in Hint. cbn [all_chars].
  destruct (Ascii.eqb_spec c "+") as [->|Hplus].
  { by rewrite (Hdigits _ _ Hint). }
  destruct (Ascii.eqb_spec c "-") as [->|Hminus].
  { by rewrite (Hdigits _ _ Hint). }
  by apply Hdigits in Hint.
Qed.

Lemma int_raises_ValueError s base e : Py.int s base = Raise e -> e = ValueError.
Proof.
  unfold Py.int. destruct (Py.split_sign _) as [sign t]. cbv zeta.
  destruct (Py.starts_with_underscore _); [congruence|].
  destruct (Py.scan_digits _ _ _ _ _) as [[[value digits] rest]|]; [|congruence].
  repeat (match goal with |- context [if ?b then _ else _] => destruct b end);
    congruence.
Qed.

Lemma all_chars_elem P s c :
  c ∈ String.list_ascii_of_string s -> P c = false -> all_chars P s = false.
Proof.
  induction s as [|c' s IH]; cbn [String.list_ascii_of_string all_chars].
  { by intros ?%elem_of_nil. }
  intros [->|Hin]%elem_of_cons Hc; [by rewrite Hc|].
  rewrite IH by done. apply andb_false_r.
Qed.

(** [int(s)] rejects a string that holds a character no base-10
    literal can hold. *)
Lemma int10_rejects s c :
  c ∈ String.list_ascii_of_string s -> decimal_char c = false ->
  Py.int s 10 = Raise ValueError.
Proof.
  intros Hin Hc. destruct (Py.int s 10) as [v|e] eqn:Hint.
  - apply int10_chars in Hint. by rewrite (all_chars_elem _ _ _ Hin Hc) in Hint.
  - by apply int_raises_ValueError in Hint as ->.
Qed.

Lemma scan_dec_digits s acc n v :
  dec_value s = Some v ->
  Py.scan_digits 10 s false acc n
  = Some (acc * 10 ^ Z.of_nat (String.length s) + v, (n + String.length s)%nat, "").
Proof.
  revert acc n v. induction s as [|c s IH]; intros acc n v.
  { intros [= <-]. cbn. do 3 f_equal; lia. }
  cbn [dec_value].
  destruct (dec_digit c) as [d|] eqn:Hdigit; [|done].
  destruct (dec_value s) as [v'|] eqn:Hvalue; [|done].
  intros [= <-].
  destruct (dec_digit_char c d Hdigit) as (Hval & Hd & _ & _ & _ & Hunder).
  cbn [Py.scan_digits]. rewrite Hunder, Hval.
  destruct (Z.ltb_spec d 10); [|lia].
  rewrite (IH _ _ v' eq_refl). cbn [String.length].
  rewrite Nat2Z.inj_succ, Z.pow_succ_r by lia.
  do 3 f_equal; lia.
Qed.

(** [int(s)] of a string of decimal digits is its value. *)
Lemma int10_dec_digits s v :
  s <> "" -> (String.length s <= Py.max_str_digits)%nat ->
  dec_value s = Some v -> Py.int s 10 = Ok v.
Proof.
  intros Hne Hlen Hvalue. destruct s as [|c s]; [done|].
  pose proof Hvalue as Hscan.
  cbn [dec_value] in Hvalue.
  destruct (dec_digit c) as [d|] eqn:Hdigit; [|done].
  destruct (dec_digit_char c d Hdigit) as (_ & _ & Hspace & Hplus & Hminus & Hunder).
  unfold Py.int. cbn [Py.skip_int_space]. rewrite Hspace.
  cbn [Py.split_sign]. rewrite Hplus, Hminus.
  assert (Hprefix : Py.skip_base_prefix 10 (String c s) = String c s).
  { destruct s as [|c1 t]; try done. unfold Py.skip_base_prefix. cbn.
    by rewrite andb_false_r. }
  rewrite Hprefix.
  cbn [Py.starts_with_underscore]. rewrite Hunder.
  rewrite (scan_dec_digits _ 0 0%nat v Hscan).
  rewrite bool_decide_false by (cbn [String.length]; lia).
  rewrite (bool_decide_false (_ < _)%nat) by lia.
  cbn. f_equal. lia.
Qed.

End DecimalEntryPoint.

Lemma prefix_inv (p s : string) :
  String.prefix p s = true -> exists t, s = p +:+ t.
Proof.
  revert s. induction p as [|c p IH]; intros s; [by exists s|].
  destruct s as [|c' s]; [done|]. cbn [String.prefix].
  destruct (ascii_dec c c') as [<-|]; [|done].
  intros [t ->]%IH. by exists t.
Qed.

Lemma main_read_arm7_raises W TOOL_PREFIX s arm9 arm7 settings h9 s1 ep9 d9 s2 e s3 :
  Py.path_str <$> argv W !! 1%nat = Some arm9 ->
  Py.path_str <$> argv W !! 2%nat = Some arm7 ->
  present (fs s) arm9 = true -> present (fs s) arm7 = true ->
  (load_packer_settings W s).1 = Ok settings ->
  get_elf_headers W TOOL_PREFIX arm9 s = (Ok h9, s1) ->
  h9 !! "machine" = Some "ARM" ->
  arm9_entry_point h9 = Ok ep9 ->
  read_from_elf W TOOL_PREFIX arm9 s1 = (Ok d9, s2) ->
  read_arm7 W TOOL_PREFIX (Some arm7) s2 = (Raise e, s3) ->
  main W TOOL_PREFIX s = (Raise e, s3).
Proof.
  intros Harg9 Harg7 Hex9 Hex7 Hload Hh9 Hmachine Hep9 Hd9 Hread.
  rewrite main_cases, (inputs_present_checks W s arm9).
  2: { split; [done|]. split; [done|]. rewrite Harg7. by intros path [= <-]. }
  rewrite Harg9.
  destruct (load_packer_settings W s) as [r s0]. cbn [fst] in Hload. subst r.
  by rewrite Hh9, Hmachine, String.eqb_refl, Hep9, Hd9, Harg7, Hread.
Qed.

(** C10: the ARM7 entrypoint of an ELF input is [int] of the whole
    header value in base 10: a decimal numeral gives its value, and a
    value with a [0x] prefix or a hexadecimal letter raises
    [ValueError], which nothing in [read_arm7] or [main] handles. *)
Theorem arm7_entry_point_base10 (arm7_headers : gmap string string) (address : string) :
  arm7_headers !! "entry_point_address" = Some address ->
  arm7_entry_point arm7_headers = Py.int address 10
  /\ (forall value,
        address <> "" -> (String.length address <= 4300)%nat ->
        dec_value address = Some value ->
        arm7_entry_point arm7_headers = Ok value)
  /\ ((String.prefix "0x" address = true \/ String.prefix "0X" address = true
       \/ exists c, c ∈ String.list_ascii_of_string address /\ hex_letter c) ->
      arm7_entry_point arm7_headers = Raise ValueError
      /\ (forall W TOOL_PREFIX path s s',
            suffix W path <> ".nds" ->
            get_elf_headers W TOOL_PREFIX path s = (Ok arm7_headers, s') ->
            read_arm7 W TOOL_PREFIX (Some path) s = (Raise ValueError, s'))
      /\ (forall W TOOL_PREFIX s arm9 arm7 settings h9 s1 ep9 d9 s2 s3,
            Py.path_str <$> argv W !! 1%nat = Some arm9 ->
            Py.path_str <$> argv W !! 2%nat = Some arm7 ->
            present (fs s) arm9 = true -> present (fs s) arm7 = true ->
            (load_packer_settings W s).1 = Ok settings ->
            get_elf_headers W TOOL_PREFIX arm9 s = (Ok h9, s1) ->
            h9 !! "machine" = Some "ARM" ->
            arm9_entry_point h9 = Ok ep9 ->
            read_from_elf W TOOL_PREFIX arm9 s1 = (Ok d9, s2) ->
            suffix W arm7 <> ".nds" ->
            get_elf_headers W TOOL_PREFIX arm7 s2 = (Ok arm7_headers, s3) ->
            main W TOOL_PREFIX s = (Raise ValueError, s3)
            /\ exit_status (main W TOOL_PREFIX s).1 = 1)).
Proof.
  intros Haddress.
  assert (Hparse : arm7_entry_point arm7_headers = Py.int address 10).
  { unfold arm7_entry_point, Py.getitem. by rewrite Haddress. }
  split; [done|]. split.
  { intros value Hne Hlen Hvalue. rewrite Hparse. by apply int10_dec_digits. }
  intros Hbad.
  assert (Herror : arm7_entry_point arm7_headers = Raise ValueError).
  { rewrite Hparse.
    destruct Hbad as [[t ->]%prefix_inv | [[t ->]%prefix_inv | (c & Hin & Hletter)]].
    - apply (int10_rejects _ "x"); [|done].
      rewrite !append_cons. cbn [String.list_ascii_of_string].
      apply elem_of_cons. right. apply elem_of_cons. by left.
    - apply (int10_rejects _ "X"); [|done].
      rewrite !append_cons. cbn [String.list_ascii_of_string].
      apply elem_of_cons. right. apply elem_of_cons. by left.
    - apply (int10_rejects _ c Hin). unfold hex_letter in Hletter.
      cbn [String.list_ascii_of_string] in Hletter.
      repeat (apply elem_of_cons in Hletter as [-> | Hletter]; [done|]).
      by apply elem_of_nil in Hletter. }
  assert (Hread : forall W TOOL_PREFIX path s s',
            suffix W path <> ".nds" ->
            get_elf_headers W TOOL_PREFIX path s = (Ok arm7_headers, s') ->
            read_arm7 W TOOL_PREFIX (Some path) s = (Raise ValueError, s')).
  { intros W TOOL_PREFIX path s s' Hsuffix Hheaders. unfold read_arm7.
    destruct (String.eqb_spec (suffix W path) ".nds"); [done|].
    by rewrite bind_run, Hheaders, bind_run, lift_run, Herror. }
  split; [done|]. split; [done|].
  intros W TOOL_PREFIX s arm9 arm7 settings h9 s1 ep9 d9 s2 s3
    Harg9 Harg7 Hex9 Hex7 Hload Hh9 Hmachine Hep9 Hd9 Hsuffix Hh7.
  assert (Hmain : main W TOOL_PREFIX s = (Raise ValueError, s3)).
  { eapply main_read_arm7_raises; try done. by apply Hread. }
  split; [done|]. by rewrite Hmain.
Qed.

Lemma arm7_entry_point_base10_witness :
  example_arm7_headers !! "entry_point_address" = Some "0x2380000"
  /\ String.prefix "0x" "0x2380000" = true
  /\ arm7_entry_point example_arm7_headers = Raise ValueError
  /\ arm9_entry_point example_arm7_headers = Ok 0x2380000
  /\ arm7_entry_point (<["entry_point_address" := "37224448"]> ∅) = Ok 0x2380000
  /\ (script example_world_arm7_elf (State example_files_arm7_elf [])).1
     = Raise ValueError.
Proof.
  assert (Haddress : example_arm7_headers !! "entry_point_address" = Some "0x2380000")
    by reflexivity.
  destruct (arm7_entry_point_base10 example_arm7_headers "0x2380000" Haddress)
    as (_ & _ & Hbad).
  destruct (Hbad (or_introl eq_refl)) as (Herror & _).
  assert (Hdecimal : (<["entry_point_address" := "37224448"]> ∅ : gmap string string)
                       !! "entry_point_address" = Some "37224448") by reflexivity.
  destruct (arm7_entry_point_base10 _ "37224448" Hdecimal) as (_ & Hdec & _).
  split; [done|]. split; [reflexivity|]. split; [done|].
  split; [vm_compute; reflexivity|].
  split; [apply Hdec; [discriminate | vm_compute; lia | reflexivity]|].
  vm_compute. reflexivity.
Defined.

(** ** The configuration file *)

Lemma load_packer_settings_absent W s :
  fs s !! joinpath (cwd W) "ndspacker.toml" = None ->
  load_packer_settings W s = (Ok DEFAULT_PACKER_SETTINGS, s).
Proof.
  intros Habsent. unfold load_packer_settings, try_except_FileNotFoundError.
  rewrite bind_run. unfold read_bytes. by rewrite Habsent.
Qed.

Lemma load_packer_settings_present W s content settings :
  fs s !! joinpath (cwd W) "ndspacker.toml" = Some (File content) ->
  toml_load W content = Some settings ->
  load_packer_settings W s = (Ok settings, s).
Proof.
  intros Hfile Hload. unfold load_packer_settings, try_except_FileNotFoundError.
  rewrite bind_run. unfold read_bytes. by rewrite Hfile, Hload.
Qed.

(** C4: the code at the inputs where the claim fails. Without a
    configuration file the metadata comes from
    [DEFAULT_PACKER_SETTINGS]: game code [ENAE], title [NDSPACKER].
    With a configuration file that defines no key it comes from the
    defaults of lines 160-162: game code [ABCD], title [NITRO-SDK].
    The two sets of defaults differ. *)
Theorem metadata_defaults_differ :
  (forall W s,
      fs s !! joinpath (cwd W) "ndspacker.toml" = None ->
      load_packer_settings W s = (Ok DEFAULT_PACKER_SETTINGS, s))
  /\ metadata DEFAULT_PACKER_SETTINGS = (Str "01", Str "ENAE", Str "NDSPACKER")
  /\ (forall W s content settings,
        fs s !! joinpath (cwd W) "ndspacker.toml" = Some (File content) ->
        toml_load W content = Some settings ->
        load_packer_settings W s = (Ok settings, s)
        /\ metadata settings
           = (default (Str "01") (settings !! "maker_code"),
              default (Str "ABCD") (settings !! "game_code"),
              default (Str "NITRO-SDK") (settings !! "game_title")))
  /\ metadata ∅ = (Str "01", Str "ABCD", Str "NITRO-SDK")
  /\ metadata DEFAULT_PACKER_SETTINGS <> metadata ∅
  /\ ndstool_runs (trace (script example_world (State example_files [])).2)
     = [["ndstool"; "-c"; "./rom.nds";
         "-9"; "/tmp/tmpk3v9ndspacker/arm9.tmp.bin";
         "-7"; "/tmp/tmpk3v9ndspacker/arm7.tmp.bin";
         "-e9"; "33556480"; "-r9"; "0x2000000"; "-e7"; "37224448";
         "-g"; "ENAE"; "01"; "NDSPACKER"; "1"]]
  /\ ndstool_runs (trace (script example_world (State example_files_with_config [])).2)
     = [["ndstool"; "-c"; "./rom.nds";
         "-9"; "/tmp/tmpk3v9ndspacker/arm9.tmp.bin";
         "-7"; "/tmp/tmpk3v9ndspacker/arm7.tmp.bin";
         "-e9"; "33556480"; "-r9"; "0x2000000"; "-e7"; "37224448";
         "-g"; "ABCD"; "01"; "NITRO-SDK"; "1"]].
Proof.
  split; [apply load_packer_settings_absent|].
  split; [reflexivity|].
  split; [intros W s content settings Hfile Hload;
          split; [by eapply load_packer_settings_present | reflexivity]|].
  split; [reflexivity|].
  split; [discriminate|].
  split; vm_compute; reflexivity.
Qed.

(** ** The built-in ARM7 image *)

Lemma str_default_entrypoint : Py.str 0x2380000 = Ok "37224448".
Proof. vm_compute. reflexivity. Qed.

(** C3: when the command line has no ARM7 path, every blob written to
    the [arm7.tmp.bin] of a temporary directory is the four bytes
    FE FF FF EA, and every run of the ROM builder gets, after [-e7],
    the decimal text of 0x02380000 and, after [-7], a file that was
    written with these four bytes. *)
Theorem arm7_defaults_without_path (W : world) (files : gmap string node) :
  argv W !! 2%nat = None ->
  let s := (script W (State files [])).2 in
  (forall dir data,
      WriteBytes (joinpath dir "arm7.tmp.bin") data ∈ trace s ->
      data = [xfe; xff; xff; xea])
  /\ (forall cmd,
        Run cmd ∈ trace s -> cmd !! 0%nat = Some "ndstool" ->
        Py.str 0x02380000 = Ok "37224448"
        /\ cmd !! 11%nat = Some "-e7" /\ cmd !! 12%nat = Some "37224448"
        /\ exists saved_arm7,
             cmd !! 5%nat = Some "-7" /\ cmd !! 6%nat = Some saved_arm7
             /\ WriteBytes saved_arm7 [xfe; xff; xff; xea] ∈ trace s).
Proof.
  intros Hargs s. subst s.
  destruct (script_run W (State files [])) as (probes & Hprobes & Hrun).
  rewrite Forall_forall in Hprobes. cbn [fs trace app] in Hrun.
  destruct Hrun as [-> | (prefix & _ & ->)]; cbn [snd trace].
  { split.
    - intros dir data [name [=]]%Hprobes.
    - intros cmd [name [=]]%Hprobes. }
  destruct (main_trace W prefix (State files probes)) as (pre & Hpre & Hmain).
  rewrite Forall_forall in Hpre. cbn [trace] in Hmain.
  destruct Hmain as [[-> _]
    | (dir & files' & body & arm9_ep & arm9_data & arm7_ep & arm7_data & settings
       & -> & Hbody & _ & _ & Hdefault)]; cbn [trace].
  { split.
    - intros dir data [[name [=]]%Hprobes | []%Hpre]%elem_of_app.
    - intros cmd [[name [=]]%Hprobes | Hin%Hpre]%elem_of_app Hhead.
      by apply tool_event_not_ndstool in Hin. }
  destruct (Hdefault Hargs) as [-> ->]. clear Hdefault.
  assert (Hsplit : forall e,
             e ∈ probes ++ pre ++ Mkdtemp "ndspacker" dir :: body ++ [Rmtree dir] ->
             (exists name, e = Which name) \/ tool_event prefix e
             \/ e = Mkdtemp "ndspacker" dir \/ e ∈ body \/ e = Rmtree dir).
  { intros e. rewrite !elem_of_app, elem_of_cons, elem_of_app, list_elem_of_singleton.
    intros [?|[?|[?|[?|?]]]]; auto. }
  split.
  - intros dir' data [[name [=]] | [[] | [[=] | [Hin | [=]]]]]%Hsplit.
    destruct Hbody as [-> | [-> | [-> | (e9 & e7 & cmd & _ & _ & _ & ->)]]].
    + by apply elem_of_nil in Hin.
    + apply list_elem_of_singleton in Hin. injection Hin as Hpath _.
      by apply eq_sym, saved_paths_differ in Hpath.
    + apply elem_of_cons in Hin as [[= Hpath _] | Hin].
      { by apply eq_sym, saved_paths_differ in Hpath. }
      apply list_elem_of_singleton in Hin. by injection Hin as _ ->.
    + apply elem_of_cons in Hin as [[= Hpath _] | Hin].
      { by apply eq_sym, saved_paths_differ in Hpath. }
      apply elem_of_cons in Hin as [[= _ ->] | Hin]; [done|].
      by apply list_elem_of_singleton in Hin.
  - intros cmd Hin Hhead. pose proof Hin as Hin'.
    apply Hsplit in Hin as [[name [=]] | [Htool | [[=] | [Hin | [=]]]]].
    { by apply tool_event_not_ndstool in Htool. }
    destruct Hbody as [-> | [-> | [-> | (e9 & e7 & cmd' & _ & Hstr7 & Hcmd & ->)]]].
    + by apply elem_of_nil in Hin.
    + by apply list_elem_of_singleton in Hin.
    + apply elem_of_cons in Hin as [[=] | Hin].
      by apply list_elem_of_singleton in Hin.
    + apply elem_of_cons in Hin as [[=] | Hin].
      apply elem_of_cons in Hin as [[=] | Hin].
      apply list_elem_of_singleton in Hin. injection Hin as ->.
      apply strings_of_ndstool_command in Hcmd as (g & m & t & _ & _ & _ & ->).
      rewrite str_default_entrypoint in Hstr7. injection Hstr7 as <-.
      split; [apply str_default_entrypoint|]. do 2 (split; [done|]).
      eexists. do 2 (split; [done|]).
      rewrite !elem_of_app. right. right.
      rewrite elem_of_cons, elem_of_app. right. left.
      rewrite !elem_of_cons. auto.
Qed.

Lemma arm7_defaults_without_path_witness :
  argv example_world !! 2%nat = None
  /\ exists cmd,
       ndstool_runs (trace (script example_world (State example_files [])).2) = [cmd]
       /\ cmd !! 12%nat = Some "37224448"
       /\ WriteBytes "/tmp/tmpk3v9ndspacker/arm7.tmp.bin" [xfe; xff; xff; xea]
          ∈ trace (script example_world (State example_files [])).2.
Proof.
  split; [reflexivity|].
  destruct (arm7_defaults_without_path example_world example_files eq_refl)
    as [_ Hrun].
  assert (Hin : Run ["ndstool"; "-c"; "./rom.nds";
                     "-9"; "/tmp/tmpk3v9ndspacker/arm9.tmp.bin";
                     "-7"; "/tmp/tmpk3v9ndspacker/arm7.tmp.bin";
                     "-e9"; "33556480"; "-r9"; "0x2000000"; "-e7"; "37224448";
                     "-g"; "ENAE"; "01"; "NDSPACKER"; "1"]
                ∈ trace (script example_world (State example_files [])).2).
  { apply ndstool_runs_elem. vm_compute. apply list_elem_of_here. }
  destruct (Hrun _ Hin eq_refl) as (_ & _ & H12 & saved_arm7 & _ & [= <-] & Hwrite).
  eexists. split; [vm_compute; reflexivity|]. split; [exact H12 | exact Hwrite].
Defined.

(** ** The machine check *)

(** What is known when [get_elf_headers] returns. *)
Lemma get_elf_headers_returns W TOOL_PREFIX elf_path s headers s' :
  get_elf_headers W TOOL_PREFIX elf_path s = (Ok headers, s') ->
  let cmd := [TOOL_PREFIX +:+ "readelf"; "-h"; elf_path] in
  refused W cmd = None
  /\ trace s' = trace s ++ [Run cmd]
  /\ exists stdout,
       spawn W cmd (fs s) = Some (0, stdout, fs s')
       /\ parse_header_lines (drop 1 (Py.splitlines stdout)) ∅ = Ok headers.
Proof.
  rewrite get_elf_headers_cases. cbv zeta.
  destruct (refused W _); [done|].
  destruct (spawn W _ _) as [[[rc out] files]|]; [|done].
  destruct (Z.eqb_spec rc 0) as [->|_]; [|done].
  intros [= Hparse <-]. split; [done|]. split; [done|]. by exists out.
Qed.

Lemma load_packer_settings_errors W s e :
  (load_packer_settings W s).1 = Raise e ->
  e = IsADirectoryError \/ e = TOMLDecodeError.
Proof.
  unfold load_packer_settings, try_except_FileNotFoundError.
  rewrite bind_run. unfold read_bytes.
  destruct (fs s !! _) as [[content|]|]; cbn.
  - destruct (toml_load W content); cbn; [done|]. intros [= <-]. by right.
  - intros [= <-]. by left.
  - done.
Qed.

(** C6: when the header dump of the ARM9 file has a machine other than
    [ARM], [main] ends with exit status 1, and the only command it may
    have run is [readelf] on the path of that file: neither [objcopy]
    nor [ndstool] is run. With both inputs present and a readable
    configuration, the run ends at the machine check, after the
    header dump was read: with [sys.exit(1)] when [rich] renders the
    message that names the machine, with the error of [rich]
    otherwise. *)
Theorem wrong_machine_exits (W : world) (TOOL_PREFIX : string) (s s' : state)
    (arm9_image : string) (arm9_headers : gmap string string) (type : string) :
  Py.path_str <$> argv W !! 1%nat = Some arm9_image ->
  get_elf_headers W TOOL_PREFIX arm9_image s = (Ok arm9_headers, s') ->
  arm9_headers !! "machine" = Some type ->
  type <> "ARM" ->
  let out := main W TOOL_PREFIX s in
  let readelf := Run [TOOL_PREFIX +:+ "readelf"; "-h"; arm9_image] in
  exit_status out.1 = 1
  /\ (trace out.2 = trace s \/ trace out.2 = trace s ++ [readelf])
  /\ (forall cmd, Run cmd ∈ trace out.2 ->
        Run cmd ∈ trace s
        \/ (cmd !! 0%nat <> Some (TOOL_PREFIX +:+ "objcopy")
            /\ cmd !! 0%nat <> Some "ndstool"))
  /\ (present (fs s) arm9_image = true ->
      (forall path, Py.path_str <$> argv W !! 2%nat = Some path ->
                    present (fs s) path = true) ->
      (exists settings, (load_packer_settings W s).1 = Ok settings) ->
      out = (Raise (if markup W (not_arm type) then SystemExit 1 else MarkupError), s')).
Proof.
  intros Hargv Hheaders Hmachine Htype out readelf.
  pose proof (get_elf_headers_returns _ _ _ _ _ _ Hheaders) as (_ & Htrace & _).
  fold readelf in Htrace.
  assert (Hcases :
    (exit_status out.1 = 1 /\ trace out.2 = trace s
     /\ ~ (present (fs s) arm9_image = true
           /\ (forall path, Py.path_str <$> argv W !! 2%nat = Some path ->
                            present (fs s) path = true)
           /\ exists settings, (load_packer_settings W s).1 = Ok settings))
    \/ out = (Raise (exit_error W (not_arm type)), s')).
  { subst out. rewrite main_cases, Hargv.
    destruct (missing_input W s) as [path|] eqn:Hmissing.
    { left. cbn [fst snd]. split; [apply exit_status_exit_error|]. split; [done|].
      intros (Hex9 & Hex7 & _).
      apply missing_input_absent in Hmissing as [Habsent [Hpath | Hpath]].
      - rewrite Hargv in Hpath. injection Hpath as <-. congruence.
      - rewrite (Hex7 _ Hpath) in Habsent. done. }
    pose proof (load_packer_settings_state W s) as Hload.
    destruct (load_packer_settings W s) as [[settings|e] s0] eqn:Esettings;
      cbn [snd] in Hload; subst s0.
    2: { left. cbn [fst snd].
         pose proof (load_packer_settings_errors W s e) as Herr.
         rewrite Esettings in Herr.
         split; [by destruct (Herr eq_refl) as [-> | ->]|]. split; [done|].
         by intros (_ & _ & settings & [=]). }
    rewrite Hheaders, Hmachine.
    destruct (String.eqb_spec type "ARM") as [->|_]; [done|]. by right. }
  assert (Hevents : trace out.2 = trace s \/ trace out.2 = trace s ++ [readelf]).
  { destruct Hcases as [(_ & Hsame & _) | ->]; [by left | by right]. }
  split.
  { destruct Hcases as [[? _] | ->]; [done | apply exit_status_exit_error]. }
  split; [done|].
  split.
  - intros cmd Hin. destruct Hevents as [Hsame | Hone]; [left; by rewrite <- Hsame|].
    rewrite Hone in Hin. apply elem_of_app in Hin as [Hin | Hin]; [by left | right].
    apply list_elem_of_singleton in Hin. injection Hin as ->. cbn [lookup list_lookup].
    split; intros [= Heq].
    + by apply (append_same_length_inv TOOL_PREFIX TOOL_PREFIX "readelf" "objcopy") in Heq.
    + by apply (append_same_length_inv TOOL_PREFIX "" "readelf" "ndstool") in Heq.
  - intros Hex9 Hex7 Hload. destruct Hcases as [(_ & _ & Hnot) | ->]; [|done].
    destruct Hnot. auto.
Qed.

Lemma wrong_machine_exits_witness :
  Py.path_str <$> argv example_world_x86 !! 1%nat = Some "arm9.elf"
  /\ returned_header
       (get_elf_headers example_world_x86 "llvm-" "arm9.elf" (State example_files [])).1
       "machine" = Some "Advanced Micro Devices X86-64"
  /\ markup example_world_x86 (not_arm "Advanced Micro Devices X86-64") = true
  /\ main example_world_x86 "llvm-" (State example_files [])
     = (Raise (SystemExit 1),
        State example_files [Run ["llvm-readelf"; "-h"; "arm9.elf"]])
  /\ exit_status (main example_world_x86 "llvm-" (State example_files [])).1 = 1
  /\ markup (example_world_tools (machine_tools "[/x]")) (not_arm "[/x]") = false
  /\ main (example_world_tools (machine_tools "[/x]")) "llvm-" (State example_files [])
     = (Raise MarkupError,
        State example_files [Run ["llvm-readelf"; "-h"; "arm9.elf"]]).
Proof.
  pose proof (get_elf_headers_run example_world_x86 "llvm-" "arm9.elf"
                (State example_files []) x86_readelf_output example_files eq_refl eq_refl)
    as Hrun.
  assert (Hmachine :
    returned_header (parse_header_lines (drop 1 (Py.splitlines x86_readelf_output)) ∅)
      "machine" = Some "Advanced Micro Devices X86-64") by (vm_compute; reflexivity).
  split; [reflexivity|]. split; [by rewrite Hrun|].
  split; [vm_compute; reflexivity|].
  destruct (parse_header_lines (drop 1 (Py.splitlines x86_readelf_output)) ∅)
    as [headers|e]; [|discriminate Hmachine].
  cbn [returned_header] in Hmachine.
  assert (Htype : "Advanced Micro Devices X86-64" <> "ARM") by discriminate.
  destruct (wrong_machine_exits example_world_x86 "llvm-" (State example_files []) _
              "arm9.elf" headers _ eq_refl Hrun Hmachine Htype)
    as (Hstatus & _ & _ & Hexit).
  split; [apply Hexit; [reflexivity | intros path [=] | by eexists]|].
  split; [exact Hstatus|].
  split; [vm_compute; reflexivity|].
  clear Hrun Hmachine Htype Hstatus Hexit headers.
  pose proof (get_elf_headers_run (example_world_tools (machine_tools "[/x]")) "llvm-"
                "arm9.elf" (State example_files [])
                ("ELF Header:" +:+ nl +:+ "  Machine: [/x]" +:+ nl) example_files
                eq_refl eq_refl)
    as Hrun.
  assert (Hmachine :
    returned_header
      (parse_header_lines
         (drop 1 (Py.splitlines ("ELF Header:" +:+ nl +:+ "  Machine: [/x]" +:+ nl))) ∅)
      "machine" = Some "[/x]") by (vm_compute; reflexivity).
  destruct (parse_header_lines _ ∅) as [headers|e]; [|discriminate Hmachine].
  cbn [returned_header] in Hmachine.
  assert (Htype : "[/x]" <> "ARM") by discriminate.
  destruct (wrong_machine_exits (example_world_tools (machine_tools "[/x]")) "llvm-"
              (State example_files []) _ "arm9.elf" headers _ eq_refl Hrun Hmachine Htype)
    as (_ & _ & _ & Hexit).
  apply Hexit; [reflexivity | intros path [=] | by eexists].
Defined.

(** ** The tool prefix *)

(** C8: [get_tool_prefix] probes for [arm-none-eabi-readelf] first and
    for [llvm-readelf] second, and returns the prefix of the first one
    found. With neither, the script ends at once with
    [FileNotFoundError], having done nothing but the two probes. In
    every run the probes are the first events and no later event is a
    probe. *)
Theorem tool_prefix_resolution (W : world) (s : state) :
  let arm := Which "arm-none-eabi-readelf" in
  let llvm := Which "llvm-readelf" in
  (forall path, which W "arm-none-eabi-readelf" = Some path ->
     get_tool_prefix W s = (Ok "arm-none-eabi-", State (fs s) (trace s ++ [arm]))
     /\ script W s = main W "arm-none-eabi-" (State (fs s) (trace s ++ [arm])))
  /\ (forall path, which W "arm-none-eabi-readelf" = None ->
        which W "llvm-readelf" = Some path ->
        get_tool_prefix W s = (Ok "llvm-", State (fs s) (trace s ++ [arm; llvm]))
        /\ script W s = main W "llvm-" (State (fs s) (trace s ++ [arm; llvm])))
  /\ (which W "arm-none-eabi-readelf" = None -> which W "llvm-readelf" = None ->
        get_tool_prefix W s = (Raise FileNotFoundError, State (fs s) (trace s ++ [arm; llvm]))
        /\ script W s = (Raise FileNotFoundError, State (fs s) (trace s ++ [arm; llvm])))
  /\ exists probes rest,
       trace (script W s).2 = trace s ++ probes ++ rest
       /\ (probes = [arm] \/ probes = [arm; llvm])
       /\ Forall (fun e => forall name, e <> Which name) rest.
Proof.
  intros arm llvm.
  assert (Hscript : script W s
            = match get_tool_prefix W s with
              | (Ok prefix, s') => main W prefix s'
              | (Raise e, s') => (Raise e, s')
              end) by done.
  pose proof (get_tool_prefix_run W s) as Hprefix. fold arm llvm in Hprefix.
  split; [|split; [|split]].
  - intros path Hwhich. rewrite Hscript, Hprefix, Hwhich. by rewrite bool_decide_true.
  - intros path Hnone Hwhich. rewrite Hscript, Hprefix, Hnone, Hwhich.
    rewrite bool_decide_false by (by intros [? ?]). by rewrite bool_decide_true.
  - intros Hnone Hnone'. rewrite Hscript, Hprefix, Hnone, Hnone'.
    by rewrite !bool_decide_false by (by intros [? ?]).
  - assert (Hmain : forall prefix probes,
               exists rest,
                 trace (main W prefix (State (fs s) (trace s ++ probes))).2
                 = trace s ++ probes ++ rest
                 /\ Forall (fun e => forall name, e <> Which name) rest).
    { intros prefix probes.
      destruct (main_trace W prefix (State (fs s) (trace s ++ probes)))
        as (pre & Hpre & Hmain).
      assert (Hquiet : Forall (fun e => forall name, e <> Which name) pre).
      { eapply Forall_impl; [done|]. by intros [] He nm. }
      cbn [trace] in Hmain.
      destruct Hmain as [[-> _]
        | (dir & files & body & arm9_ep & arm9_data & arm7_ep & arm7_data & settings
           & -> & Hbody & _)].
      { exists pre. by rewrite <- app_assoc. }
      exists (pre ++ Mkdtemp "ndspacker" dir :: body ++ [Rmtree dir]).
      cbn [trace]. split; [by rewrite <- app_assoc|].
      apply Forall_app. split; [done|].
      apply Forall_cons. split; [done|].
      apply Forall_app. split; [|by repeat constructor].
      destruct Hbody as [-> | [-> | [-> | (e9 & e7 & cmd & _ & _ & _ & ->)]]];
        by repeat constructor. }
    rewrite Hscript, Hprefix.
    destruct (bool_decide _).
    { destruct (Hmain "arm-none-eabi-" [arm]) as (rest & Htrace & Hrest).
      exists [arm], rest. auto. }
    destruct (bool_decide _).
    { destruct (Hmain "llvm-" [arm; llvm]) as (rest & Htrace & Hrest).
      exists [arm; llvm], rest. auto. }
    exists [arm; llvm], []. cbn [snd trace]. rewrite app_nil_r. auto.
Qed.

Lemma tool_prefix_resolution_witness :
  which example_world "arm-none-eabi-readelf" = None
  /\ which example_world "llvm-readelf" = Some "/usr/bin/llvm-readelf"
  /\ get_tool_prefix example_world (State example_files [])
     = (Ok "llvm-",
        State example_files [Which "arm-none-eabi-readelf"; Which "llvm-readelf"]).
Proof.
  destruct (tool_prefix_resolution example_world (State example_files []))
    as (_ & Hllvm & _).
  destruct (Hllvm "/usr/bin/llvm-readelf" eq_refl eq_refl) as [Hprefix _].
  split; [reflexivity|]. split; [reflexivity | exact Hprefix].
Defined.

(** ** Temporary files *)

Lemma prefix_append (s t : string) : String.prefix s (s +:+ t) = true.
Proof.
  induction s as [|c s IH]; [by destruct t|].
  rewrite append_cons. cbn [String.prefix].
  by destruct (ascii_dec c c).
Qed.

Lemma append_assoc (s t u : string) : (s +:+ t) +:+ u = s +:+ t +:+ u.
Proof.
  induction s as [|c s IH]; [done|].
  by rewrite !append_cons, IH.
Qed.

Lemma below_joinpath dir name : below dir (joinpath dir name) = true.
Proof.
  unfold below, joinpath. rewrite <- append_assoc. apply prefix_append.
Qed.

Lemma rmtree_below dir files path :
  below dir path = true -> rmtree dir files !! path = None.
Proof.
  intros Hbelow. unfold rmtree. apply map_lookup_filter_None. right.
  intros node _ [_ Hnot]. congruence.
Qed.

Lemma rmtree_dir dir files : rmtree dir files !! dir = None.
Proof.
  unfold rmtree. apply map_lookup_filter_None. right.
  by intros node _ [Hne _].
Qed.

Lemma TemporaryDirectory_cleanup {A} W sfx (body : string -> M A) s :
  let dir := mkdtemp W sfx (fs s) in
  let s' := (TemporaryDirectory W sfx body s).2 in
  fs s' !! dir = None /\ forall path, below dir path = true -> fs s' !! path = None.
Proof.
  intros dir s'. subst s'. unfold TemporaryDirectory. fold dir.
  destruct (body dir _) as [r s']. cbn [snd fs].
  split; [apply rmtree_dir | intros path; apply rmtree_below].
Qed.

Lemma read_from_elf_trace W TOOL_PREFIX elf_path s :
  Mkdtemp "" (mkdtemp W "" (fs s)) ∈ trace (read_from_elf W TOOL_PREFIX elf_path s).2.
Proof.
  rewrite read_from_elf_cases. cbv zeta.
  destruct (refused W _).
  { cbn [snd trace]. apply elem_of_app. right. apply list_elem_of_here. }
  destruct (spawn W _ _) as [[[rc out] files]|]; cbn [snd trace];
    apply elem_of_app; right; apply list_elem_of_here.
Qed.

(** C9: a temporary directory and the files below it are gone from
    the file system when the operation that made it returns, whatever
    its result: for every body of [TemporaryDirectory], for the
    [out.o] of [read_from_elf], and for the two saved blobs of
    [packer_invocation], also when reached through [main]. *)
Theorem temporary_files_removed (W : world) (TOOL_PREFIX : string) :
  (forall A sfx (body : string -> M A) s r s',
      TemporaryDirectory W sfx body s = (r, s') ->
      let dir := mkdtemp W sfx (fs s) in
      fs s' !! dir = None /\ forall path, below dir path = true -> fs s' !! path = None)
  /\ (forall elf_path s r s',
        read_from_elf W TOOL_PREFIX elf_path s = (r, s') ->
        let tdir := mkdtemp W "" (fs s) in
        Mkdtemp "" tdir ∈ trace s'
        /\ fs s' !! joinpath tdir "out.o" = None /\ fs s' !! tdir = None)
  /\ (forall arm9_ep arm9_data arm7_ep arm7_data maker_code game_code game_title s r s',
        packer_invocation W arm9_ep arm9_data arm7_ep arm7_data
          maker_code game_code game_title s = (r, s') ->
        let directory := mkdtemp W "ndspacker" (fs s) in
        Mkdtemp "ndspacker" directory ∈ trace s'
        /\ fs s' !! joinpath directory "arm9.tmp.bin" = None
        /\ fs s' !! joinpath directory "arm7.tmp.bin" = None
        /\ fs s' !! directory = None)
  /\ (forall s r s',
        (forall directory, Mkdtemp "ndspacker" directory ∉ trace s) ->
        main W TOOL_PREFIX s = (r, s') ->
        forall directory,
          Mkdtemp "ndspacker" directory ∈ trace s' ->
          fs s' !! joinpath directory "arm9.tmp.bin" = None
          /\ fs s' !! joinpath directory "arm7.tmp.bin" = None
          /\ fs s' !! directory = None).
Proof.
  split; [|split; [|split]].
  - intros A sfx body s r s' Hrun.
    pose proof (TemporaryDirectory_cleanup W sfx body s) as H.
    by rewrite Hrun in H.
  - intros elf_path s r s' Hrun tdir.
    pose proof (read_from_elf_trace W TOOL_PREFIX elf_path s) as Htrace.
    pose proof (TemporaryDirectory_cleanup W "" 
      (fun tdir =>
         run_with_echo W [Str (TOOL_PREFIX +:+ "objcopy"); Str "-O"; Str "binary";
                          Str elf_path; Str (joinpath tdir "out.o")];;
         read_bytes (joinpath tdir "out.o")) s) as [Hdir Hbelow].
    fold (read_from_elf W TOOL_PREFIX elf_path) in Hdir, Hbelow.
    rewrite Hrun in Htrace, Hdir, Hbelow. cbn [snd] in *.
    split; [done|]. split; [|done]. apply Hbelow, below_joinpath.
  - intros arm9_ep arm9_data arm7_ep arm7_data mk gc gt s r s' Hrun directory.
    destruct (packer_invocation_run W arm9_ep arm9_data arm7_ep arm7_data mk gc gt s)
      as (files & body & Hstate & _).
    rewrite Hrun in Hstate. cbn [snd] in Hstate. subst s'. cbn [fs trace].
    split; [apply elem_of_app; right; apply elem_of_cons; by left|].
    split; [apply rmtree_below, below_joinpath|].
    split; [apply rmtree_below, below_joinpath | apply rmtree_dir].
  - intros s r s' Hfresh Hrun directory Hin.
    destruct (main_trace W TOOL_PREFIX s) as (pre & Hpre & Hmain).
    rewrite Forall_forall in Hpre. rewrite Hrun in Hmain. cbn [fst snd] in Hmain.
    destruct Hmain as [[Htrace _]
      | (dir & files & body & arm9_ep & arm9_data & arm7_ep & arm7_data & settings
         & -> & Hbody & _)].
    { rewrite Htrace in Hin. apply elem_of_app in Hin as [Hin | Hin%Hpre].
      - by apply Hfresh in Hin.
      - done. }
    cbn [fs trace] in *.
    assert (directory = dir) as ->.
    { rewrite !elem_of_app, elem_of_cons, elem_of_app, list_elem_of_singleton in Hin.
      destruct Hin as [Hin | [Hin%Hpre | [[= ->] | [Hin | [=]]]]]; try done.
      - by apply Hfresh in Hin.
      - destruct Hbody as [-> | [-> | [-> | (e9 & e7 & cmd & _ & _ & _ & ->)]]];
          repeat (apply elem_of_cons in Hin as [[=] | Hin]);
          by apply elem_of_nil in Hin. }
    split; [apply rmtree_below, below_joinpath|].
    split; [apply rmtree_below, below_joinpath | apply rmtree_dir].
Qed.

Lemma temporary_files_removed_witness :
  (read_from_elf example_world "llvm-" "arm9.elf" (State example_files [])).1
  = Ok [x01; x02; x03]
  /\ fs (read_from_elf example_world "llvm-" "arm9.elf" (State example_files [])).2
     !! "/tmp/tmpk3v9/out.o" = None
  /\ (main example_world "llvm-" (State example_files [])).1 = Ok tt
  /\ fs (main example_world "llvm-" (State example_files [])).2
     !! "/tmp/tmpk3v9ndspacker/arm9.tmp.bin" = None
  /\ fs (main example_world "llvm-" (State example_files [])).2
     !! "/tmp/tmpk3v9ndspacker/arm7.tmp.bin" = None.
Proof.
  destruct (temporary_files_removed example_world "llvm-")
    as (_ & Helf & _ & Hmain).
  split; [vm_compute; reflexivity|]. split.
  { destruct (read_from_elf example_world "llvm-" "arm9.elf" (State example_files []))
      as [r s'] eqn:Hrun.
    by destruct (Helf _ _ _ _ Hrun) as (_ & Hout & _). }
  split; [vm_compute; reflexivity|].
  assert (Hin : Mkdtemp "ndspacker" "/tmp/tmpk3v9ndspacker"
                ∈ trace (main example_world "llvm-" (State example_files [])).2).
  { vm_compute. do 4 apply list_elem_of_further. apply list_elem_of_here. }
  destruct (main example_world "llvm-" (State example_files [])) as [r s'] eqn:Hrun.
  assert (Hfresh : forall directory, Mkdtemp "ndspacker" directory ∉ trace (State example_files []))
    by (intros directory; apply not_elem_of_nil).
  destruct (Hmain _ _ _ Hfresh Hrun _ Hin) as (H9 & H7 & _).
  split; [exact H9 | exact H7].
Defined.

(** * Further properties of the program *)

(** ** Runs that end before the first tool *)

(** X1: a command line without an ARM9 path ends the script before
    anything is read or run. The tool prefix is resolved first, while
    the module loads: with no tool the end is [FileNotFoundError];
    with one it is the usage error, [sys.exit(1)], or [IndexError]
    when [sys.argv] is empty and the usage line cannot be built. The
    exit status is 1, the file system is untouched, and the only
    events are the probes for the tools. *)
Theorem usage_error (W : world) (s : state) :
  argv W !! 1%nat = None ->
  let out := script W s in
  out.1 = Raise (if tools_found W
                 then match argv W with
                      | [] => IndexError
                      | _ :: _ => SystemExit 1
                      end
                 else FileNotFoundError)
  /\ exit_status out.1 = 1
  /\ fs out.2 = fs s
  /\ extends probe s out.2.
Proof.
  intros Hargv out. subst out. unfold script, tools_found.
  rewrite bind_run, get_tool_prefix_run.
  assert (Hmain : forall prefix s1,
            main W prefix s1
            = (Raise (match argv W with [] => IndexError | _ :: _ => SystemExit 1 end), s1)).
  { intros prefix s1. rewrite main_cases, Hargv. cbn [fmap option_fmap option_map].
    by destruct (argv W). }
  destruct (bool_decide (is_Some (which W "arm-none-eabi-readelf"))).
  { rewrite Hmain. cbn [orb fst snd fs].
    split; [done|]. split; [by destruct (argv W)|]. split; [done|].
    eexists. split; [done|]. repeat constructor. by eexists. }
  destruct (bool_decide (is_Some (which W "llvm-readelf"))).
  { rewrite Hmain. cbn [orb fst snd fs].
    split; [done|]. split; [by destruct (argv W)|]. split; [done|].
    eexists. split; [done|]. repeat constructor; by eexists. }
  cbn [orb fst snd fs].
  split; [done|]. split; [done|]. split; [done|].
  eexists. split; [done|]. repeat constructor; by eexists.
Qed.

Lemma usage_error_witness :
  (script (example_world_argv ["ndspacker"]) (State example_files [])).1
  = Raise (SystemExit 1)
  /\ exit_status (script (example_world_argv ["ndspacker"]) (State example_files [])).1 = 1
  /\ fs (script (example_world_argv ["ndspacker"]) (State example_files [])).2
     = example_files
  /\ extends probe (State example_files [])
       (script (example_world_argv ["ndspacker"]) (State example_files [])).2.
Proof. apply (usage_error (example_world_argv ["ndspacker"])). reflexivity. Defined.



(** X3: only a missing configuration file is tolerated. When
    [ndspacker.toml] is a directory, or a file the decoder rejects,
    [main] ends with that error (exit status 1) after the checks of
    the inputs and before any tool is run; nothing is changed. *)
Theorem unreadable_config_ends_run (W : world) (TOOL_PREFIX : string) (s : state)
    (arm9_image : string) (config : node) :
  inputs_present W s arm9_image ->
  fs s !! joinpath (cwd W) "ndspacker.toml" = Some config ->
  match config with
  | File content => toml_load W content = None
  | Dir => True
  end ->
  main W TOOL_PREFIX s
  = (Raise (match config with
            | File _ => TOMLDecodeError
            | Dir => IsADirectoryError
            end), s).
Proof.
  intros Hinputs Hconfig Hbad.
  rewrite main_cases, (inputs_present_checks _ _ _ Hinputs).
  destruct Hinputs as (-> & _).
  unfold load_packer_settings, try_except_FileNotFoundError.
  rewrite bind_run. unfold read_bytes. rewrite Hconfig.
  destruct config as [content|]; [|done].
  by rewrite Hbad.
Qed.

Lemma unreadable_config_ends_run_witness :
  main example_world_bad_config "llvm-" (State example_files_with_config [])
  = (Raise TOMLDecodeError, State example_files_with_config []).
Proof.
  apply (unreadable_config_ends_run example_world_bad_config "llvm-"
           (State example_files_with_config []) "arm9.elf" (File [])).
  - split; [reflexivity|]. split; [reflexivity | intros path [=]].
  - reflexivity.
  - reflexivity.
Defined.

(** ** Runs that end at the first tool *)



(** X5: a header the program needs and the dump lacks. When the dump
    that a started [readelf] prints for the path of the ARM9 file has
    no [Machine] line, [main] ends with
    [KeyError] for [machine]; when it has machine [ARM] and no
    [Entry point address] line, with [KeyError] for
    [entry_point_address]. Either way [readelf] is the only command
    run: nothing is extracted and no ROM is built. *)
Theorem missing_header_key (W : world) (TOOL_PREFIX : string) (s : state)
    (arm9_image stdout : string) (files : gmap string node)
    (settings : gmap string pyobj) (arm9_headers : gmap string string) :
  inputs_present W s arm9_image ->
  (load_packer_settings W s).1 = Ok settings ->
  refused W [TOOL_PREFIX +:+ "readelf"; "-h"; arm9_image] = None ->
  spawn W [TOOL_PREFIX +:+ "readelf"; "-h"; arm9_image] (fs s) = Some (0, stdout, files) ->
  parse_header_lines (drop 1 (Py.splitlines stdout)) ∅ = Ok arm9_headers ->
  arm9_headers !! "machine" = None
  \/ (arm9_headers !! "machine" = Some "ARM"
      /\ arm9_headers !! "entry_point_address" = None) ->
  main W TOOL_PREFIX s
  = (Raise (KeyError (match arm9_headers !! "machine" with
                      | None => "machine"
                      | Some _ => "entry_point_address"
                      end)),
     State files (trace s ++ [Run [TOOL_PREFIX +:+ "readelf"; "-h"; arm9_image]])).
Proof.
  intros Hinputs Hsettings Hrefused Hspawn Hparse Hmissing.
  rewrite main_cases, (inputs_present_checks _ _ _ Hinputs).
  destruct Hinputs as (-> & _).
  destruct (load_packer_settings W s) as [[settings'|e] s0]; [|done].
  rewrite get_elf_headers_cases. cbv zeta. rewrite Hrefused, Hspawn.
  change (0 =? 0) with true. cbv iota. rewrite Hparse.
  destruct Hmissing as [Hmachine | [Hmachine Hentry]]; rewrite Hmachine; [done|].
  rewrite String.eqb_refl. cbn [negb].
  unfold arm9_entry_point, Py.getitem. by rewrite Hentry.
Qed.

Lemma missing_header_key_witness :
  main (example_world_tools headerless_tools) "llvm-" (State example_files [])
  = (Raise (KeyError "machine"),
     State example_files [Run ["llvm-readelf"; "-h"; "arm9.elf"]]).
Proof.
  refine (eq_trans
            (missing_header_key (example_world_tools headerless_tools) "llvm-"
               (State example_files []) "arm9.elf"
               ("ELF Header:" +:+ nl +:+ "  Class:                             ELF32" +:+ nl)
               example_files DEFAULT_PACKER_SETTINGS (<["class" := "ELF32"]> ∅)
               _ _ _ _ _ _) _).
  - split; [reflexivity|]. split; [reflexivity | intros path [=]].
  - reflexivity.
  - reflexivity.
  - reflexivity.
  - reflexivity.
  - by left.
  - reflexivity.
Defined.

(** ** The header parser, on any dump *)

Section Strings.

Implicit Types (s t : string) (c : ascii).

Lemma chars_map_chars f s :
  String.list_ascii_of_string (Py.map_chars f s) = f <$> String.list_ascii_of_string s.
Proof. induction s as [|c s IH]; [done|]. cbn. by rewrite IH. Qed.

Lemma map_chars_fixed f s :
  Forall (fun c => f c = c) (String.list_ascii_of_string s) -> Py.map_chars f s = s.
Proof.
  induction s as [|c s IH]; [done|]. cbn. intros [Hc Hs]%Forall_cons.
  by rewrite Hc, IH.
Qed.

Lemma chars_lstrip (P : ascii -> Prop) s :
  Forall P (String.list_ascii_of_string s) ->
  Forall P (String.list_ascii_of_string (Py.lstrip s)).
Proof.
  induction s as [|c s IH]; [done|]. cbn [Py.lstrip].
  destruct (Py.is_space c); [|done].
  cbn. intros [_ Hs]%Forall_cons. by apply IH.
Qed.

Lemma chars_rstrip (P : ascii -> Prop) s :
  Forall P (String.list_ascii_of_string s) ->
  Forall P (String.list_ascii_of_string (Py.rstrip s)).
Proof.
  induction s as [|c s IH]; [done|]. cbn [Py.rstrip String.list_ascii_of_string].
  intros [Hc Hs]%Forall_cons. specialize (IH Hs).
  destruct (Py.rstrip s) as [|c' r].
  - destruct (Py.is_space c); cbn; [constructor | by repeat constructor].
  - cbn. by constructor.
Qed.

Lemma rstrip_cons c t :
  Py.is_space c = false -> Py.rstrip (String c t) = String c (Py.rstrip t).
Proof.
  intros Hc. cbn [Py.rstrip]. destruct (Py.rstrip t); [by rewrite Hc | done].
Qed.

Lemma lstrip_head s :
  Py.lstrip s = "" \/ exists c t, Py.lstrip s = String c t /\ Py.is_space c = false.
Proof.
  induction s as [|c s IH]; [by left|]. cbn [Py.lstrip].
  destruct (Py.is_space c) eqn:Hc; [done|]. right. by exists c, s.
Qed.

Lemma rstrip_idem s : Py.rstrip (Py.rstrip s) = Py.rstrip s.
Proof.
  induction s as [|c s IH]; [done|]. cbn [Py.rstrip].
  destruct (Py.rstrip s) as [|c' r] eqn:Hr.
  - destruct (Py.is_space c) eqn:Hc; [done|]. cbn [Py.rstrip]. by rewrite Hc.
  - change (Py.rstrip (String c (String c' r)))
      with (match Py.rstrip (String c' r) with
            | "" => if Py.is_space c then "" else String c ""
            | r' => String c r'
            end).
    by rewrite IH.
Qed.

(** A stripped string begins and ends with a character that is no
    white space. *)
Lemma strip_stripped s :
  Py.lstrip (Py.strip s) = Py.strip s /\ Py.rstrip (Py.strip s) = Py.strip s.
Proof.
  unfold Py.strip. split; [|apply rstrip_idem].
  destruct (lstrip_head s) as [-> | (c & t & -> & Hc)]; [done|].
  rewrite rstrip_cons by done. cbn [Py.lstrip]. by rewrite Hc.
Qed.

Lemma lstrip_fixed_head s :
  Py.lstrip s = s -> s = "" \/ exists c t, s = String c t /\ Py.is_space c = false.
Proof.
  intros Heq. destruct (lstrip_head s) as [Hs | (c & t & Hs & Hc)].
  - left. congruence.
  - right. exists c, t. split; [congruence | done].
Qed.

(** Changing characters that are white space into others that are not,
    and no other, keeps a string stripped. *)
Lemma map_chars_stripped f s :
  (forall c, Py.is_space c = false -> Py.is_space (f c) = false) ->
  Py.lstrip s = s -> Py.rstrip s = s ->
  Py.lstrip (Py.map_chars f s) = Py.map_chars f s
  /\ Py.rstrip (Py.map_chars f s) = Py.map_chars f s.
Proof.
  intros Hf Hleft Hright. split.
  - destruct (lstrip_fixed_head s Hleft) as [-> | (c & t & -> & Hc)]; [done|].
    cbn [Py.map_chars Py.lstrip]. by rewrite (Hf c Hc).
  - clear Hleft. induction s as [|c s IH]; [done|].
    cbn [Py.rstrip] in Hright. cbn [Py.map_chars].
    destruct (Py.rstrip s) as [|c' r] eqn:Hr.
    + destruct (Py.is_space c) eqn:Hc; [done|].
      injection Hright as <-. cbn [Py.map_chars Py.rstrip]. by rewrite (Hf c Hc).
    + injection Hright as <-. specialize (IH eq_refl).
      cbn [Py.rstrip]. rewrite IH. by cbn [Py.map_chars].
Qed.

Lemma lower_char_idem c : Py.lower_char (Py.lower_char c) = Py.lower_char c.
Proof. destruct c as [[] [] [] [] [] [] [] []]; reflexivity. Qed.

End Strings.

Lemma partition_None line : Py.partition ":" line = None <-> colon_free line.
Proof.
  unfold colon_free. induction line as [|c line IH].
  { split; [intros _; apply not_elem_of_nil | done]. }
  cbn [Py.partition String.list_ascii_of_string]. rewrite not_elem_of_cons.
  destruct (Ascii.eqb_spec c ":") as [->|Hne].
  { split; [done | by intros [? _]]. }
  destruct (Py.partition ":" line) as [[before after]|].
  - split; [done|]. intros [_ Hfree]. by apply IH in Hfree.
  - split; [|done]. intros _. split; [congruence | by apply IH].
Qed.

Lemma parse_header_lines_raises lines headers e :
  parse_header_lines lines headers = Raise e -> e = ValueError /\ Exists colon_free lines.
Proof.
  revert headers. induction lines as [|line lines IH]; intros headers; [done|].
  cbn [parse_header_lines]. unfold Py.split1.
  destruct (Py.partition ":" line) as [[before after]|] eqn:Hline.
  - intros [-> Hex]%IH. split; [done | by right].
  - intros [= <-]. split; [done|]. left. by apply partition_None.
Qed.

Lemma parse_header_lines_returns lines headers headers' :
  parse_header_lines lines headers = Ok headers' ->
  Forall (fun line => ~ colon_free line) lines.
Proof.
  revert headers. induction lines as [|line lines IH]; intros headers; [done|].
  cbn [parse_header_lines]. unfold Py.split1.
  destruct (Py.partition ":" line) as [[before after]|] eqn:Hline; [|done].
  intros Hrest%IH. constructor; [|done].
  intros Hfree%partition_None. congruence.
Qed.

(** X6: a line without a colon, anywhere after the first line of the
    dump that a started [readelf] prints, makes [get_elf_headers] fail: unpacking the split of that
    line raises [ValueError]. This is the only way the parser fails,
    and it fails on every such dump: the headers are returned exactly
    when every line after the first has a colon. *)
Theorem colon_free_line_fails (W : world) (TOOL_PREFIX elf_path : string)
    (s : state) (stdout : string) (files : gmap string node) :
  refused W [TOOL_PREFIX +:+ "readelf"; "-h"; elf_path] = None ->
  spawn W [TOOL_PREFIX +:+ "readelf"; "-h"; elf_path] (fs s) = Some (0, stdout, files) ->
  let lines := drop 1 (Py.splitlines stdout) in
  ((get_elf_headers W TOOL_PREFIX elf_path s).1 = Raise ValueError
   <-> Exists colon_free lines)
  /\ ((exists headers, (get_elf_headers W TOOL_PREFIX elf_path s).1 = Ok headers)
      <-> Forall (fun line => ~ colon_free line) lines).
Proof.
  intros Hrefused Hspawn lines.
  rewrite (get_elf_headers_run _ _ _ _ _ _ Hrefused Hspawn). fold lines. cbn [fst].
  destruct (parse_header_lines lines ∅) as [headers|e] eqn:Hparse.
  - apply parse_header_lines_returns in Hparse.
    split; [|split; [done | by eexists]]. split; [done|].
    intros Hex%Exists_exists. destruct Hex as (line & Hin & Hfree).
    rewrite Forall_forall in Hparse. by destruct (Hparse line Hin).
  - apply parse_header_lines_raises in Hparse as [-> Hex].
    split; [done|]. split; [by intros [? ?]|].
    intros Hall. apply Exists_exists in Hex as (line & Hin & Hfree).
    rewrite Forall_forall in Hall. by destruct (Hall line Hin).
Qed.

Lemma colon_free_line_fails_witness :
  ((get_elf_headers (example_world_tools blank_line_tools) "llvm-" "arm9.elf"
      (State example_files [])).1 = Raise ValueError
   <-> Exists colon_free (drop 1 (Py.splitlines blank_line_output)))
  /\ ((exists headers,
         (get_elf_headers (example_world_tools blank_line_tools) "llvm-" "arm9.elf"
            (State example_files [])).1 = Ok headers)
      <-> Forall (fun line => ~ colon_free line)
            (drop 1 (Py.splitlines blank_line_output))).
Proof.
  apply (colon_free_line_fails (example_world_tools blank_line_tools) "llvm-" "arm9.elf"
           (State example_files []) blank_line_output example_files).
  - reflexivity.
  - reflexivity.
Defined.

(** The entries the loop adds have keys and values in normal form. *)
Lemma header_key_normal before :
  let key := Py.replace " " "_" (Py.strip (Py.lower before)) in
  (" "%char ∉ chars key) /\ Py.lower key = key /\ Py.strip key = key.
Proof.
  intros key. subst key. unfold chars, Py.replace, Py.lower.
  set (f := fun c : ascii => if Ascii.eqb c " " then "_"%char else c).
  split; [|split].
  - rewrite chars_map_chars. intros (c & Hc & _)%list_elem_of_fmap.
    unfold f in Hc. by destruct (Ascii.eqb_spec c " ").
  - apply map_chars_fixed. rewrite chars_map_chars. apply Forall_fmap.
    unfold Py.strip. apply chars_rstrip, chars_lstrip.
    rewrite chars_map_chars. apply Forall_fmap, Forall_forall. intros c _. cbn.
    unfold f. destruct (Ascii.eqb_spec (Py.lower_char c) " ") as [_|_]; [done|].
    apply lower_char_idem.
  - destruct (strip_stripped (Py.map_chars Py.lower_char before)) as [Hleft Hright].
    destruct (map_chars_stripped f _
                ltac:(intros c Hc; unfold f;
                      by destruct (Ascii.eqb_spec c " ") as [->|]) Hleft Hright)
      as [Hleft' Hright'].
    unfold Py.strip at 1. by rewrite Hleft', Hright'.
Qed.

Lemma strip_idem s : Py.strip (Py.strip s) = Py.strip s.
Proof.
  destruct (strip_stripped s) as [Hleft Hright].
  unfold Py.strip at 1. by rewrite Hleft, Hright.
Qed.

Lemma parse_header_lines_normal (P : string -> string -> Prop) lines headers headers' :
  (forall before after,
      P (Py.replace " " "_" (Py.strip (Py.lower before))) (Py.strip after)) ->
  parse_header_lines lines headers = Ok headers' ->
  map_Forall P headers -> map_Forall P headers'.
Proof.
  intros HP. revert headers. induction lines as [|line lines IH]; intros headers.
  { by intros [= <-]. }
  cbn [parse_header_lines]. unfold Py.split1.
  destruct (Py.partition ":" line) as [[before after]|]; [|done].
  intros Hrest Hall. apply (IH _ Hrest). by apply map_Forall_insert_2.
Qed.

(** X7: the keys of the mapping [get_elf_headers] returns are in
    normal form, whatever the tool printed: a key holds no space, no
    upper-case letter (lower-casing it changes nothing) and no white
    space at either end; a value has no white space at either end.
    So a header is found under one spelling only, the one [main]
    uses for [machine] and [entry_point_address]. *)
Theorem header_entries_normal (W : world) (TOOL_PREFIX elf_path : string)
    (s : state) (key value : string) :
  returned_header (get_elf_headers W TOOL_PREFIX elf_path s).1 key = Some value ->
  (" "%char ∉ chars key)
  /\ Py.lower key = key
  /\ Py.strip key = key
  /\ Py.strip value = value.
Proof.
  rewrite get_elf_headers_cases. cbv zeta.
  destruct (refused W _); [done|].
  destruct (spawn W _ (fs s)) as [[[rc out] files]|]; [|done].
  destruct (rc =? 0); [|done]. cbn [fst].
  destruct (parse_header_lines _ ∅) as [headers|e] eqn:Hparse; [|done].
  cbn [returned_header]. intros Hlookup.
  eapply (parse_header_lines_normal
            (fun key value =>
               (" "%char ∉ chars key) /\ Py.lower key = key
               /\ Py.strip key = key /\ Py.strip value = value))
    in Hparse.
  - by apply (Hparse key value).
  - intros before after.
    destruct (header_key_normal before) as (Hspace & Hlower & Hstrip).
    by rewrite strip_idem.
  - apply map_Forall_empty.
Qed.

Lemma header_entries_normal_witness :
  (" "%char ∉ chars "entry_point_address")
  /\ Py.lower "entry_point_address" = "entry_point_address"
  /\ Py.strip "entry_point_address" = "entry_point_address"
  /\ Py.strip "0x2000800" = "0x2000800".
Proof.
  apply (header_entries_normal example_world "llvm-" "arm9.elf" (State example_files [])).
  vm_compute. reflexivity.
Defined.

(** ** Temporary directories and what survives them *)

(** Removing a directory leaves every other path as it was. *)
Lemma rmtree_other dir files path :
  path <> dir -> below dir path = false -> rmtree dir files !! path = files !! path.
Proof.
  intros Hne Hbelow. unfold rmtree.
  destruct (files !! path) as [node|] eqn:Hlook.
  - by apply map_lookup_filter_Some.
  - apply map_lookup_filter_None. by left.
Qed.

(** X8: [read_from_elf] returns the bytes [objcopy] left in [out.o]
    of the new directory, and only those: it returns [content]
    exactly when the command was started, returned zero, and [out.o]
    is then a file that holds [content]. Whatever the command
    returned, the paths outside the directory end as the command left
    them; when the command is not started, because [rich] rejects its
    echo or an argument holds a NUL character, they end as they
    were. *)
Theorem read_from_elf_returns (W : world) (TOOL_PREFIX elf_path : string) (s : state) :
  let tdir := mkdtemp W "" (fs s) in
  let cmd := [TOOL_PREFIX +:+ "objcopy"; "-O"; "binary"; elf_path; joinpath tdir "out.o"] in
  (forall content,
      (read_from_elf W TOOL_PREFIX elf_path s).1 = Ok content
      <-> refused W cmd = None
          /\ exists stdout files,
               spawn W cmd (<[tdir := Dir]> (fs s)) = Some (0, stdout, files)
               /\ files !! joinpath tdir "out.o" = Some (File content))
  /\ (forall returncode stdout files path,
        refused W cmd = None ->
        spawn W cmd (<[tdir := Dir]> (fs s)) = Some (returncode, stdout, files) ->
        path <> tdir -> below tdir path = false ->
        fs (read_from_elf W TOOL_PREFIX elf_path s).2 !! path = files !! path)
  /\ (forall e path,
        refused W cmd = Some e ->
        path <> tdir -> below tdir path = false ->
        (read_from_elf W TOOL_PREFIX elf_path s).1 = Raise e
        /\ fs (read_from_elf W TOOL_PREFIX elf_path s).2 !! path = fs s !! path).
Proof.
  intros tdir cmd. rewrite read_from_elf_cases. cbv zeta. fold tdir cmd.
  split; [|split].
  - intros content.
    destruct (refused W cmd); cbn [fst].
    { split; [done | by intros [? _]]. }
    destruct (spawn W cmd _) as [[[rc out] files]|]; cbn [fst].
    2: { split; [done | by intros (_ & ? & ? & ? & _)]. }
    destruct (Z.eqb_spec rc 0) as [->|Hrc].
    2: { split; [done|]. intros (_ & ? & ? & [= ? _ _] & _). done. }
    destruct (files !! joinpath tdir "out.o") as [[content'|]|] eqn:Hout.
    + split.
      * intros [= ->]. split; [done|]. by exists out, files.
      * intros (_ & out' & files' & [= _ <-] & Hout'). congruence.
    + split; [done|]. intros (_ & out' & files' & [= _ <-] & Hout'). congruence.
    + split; [done|]. intros (_ & out' & files' & [= _ <-] & Hout'). congruence.
  - intros rc out files path -> ->. cbn [snd fs]. apply rmtree_other.
  - intros e path -> Hne Hbelow. cbn [fst snd fs]. split; [done|].
    rewrite rmtree_other by done. by apply lookup_insert_ne.
Qed.

Lemma fresh_directory_lookup dir files path :
  fresh_directory dir files -> ~ outside dir path -> files !! path = None.
Proof.
  intros Hfresh Hin. destruct (files !! path) as [node|] eqn:Hlook; [|done].
  destruct Hin. by apply (Hfresh path node).
Qed.

Lemma rmtree_outside dir files path :
  outside dir path -> rmtree dir files !! path = files !! path.
Proof. intros [Hne Hbelow]. by apply rmtree_other. Qed.


Lemma joinpath_inside dir name : ~ outside dir (joinpath dir name).
Proof. intros [_ Hbelow]. by rewrite below_joinpath in Hbelow. Qed.




(** ** The ROM builder in a run *)

Lemma ndstool_runs_probes evs : Forall probe evs -> ndstool_runs evs = [].
Proof.
  induction 1 as [|e evs [name ->] _ IH]; [done|]. exact IH.
Qed.

(** When no check of the inputs fails, the inputs are present. *)
Lemma checks_inputs_present W s arm9_image :
  Py.path_str <$> argv W !! 1%nat = Some arm9_image ->
  missing_input W s = None ->
  inputs_present W s arm9_image.
Proof.
  intros Hargv. unfold missing_input. rewrite Hargv.
  destruct (present (fs s) arm9_image) eqn:Harm9; [|done].
  intros Hcheck. split; [done|]. split; [done|].
  intros arm7_image Harm7. rewrite Harm7 in Hcheck.
  by destruct (present (fs s) arm7_image).
Qed.

(** X10: in a run of the script the ROM builder is started at most
    once, and then as the last command of the run: every other
    command comes before it, and after it only its temporary
    directory is removed. *)
Theorem rom_builder_runs_last (W : world) (s : state) :
  exists evs,
    trace (script W s).2 = trace s ++ evs
    /\ (ndstool_runs evs = []
        \/ exists before cmd dir,
             evs = before ++ [Run cmd; Rmtree dir]
             /\ ndstool_runs before = []
             /\ cmd !! 0%nat = Some "ndstool").
Proof.
  destruct (script_run W s) as (probes & Hprobes & [-> | (prefix & _ & ->)]).
  { exists probes. split; [done|]. left. apply ndstool_runs_probes.
    eapply Forall_impl; [exact Hprobes | done]. }
  assert (Hnone : ndstool_runs probes = []).
  { apply ndstool_runs_probes. eapply Forall_impl; [exact Hprobes | done]. }
  set (s1 := State (fs s) (trace s ++ probes)).
  destruct (main_trace W prefix s1) as (pre & Hpre & Hmain).
  apply ndstool_runs_tool_events in Hpre.
  destruct Hmain as [[Htrace _]
    | (dir & files & body & arm9_ep & arm9_data & arm7_ep & arm7_data & settings
       & -> & Hbody & _)].
  { exists (probes ++ pre). rewrite Htrace. cbn [trace s1]. rewrite <- app_assoc.
    split; [done|]. left. by rewrite ndstool_runs_app, Hnone, Hpre. }
  cbn [snd trace s1].
  exists (probes ++ pre ++ Mkdtemp "ndspacker" dir :: body ++ [Rmtree dir]).
  rewrite <- !app_assoc. split; [done|].
  destruct Hbody as [-> | [-> | [-> | (e9 & e7 & cmd & _ & _ & Hcmd & ->)]]].
  1-3: left; by rewrite !ndstool_runs_app, Hnone, Hpre.
  right. apply ndstool_command_head in Hcmd as [Hhead _].
  exists (probes ++ pre
          ++ [Mkdtemp "ndspacker" dir;
              WriteBytes (joinpath dir "arm9.tmp.bin") arm9_data;
              WriteBytes (joinpath dir "arm7.tmp.bin") arm7_data]), cmd, dir.
  split; [by rewrite <- !app_assoc|]. split; [|done].
  by rewrite !ndstool_runs_app, Hnone, Hpre.
Qed.

Lemma packer_invocation_ok W arm9_ep arm9_data arm7_ep arm7_data mk gc gt s :
  let dir := mkdtemp W "ndspacker" (fs s) in
  let saved_arm9 := joinpath dir "arm9.tmp.bin" in
  let saved_arm7 := joinpath dir "arm7.tmp.bin" in
  let saved := <[saved_arm7 := File arm7_data]>
                 (<[saved_arm9 := File arm9_data]> (<[dir := Dir]> (fs s))) in
  let out := packer_invocation W arm9_ep arm9_data arm7_ep arm7_data mk gc gt s in
  out.1 = Ok tt ->
  exists e9 e7 cmd stdout files,
    Py.str arm9_ep = Ok e9 /\ Py.str arm7_ep = Ok e7
    /\ strings_of (ndstool_command saved_arm9 saved_arm7 e9 e7 gc mk gt) = Some cmd
    /\ refused W cmd = None
    /\ spawn W cmd saved = Some (0, stdout, files)
    /\ out.2 = State (rmtree dir files)
                 (trace s ++ [Mkdtemp "ndspacker" dir; WriteBytes saved_arm9 arm9_data;
                              WriteBytes saved_arm7 arm7_data; Run cmd; Rmtree dir]).
Proof.
  intros dir saved_arm9 saved_arm7 saved out. subst out.
  rewrite packer_invocation_cases. cbv zeta. fold dir saved_arm9 saved_arm7 saved.
  destruct (fs s !! saved_arm9) as [[?|]|].
  2: { destruct (fs s !! saved_arm7) as [[?|]|]; cbn [fst snd]; discriminate. }
  all: destruct (fs s !! saved_arm7) as [[?|]|]; [|cbn [fst snd]; discriminate|].
  all: destruct (Py.str arm9_ep) as [e9|]; cbn [fst snd]; [|discriminate].
  all: destruct (Py.str arm7_ep) as [e7|]; cbn [fst snd]; [|discriminate].
  all: destruct (strings_of _) as [cmd|] eqn:Hcmd; cbn [fst snd]; [|discriminate].
  all: destruct (refused W cmd) eqn:Hrefused; cbn [fst snd]; [discriminate|].
  all: destruct (spawn W cmd saved) as [[[rc stdout] files]|] eqn:Hspawn; cbn [fst snd];
    [|discriminate].
  all: destruct (Z.eqb_spec rc 0) as [->|]; [|discriminate].
  all: intros _; by exists e9, e7, cmd, stdout, files.
Qed.

(** X11: what a normal end of [main] means. When [main] returns, the
    inputs named on the command line existed, the dump of the ARM9
    file gave the machine [ARM], and the last command of the run was
    the ROM builder, asked to create [./rom.nds], which returned
    zero; the files at the end are those it left, less the temporary
    directory. *)
Theorem normal_end_means_rom_built (W : world) (TOOL_PREFIX : string) (s : state) :
  (main W TOOL_PREFIX s).1 = Ok tt ->
  exists arm9_image before cmd dir files_in stdout files,
    inputs_present W s arm9_image
    /\ returned_header (get_elf_headers W TOOL_PREFIX arm9_image s).1 "machine" = Some "ARM"
    /\ trace (main W TOOL_PREFIX s).2 = trace s ++ before ++ [Run cmd; Rmtree dir]
    /\ ndstool_runs before = []
    /\ cmd !! 0%nat = Some "ndstool"
    /\ cmd !! 2%nat = Some "./rom.nds"
    /\ spawn W cmd files_in = Some (0, stdout, files)
    /\ fs (main W TOOL_PREFIX s).2 = rmtree dir files.
Proof.
  rewrite main_cases.
  destruct (Py.path_str <$> argv W !! 1%nat) as [arm9_image|] eqn:Hargv; [|done].
  destruct (missing_input W s) as [path|] eqn:Hmissing; [done|].
  pose proof (checks_inputs_present W s arm9_image Hargv Hmissing) as Hinputs.
  destruct (load_packer_settings W s) as [[settings|] s0]; [|done].
  pose proof (emits_get_elf_headers W TOOL_PREFIX arm9_image s) as Hext1.
  destruct (get_elf_headers W TOOL_PREFIX arm9_image s) as [[arm9_headers|] s1]
    eqn:Hheaders; [|done].
  cbn [fst snd returned_header] in *.
  destruct (arm9_headers !! "machine") as [type|] eqn:Hmachine; [|done].
  destruct (String.eqb_spec type "ARM") as [->|]; [|done]. cbn [negb].
  destruct (arm9_entry_point arm9_headers) as [arm9_ep|]; [|done].
  pose proof (emits_read_from_elf W TOOL_PREFIX arm9_image s1) as Hext2.
  destruct (read_from_elf W TOOL_PREFIX arm9_image s1) as [[arm9_data|] s2]; [|done].
  pose proof (emits_read_arm7 W TOOL_PREFIX (Py.path_str <$> argv W !! 2%nat) s2) as Hext3.
  destruct (read_arm7 W TOOL_PREFIX (Py.path_str <$> argv W !! 2%nat) s2)
    as [[[arm7_ep arm7_data]|] s3]; [|done].
  cbn [snd] in *.
  destruct (extends_trans _ _ _ _ (extends_trans _ _ _ _ Hext1 Hext2) Hext3)
    as (pre & Htrace & Hpre).
  intros (e9 & e7 & cmd & stdout & files & _ & _ & Hcmd & _ & Hspawn & ->)%packer_invocation_ok.
  cbn [fs trace].
  eexists arm9_image, _, cmd, _, _, stdout, files.
  split; [done|]. split; [by rewrite Hheaders|].
  split; [|split; [|split; [|split; [|split; [exact Hspawn | done]]]]].
  - rewrite Htrace, <- app_assoc. f_equal.
    by instantiate (1 := pre ++ [Mkdtemp "ndspacker" _; WriteBytes _ _; WriteBytes _ _]);
      rewrite <- app_assoc.
  - rewrite ndstool_runs_app, (ndstool_runs_tool_events _ _ Hpre). done.
  - by apply ndstool_command_head in Hcmd as [? _].
  - by apply strings_of_ndstool_command in Hcmd as (g & m & t & _ & _ & _ & ->).
Qed.

Lemma normal_end_means_rom_built_witness :
  exists arm9_image before cmd dir files_in stdout files,
    inputs_present example_world (State example_files []) arm9_image
    /\ returned_header
         (get_elf_headers example_world "llvm-" arm9_image (State example_files [])).1
         "machine" = Some "ARM"
    /\ trace (main example_world "llvm-" (State example_files [])).2
       = trace (State example_files []) ++ before ++ [Run cmd; Rmtree dir]
    /\ ndstool_runs before = []
    /\ cmd !! 0%nat = Some "ndstool"
    /\ cmd !! 2%nat = Some "./rom.nds"
    /\ spawn example_world cmd files_in = Some (0, stdout, files)
    /\ fs (main example_world "llvm-" (State example_files [])).2 = rmtree dir files.
Proof.
  apply (normal_end_means_rom_built example_world "llvm-" (State example_files [])).
  vm_compute. reflexivity.
Defined.

(** ** The ways a run can end *)

Section Errors.

Context (W : world) (TOOL_PREFIX : string).

Lemma refused_expected cmd e : refused W cmd = Some e -> expected_error W e.
Proof.
  intros [[-> Hmarkup] | ->]%refused_error; [|done].
  exists (echo cmd). split; [|done]. left. by exists cmd.
Qed.

Lemma exit_error_expected text : free_text text -> expected_error W (exit_error W text).
Proof.
  intros Htext. unfold exit_error.
  destruct (markup W text) eqn:Hmarkup; [done|]. by exists text.
Qed.

Lemma get_elf_headers_error elf_path s e :
  (get_elf_headers W TOOL_PREFIX elf_path s).1 = Raise e -> expected_error W e.
Proof.
  rewrite get_elf_headers_cases. cbv zeta.
  destruct (refused W _) as [e'|] eqn:Hrefused; cbn [fst].
  { intros [= <-]. by apply refused_expected in Hrefused. }
  destruct (spawn W _ (fs s)) as [[[rc out] files]|]; cbn [fst]; [|by intros [= <-]].
  destruct (Z.eqb_spec rc 0) as [->|Hrc]; [|by intros [= <-]].
  by intros [-> _]%parse_header_lines_raises.
Qed.

Lemma read_from_elf_error elf_path s e :
  (read_from_elf W TOOL_PREFIX elf_path s).1 = Raise e -> expected_error W e.
Proof.
  rewrite read_from_elf_cases. cbv zeta.
  destruct (refused W _) as [e'|] eqn:Hrefused; cbn [fst].
  { intros [= <-]. by apply refused_expected in Hrefused. }
  destruct (spawn W _ _) as [[[rc out] files]|]; cbn [fst]; [|by intros [= <-]].
  destruct (Z.eqb_spec rc 0) as [->|Hrc]; [|by intros [= <-]].
  destruct (files !! _) as [[content|]|]; [done | by intros [= <-] ..].
Qed.

Lemma arm9_entry_point_error headers e :
  arm9_entry_point headers = Raise e -> expected_error W e.
Proof.
  unfold arm9_entry_point, Py.getitem.
  destruct (headers !! "entry_point_address") as [address|]; cbn.
  - by intros ->%int_raises_ValueError.
  - intros [= <-]. by right.
Qed.

Lemma arm7_entry_point_error headers e :
  arm7_entry_point headers = Raise e -> expected_error W e.
Proof.
  unfold arm7_entry_point, Py.getitem.
  destruct (headers !! "entry_point_address") as [address|]; cbn.
  - by intros ->%int_raises_ValueError.
  - intros [= <-]. by right.
Qed.

Lemma read_arm7_error arm7_image s e :
  (read_arm7 W TOOL_PREFIX arm7_image s).1 = Raise e -> expected_error W e.
Proof.
  rewrite read_arm7_cases. destruct arm7_image as [path|]; [|done].
  destruct (String.eqb _ _).
  { destruct (fs s !! path) as [[raw|]|]; cbn [fst]; [done | by intros [= <-] ..]. }
  pose proof (get_elf_headers_error path s) as Hheaders.
  destruct (get_elf_headers W TOOL_PREFIX path s) as [[arm7_headers|e1] s1];
    cbn [fst] in *; [|intros [= <-]; by apply Hheaders].
  pose proof (arm7_entry_point_error arm7_headers) as Hentry.
  destruct (arm7_entry_point arm7_headers) as [arm7_ep|e2]; cbn [fst];
    [|intros [= <-]; by apply Hentry].
  pose proof (read_from_elf_error path s1) as Hdata.
  destruct (read_from_elf W TOOL_PREFIX path s1) as [[arm7_data|e3] s2];
    cbn [fst] in *; [done | intros [= <-]; by apply Hdata].
Qed.

Lemma str_error n e : Py.str n = Raise e -> e = ValueError.
Proof. unfold Py.str. destruct (bool_decide _); congruence. Qed.

Lemma packer_invocation_error arm9_ep arm9_data arm7_ep arm7_data mk gc gt s e :
  (packer_invocation W arm9_ep arm9_data arm7_ep arm7_data mk gc gt s).1 = Raise e ->
  expected_error W e.
Proof.
  rewrite packer_invocation_cases. cbv zeta.
  set (dir := mkdtemp W "ndspacker" (fs s)).
  destruct (fs s !! joinpath dir "arm9.tmp.bin") as [[?|]|].
  2: { destruct (fs s !! joinpath dir "arm7.tmp.bin") as [[?|]|];
         cbn [fst]; by intros [= <-]. }
  all: destruct (fs s !! joinpath dir "arm7.tmp.bin") as [[?|]|];
    [|cbn [fst]; by intros [= <-]|].
  all: destruct (Py.str arm9_ep) as [e9|e1] eqn:Hstr9; cbn [fst];
    [|intros [= <-]; by apply str_error in Hstr9 as ->].
  all: destruct (Py.str arm7_ep) as [e7|e2] eqn:Hstr7; cbn [fst];
    [|intros [= <-]; by apply str_error in Hstr7 as ->].
  all: destruct (strings_of _) as [cmd|]; cbn [fst]; [|by intros [= <-]].
  all: destruct (refused W cmd) as [e'|] eqn:Hrefused; cbn [fst];
    [intros [= <-]; by apply refused_expected in Hrefused|].
  all: destruct (spawn W cmd _) as [[[rc out] files]|]; cbn [fst]; [|by intros [= <-]].
  all: destruct (Z.eqb_spec rc 0) as [->|Hrc]; [done | by intros [= <-]].
Qed.

Lemma main_error s e :
  (main W TOOL_PREFIX s).1 = Raise e -> expected_error W e.
Proof.
  rewrite main_cases.
  destruct (Py.path_str <$> argv W !! 1%nat) as [arm9_image|] eqn:Hargv.
  2: { destruct (argv W) as [|arg0 args] eqn:Hargs; cbn; by intros [= <-]. }
  destruct (missing_input W s) as [path|].
  { intros [= <-]. apply exit_error_expected. right. left. by exists path. }
  pose proof (load_packer_settings_errors W s) as Hsettings.
  destruct (load_packer_settings W s) as [[settings|e0] s0]; cbn [fst] in *.
  2: { intros [= <-]. by destruct (Hsettings e0 eq_refl) as [-> | ->]. }
  pose proof (get_elf_headers_error arm9_image s) as Hheaders.
  destruct (get_elf_headers W TOOL_PREFIX arm9_image s) as [[arm9_headers|e1] s1];
    cbn [fst] in *; [|intros [= <-]; by apply Hheaders].
  destruct (arm9_headers !! "machine") as [type|]; cbn [fst]; [|intros [= <-]; by left].
  destruct (negb _).
  { intros [= <-]. apply exit_error_expected. right. right. by exists type. }
  pose proof (arm9_entry_point_error arm9_headers) as Hentry.
  destruct (arm9_entry_point arm9_headers) as [arm9_ep|e2]; cbn [fst];
    [|intros [= <-]; by apply Hentry].
  pose proof (read_from_elf_error arm9_image s1) as Hdata.
  destruct (read_from_elf W TOOL_PREFIX arm9_image s1) as [[arm9_data|e3] s2];
    cbn [fst] in *; [|intros [= <-]; by apply Hdata].
  pose proof (read_arm7_error (Py.path_str <$> argv W !! 2%nat) s2) as Harm7.
  destruct (read_arm7 W TOOL_PREFIX (Py.path_str <$> argv W !! 2%nat) s2)
    as [[[arm7_ep arm7_data]|e4] s3];
    cbn [fst] in *; [|intros [= <-]; by apply Harm7].
  apply packer_invocation_error.
Qed.

End Errors.

(** X12: how a run of the script ends. Its exit status is 0 or 1,
    and 0 exactly when [main] returned. When it ends with [sys.exit]
    the code is 1; with [IndexError], [sys.argv] is empty; with
    [KeyError], the key is [machine] or [entry_point_address]; with
    [CalledProcessError], the return code is not zero; with the error
    of [rich], [rich] rejects the echo of a command, or the message
    that names a missing path or a machine. *)
Theorem script_ends (W : world) (s : state) :
  (exit_status (script W s).1 = 0 \/ exit_status (script W s).1 = 1)
  /\ (exit_status (script W s).1 = 0 <-> (script W s).1 = Ok tt)
  /\ (forall code, (script W s).1 = Raise (SystemExit code) -> code = 1)
  /\ ((script W s).1 = Raise IndexError -> argv W = [])
  /\ (forall key, (script W s).1 = Raise (KeyError key) ->
        key = "machine" \/ key = "entry_point_address")
  /\ (forall returncode,
        (script W s).1 = Raise (CalledProcessError returncode) -> returncode <> 0)
  /\ ((script W s).1 = Raise MarkupError ->
      exists text,
        markup W text = false
        /\ ((exists cmd, text = echo cmd)
            \/ (exists path, text = no_such_file path)
            \/ (exists type, text = not_arm type))).
Proof.
  assert (Herror : forall e, (script W s).1 = Raise e -> expected_error W e).
  { intros e. destruct (script_run W s) as (probes & _ & [-> | (prefix & _ & ->)]).
    - by intros [= <-].
    - apply main_error. }
  split; [|split].
  - destruct (script W s).1 as [[]|e]; [by left|]. right.
    specialize (Herror e eq_refl). destruct e; cbn in *; done.
  - destruct (script W s).1 as [[]|e]; [done|]. split; [|done].
    specialize (Herror e eq_refl). destruct e; cbn in *; try done. lia.
  - split; [intros code Hend; exact (Herror _ Hend)|].
    split; [intros Hend; exact (Herror _ Hend)|].
    split; [intros key Hend; exact (Herror _ Hend)|].
    split; [intros returncode Hend; exact (Herror _ Hend)|].
    intros Hend. destruct (Herror _ Hend) as (text & Htext & Hmarkup).
    by exists text.
Qed.

Lemma metadata_non_string settings key saved_arm9 saved_arm7 e9 e7 :
  key ∈ ["maker_code"; "game_code"; "game_title"] ->
  settings !! key = Some NonStr ->
  strings_of (ndstool_command saved_arm9 saved_arm7 e9 e7
                (metadata settings).1.2 (metadata settings).1.1 (metadata settings).2)
  = None.
Proof.
  intros Hkey Hvalue.
  destruct (strings_of _) as [cmd|] eqn:Hcmd; [|done].
  apply strings_of_ndstool_command in Hcmd as (g & m & t & Hg & Hm & Ht & _).
  unfold metadata in Hg, Hm, Ht. cbn [fst snd] in Hg, Hm, Ht.
  repeat (apply elem_of_cons in Hkey as [-> | Hkey]);
    [by rewrite Hvalue in Hm | by rewrite Hvalue in Hg | by rewrite Hvalue in Ht
    | by apply elem_of_nil in Hkey].
Qed.

(** X13: a maker code, game code or game title that the
    configuration file gives as something other than a string (a
    number, say) makes every run fail: [main] ends with an exception,
    and the ROM builder is never started, since the echo of its
    command line cannot join a value that is no string. *)
Theorem non_string_metadata_fails (W : world) (TOOL_PREFIX : string) (s : state)
    (settings : gmap string pyobj) (key : string) :
  (load_packer_settings W s).1 = Ok settings ->
  key ∈ ["maker_code"; "game_code"; "game_title"] ->
  settings !! key = Some NonStr ->
  (exists e, (main W TOOL_PREFIX s).1 = Raise e)
  /\ ndstool_runs (trace (main W TOOL_PREFIX s).2) = ndstool_runs (trace s).
Proof.
  intros Hsettings Hkey Hvalue. rewrite main_cases.
  destruct (Py.path_str <$> argv W !! 1%nat) as [arm9_image|];
    [|split; [by eexists | done]].
  destruct (missing_input W s); [split; [by eexists | done]|].
  destruct (load_packer_settings W s) as [[settings'|] s0]; [|done].
  cbn [fst] in Hsettings. injection Hsettings as ->.
  pose proof (emits_get_elf_headers W TOOL_PREFIX arm9_image s) as Hext1.
  destruct (get_elf_headers W TOOL_PREFIX arm9_image s) as [[arm9_headers|] s1];
    cbn [snd] in Hext1.
  2: { split; [by eexists | by apply extends_ndstool_runs in Hext1]. }
  destruct (arm9_headers !! "machine") as [type|].
  2: { split; [by eexists | by apply extends_ndstool_runs in Hext1]. }
  destruct (negb _).
  { split; [by eexists | by apply extends_ndstool_runs in Hext1]. }
  destruct (arm9_entry_point arm9_headers) as [arm9_ep|].
  2: { split; [by eexists | by apply extends_ndstool_runs in Hext1]. }
  pose proof (emits_read_from_elf W TOOL_PREFIX arm9_image s1) as Hext2.
  destruct (read_from_elf W TOOL_PREFIX arm9_image s1) as [[arm9_data|] s2];
    cbn [snd] in Hext2.
  all: pose proof (extends_trans _ _ _ _ Hext1 Hext2) as Hext12.
  2: { split; [by eexists | by apply extends_ndstool_runs in Hext12]. }
  pose proof (emits_read_arm7 W TOOL_PREFIX (Py.path_str <$> argv W !! 2%nat) s2) as Hext3.
  destruct (read_arm7 W TOOL_PREFIX (Py.path_str <$> argv W !! 2%nat) s2)
    as [[[arm7_ep arm7_data]|] s3]; cbn [snd] in Hext3.
  all: pose proof (extends_trans _ _ _ _ Hext12 Hext3) as Hext.
  all: apply extends_ndstool_runs in Hext.
  2: { split; [by eexists | done]. }
  rewrite packer_invocation_cases. cbv zeta.
  set (dir := mkdtemp W "ndspacker" (fs s3)).
  destruct (fs s3 !! joinpath dir "arm9.tmp.bin") as [[?|]|].
  2: { destruct (fs s3 !! joinpath dir "arm7.tmp.bin") as [[?|]|];
         (split; [by eexists | cbn [snd trace]; by rewrite ndstool_runs_app, app_nil_r]). }
  all: destruct (fs s3 !! joinpath dir "arm7.tmp.bin") as [[?|]|];
    [|split; [by eexists | cbn [snd trace]; by rewrite ndstool_runs_app, app_nil_r]|].
  all: destruct (Py.str arm9_ep) as [e9|];
    [|split; [by eexists | cbn [snd trace]; by rewrite ndstool_runs_app, app_nil_r]].
  all: destruct (Py.str arm7_ep) as [e7|];
    [|split; [by eexists | cbn [snd trace]; by rewrite ndstool_runs_app, app_nil_r]].
  all: rewrite (metadata_non_string settings key) by done.
  all: split; [by eexists | cbn [snd trace]; by rewrite ndstool_runs_app, app_nil_r].
Qed.

Lemma non_string_metadata_fails_witness :
  (main example_world_numeric_maker_code "llvm-" (State example_files_with_config [])).1
  = Raise TypeError
  /\ ndstool_runs
       (trace (main example_world_numeric_maker_code "llvm-"
                 (State example_files_with_config [])).2) = [].
Proof.
  split; [vm_compute; reflexivity|].
  apply (non_string_metadata_fails example_world_numeric_maker_code "llvm-"
           (State example_files_with_config []) (<["maker_code" := NonStr]> ∅)
           "maker_code").
  - reflexivity.
  - apply list_elem_of_here.
  - reflexivity.
Defined.

(** ** A whole run *)

(** X14: a whole run of [main] when the ARM7 image needs no tool: no
    ARM7 path is given (the image is then the built-in one), or the
    path ends in [.nds] (the image is then what [read_arm7_from_rom]
    finds in that file, as it is once the ARM9 blob has been
    extracted). With every command started, on the path of the ARM9
    file, and both ARM9 tools returning zero, the run is:
    [readelf] on the ARM9 file, [objcopy] into a first temporary
    directory and its removal, then in a second one the two saved
    blobs and the ROM builder, whose arguments carry the entrypoints
    in decimal and the metadata of the settings. The result is normal
    exactly when the ROM builder returns zero, and the files at the
    end are those it left, less the directory. *)
Theorem run_without_arm7_elf (W : world) (TOOL_PREFIX : string) (s : state)
    (arm9_image stdout stdout2 stdout3 e9 e7 maker_code game_code game_title : string)
    (settings : gmap string pyobj) (arm9_headers : gmap string string)
    (files1 files2 files3 : gmap string node)
    (arm9_ep arm7_ep returncode : Z) (arm9_data arm7_data : list byte) :
  let readelf := [TOOL_PREFIX +:+ "readelf"; "-h"; arm9_image] in
  let tdir := mkdtemp W "" files1 in
  let objcopy := [TOOL_PREFIX +:+ "objcopy"; "-O"; "binary"; arm9_image;
                  joinpath tdir "out.o"] in
  let extracted := rmtree tdir files2 in
  let dir := mkdtemp W "ndspacker" extracted in
  let saved_arm9 := joinpath dir "arm9.tmp.bin" in
  let saved_arm7 := joinpath dir "arm7.tmp.bin" in
  let ndstool := ["ndstool"; "-c"; "./rom.nds"; "-9"; saved_arm9; "-7"; saved_arm7;
                  "-e9"; e9; "-r9"; "0x2000000"; "-e7"; e7;
                  "-g"; game_code; maker_code; game_title; "1"] in
  inputs_present W s arm9_image ->
  (load_packer_settings W s).1 = Ok settings ->
  metadata settings = (Str maker_code, Str game_code, Str game_title) ->
  refused W readelf = None ->
  refused W objcopy = None ->
  refused W ndstool = None ->
  spawn W readelf (fs s) = Some (0, stdout, files1) ->
  parse_header_lines (drop 1 (Py.splitlines stdout)) ∅ = Ok arm9_headers ->
  arm9_headers !! "machine" = Some "ARM" ->
  arm9_entry_point arm9_headers = Ok arm9_ep ->
  spawn W objcopy (<[tdir := Dir]> files1) = Some (0, stdout2, files2) ->
  files2 !! joinpath tdir "out.o" = Some (File arm9_data) ->
  match Py.path_str <$> argv W !! 2%nat with
  | None => (arm7_ep, arm7_data) = (0x2380000, [xfe; xff; xff; xea])
  | Some path =>
      suffix W path = ".nds"
      /\ exists raw_data,
           extracted !! path = Some (File raw_data)
           /\ (arm7_ep, arm7_data) = read_arm7_from_rom raw_data
  end ->
  fresh_directory dir extracted ->
  Py.str arm9_ep = Ok e9 ->
  Py.str arm7_ep = Ok e7 ->
  spawn W ndstool
    (<[saved_arm7 := File arm7_data]>
       (<[saved_arm9 := File arm9_data]> (<[dir := Dir]> extracted)))
  = Some (returncode, stdout3, files3) ->
  main W TOOL_PREFIX s
  = (if returncode =? 0 then Ok tt else Raise (CalledProcessError returncode),
     State (rmtree dir files3)
       (trace s ++ [Run readelf; Mkdtemp "" tdir; Run objcopy; Rmtree tdir;
                    Mkdtemp "ndspacker" dir; WriteBytes saved_arm9 arm9_data;
                    WriteBytes saved_arm7 arm7_data; Run ndstool; Rmtree dir])).
Proof.
  intros readelf tdir objcopy extracted dir saved_arm9 saved_arm7 ndstool
    Hinputs Hsettings Hmetadata Hecho1 Hecho2 Hecho3 Hreadelf Hparse Hmachine Hentry
    Hobjcopy Hout Harm7 Hfresh Hstr9 Hstr7 Hndstool.
  rewrite main_cases, (inputs_present_checks _ _ _ Hinputs).
  destruct Hinputs as (-> & _).
  destruct (load_packer_settings W s) as [[settings'|] s0]; [|done].
  cbn [fst] in Hsettings. injection Hsettings as ->.
  rewrite get_elf_headers_cases. cbv zeta. fold readelf. rewrite Hecho1, Hreadelf.
  change (0 =? 0) with true. cbv iota. rewrite Hparse, Hmachine, String.eqb_refl.
  cbn [negb]. rewrite Hentry.
  rewrite read_from_elf_cases. cbv zeta. cbn [fs trace]. fold tdir objcopy.
  rewrite Hecho2, Hobjcopy. change (0 =? 0) with true. cbv iota. rewrite Hout.
  fold extracted.
  assert (Hread : read_arm7 W TOOL_PREFIX (Py.path_str <$> argv W !! 2%nat)
                    (State extracted
                       ((trace s ++ [Run readelf])
                        ++ [Mkdtemp "" tdir; Run objcopy; Rmtree tdir]))
                  = (Ok (arm7_ep, arm7_data),
                     State extracted
                       ((trace s ++ [Run readelf])
                        ++ [Mkdtemp "" tdir; Run objcopy; Rmtree tdir]))).
  { rewrite read_arm7_cases. destruct (Py.path_str <$> argv W !! 2%nat) as [path|].
    - destruct Harm7 as (-> & raw_data & Hraw & ->). cbn [fs].
      by rewrite String.eqb_refl, Hraw.
    - by rewrite Harm7. }
  rewrite Hread, Hmetadata. cbn [fst snd].
  rewrite packer_invocation_cases. cbv zeta. cbn [fs trace].
  fold dir saved_arm9 saved_arm7.
  rewrite (fresh_directory_lookup dir extracted saved_arm9 Hfresh (joinpath_inside _ _)),
    (fresh_directory_lookup dir extracted saved_arm7 Hfresh (joinpath_inside _ _)),
    Hstr9, Hstr7.
  cbn [strings_of ndstool_command fmap option_fmap option_map]. fold ndstool.
  rewrite Hecho3, Hndstool. by rewrite <- !app_assoc.
Qed.

Lemma run_without_arm7_elf_witness :
  main example_world_arm7_nds "llvm-" (State example_files_arm7_nds [])
  = (Ok tt,
     State (rmtree "/tmp/tmpk3v9ndspacker"
              (<["./rom.nds" := File [x4e; x44; x53]]>
                 (<["/tmp/tmpk3v9ndspacker/arm7.tmp.bin" := File [x0a; x0b; x0c; x0d]]>
                    (<["/tmp/tmpk3v9ndspacker/arm9.tmp.bin" := File [x01; x02; x03]]>
                       (<["/tmp/tmpk3v9ndspacker" := Dir]>
                          (rmtree "/tmp/tmpk3v9"
                             (<["/tmp/tmpk3v9/out.o" := File [x01; x02; x03]]>
                                (<["/tmp/tmpk3v9" := Dir]> example_files_arm7_nds))))))))
       [Run ["llvm-readelf"; "-h"; "arm9.elf"];
        Mkdtemp "" "/tmp/tmpk3v9";
        Run ["llvm-objcopy"; "-O"; "binary"; "arm9.elf"; "/tmp/tmpk3v9/out.o"];
        Rmtree "/tmp/tmpk3v9";
        Mkdtemp "ndspacker" "/tmp/tmpk3v9ndspacker";
        WriteBytes "/tmp/tmpk3v9ndspacker/arm9.tmp.bin" [x01; x02; x03];
        WriteBytes "/tmp/tmpk3v9ndspacker/arm7.tmp.bin" [x0a; x0b; x0c; x0d];
        Run ["ndstool"; "-c"; "./rom.nds"; "-9"; "/tmp/tmpk3v9ndspacker/arm9.tmp.bin";
             "-7"; "/tmp/tmpk3v9ndspacker/arm7.tmp.bin";
             "-e9"; "33556480"; "-r9"; "0x2000000"; "-e7"; "37224448";
             "-g"; "ENAE"; "01"; "NDSPACKER"; "1"];
        Rmtree "/tmp/tmpk3v9ndspacker"]).
Proof.
  apply (run_without_arm7_elf example_world_arm7_nds "llvm-"
           (State example_files_arm7_nds []) "arm9.elf" readelf_output "" ""
           "33556480" "37224448" "01" "ENAE" "NDSPACKER" DEFAULT_PACKER_SETTINGS
           (<["entry_point_address" := "0x2000800"]>
              (<["machine" := "ARM"]> (<["class" := "ELF32"]> ∅)))
           example_files_arm7_nds
           (<["/tmp/tmpk3v9/out.o" := File [x01; x02; x03]]>
              (<["/tmp/tmpk3v9" := Dir]> example_files_arm7_nds))
           (<["./rom.nds" := File [x4e; x44; x53]]>
              (<["/tmp/tmpk3v9ndspacker/arm7.tmp.bin" := File [x0a; x0b; x0c; x0d]]>
                 (<["/tmp/tmpk3v9ndspacker/arm9.tmp.bin" := File [x01; x02; x03]]>
                    (<["/tmp/tmpk3v9ndspacker" := Dir]>
                       (rmtree "/tmp/tmpk3v9"
                          (<["/tmp/tmpk3v9/out.o" := File [x01; x02; x03]]>
                             (<["/tmp/tmpk3v9" := Dir]> example_files_arm7_nds)))))))
           0x2000800 0x2380000 0 [x01; x02; x03] [x0a; x0b; x0c; x0d]).
  - split; [reflexivity|]. split; [reflexivity|]. by intros path [= <-].
  - reflexivity.
  - reflexivity.
  - reflexivity.
  - reflexivity.
  - vm_compute. reflexivity.
  - reflexivity.
  - vm_compute. reflexivity.
  - reflexivity.
  - vm_compute. reflexivity.
  - reflexivity.
  - reflexivity.
  - split; [reflexivity|]. exists small_rom. split; vm_compute; reflexivity.
  - apply (bool_decide_unpack _). vm_compute. exact I.
  - vm_compute. reflexivity.
  - vm_compute. reflexivity.
  - reflexivity.
Defined.

(** X15: the program itself writes two files and no other: each
    write of a run of the script is that of [arm9.tmp.bin] or of
    [arm7.tmp.bin] in a directory made for it, with the suffix
    [ndspacker], earlier in the run. The ROM and the extracted blobs
    are written by the tools. *)
Theorem writes_stay_in_temporary_directory (W : world) (s : state) :
  exists evs,
    trace (script W s).2 = trace s ++ evs
    /\ forall (i : nat) path data,
         evs !! i = Some (WriteBytes path data) ->
         exists (j : nat) dir,
           (j < i)%nat
           /\ evs !! j = Some (Mkdtemp "ndspacker" dir)
           /\ (path = joinpath dir "arm9.tmp.bin" \/ path = joinpath dir "arm7.tmp.bin").
Proof.
  assert (Hnone : forall P (pre : list event) (i : nat) path data,
             Forall P pre -> (forall path data, ~ P (WriteBytes path data)) ->
             pre !! i <> Some (WriteBytes path data)).
  { intros P pre i path data Hall Hnot Hi.
    rewrite Forall_forall in Hall. apply (Hnot path data), Hall.
    by eapply list_elem_of_lookup_2. }
  destruct (script_run W s) as (probes & Hprobes & [-> | (prefix & _ & ->)]).
  { exists probes. split; [done|]. intros i path data Hi.
    exfalso. eapply Hnone; [exact Hprobes | | exact Hi]. by intros ? ? [? ?]. }
  set (s1 := State (fs s) (trace s ++ probes)).
  destruct (main_trace W prefix s1) as (pre & Hpre & Hmain).
  assert (Hbefore : forall (i : nat) path data,
             (probes ++ pre) !! i <> Some (WriteBytes path data)).
  { intros i path data [Hi | [_ Hi]]%lookup_app_Some.
    - eapply Hnone; [exact Hprobes | | exact Hi]. by intros ? ? [? ?].
    - eapply Hnone; [exact Hpre | | exact Hi]. intros ? ? []. }
  destruct Hmain as [[Htrace _]
    | (dir & files & body & arm9_ep & arm9_data & arm7_ep & arm7_data & settings
       & -> & Hbody & _)].
  { exists (probes ++ pre). rewrite Htrace. cbn [trace s1]. rewrite <- app_assoc.
    split; [done|]. intros i path data Hi. by destruct (Hbefore i path data). }
  cbn [snd trace s1].
  exists ((probes ++ pre) ++ Mkdtemp "ndspacker" dir :: body ++ [Rmtree dir]).
  rewrite <- !app_assoc. split; [done|].
  intros i path data Hi. rewrite app_assoc in Hi.
  apply lookup_app_Some in Hi as [Hi | [Hge Hi]]; [by destruct (Hbefore i path data)|].
  exists (length (probes ++ pre)), dir.
  rewrite app_assoc, lookup_app_r, Nat.sub_diag by done.
  destruct (i - length (probes ++ pre))%nat as [|k] eqn:Hk; [done|].
  split; [lia|]. split; [done|]. cbn in Hi.
  destruct Hbody as [-> | [-> | [-> | (e9 & e7 & cmd & _ & _ & _ & ->)]]].
  - by destruct k.
  - destruct k as [|[|k]]; try done. cbn in Hi. injection Hi as <- <-. by left.
  - destruct k as [|[|[|k]]]; try done; cbn in Hi; injection Hi as <- <-; auto.
  - destruct k as [|[|[|[|k]]]]; try done; cbn in Hi; injection Hi as <- <-; auto.
Qed.

(** ** The ROM reader and the text of numbers *)

Lemma byte_at_app raw extra i :
  (i < length raw)%nat -> byte_at (raw ++ extra) i = byte_at raw i.
Proof. intros Hi. unfold byte_at. by rewrite lookup_app_l. Qed.

Lemma le_u32_at_app raw extra off :
  (off + 3 < length raw)%nat -> le_u32_at (raw ++ extra) off = le_u32_at raw off.
Proof. intros Hoff. unfold le_u32_at. by rewrite !byte_at_app by lia. Qed.

(** X16: [read_arm7_from_rom] reads the three header fields and the
    range they name, and nothing else: when the header is complete
    and the range lies within the file, bytes appended to the file
    change neither the entrypoint nor the blob. *)
Theorem read_arm7_from_rom_ignores_rest (raw_rom rest : list byte) :
  (0x40 <= length raw_rom)%nat ->
  le_u32_at raw_rom 0x30 + le_u32_at raw_rom 0x3C <= Z.of_nat (length raw_rom) ->
  read_arm7_from_rom (raw_rom ++ rest) = read_arm7_from_rom raw_rom.
Proof.
  intros Hheader Hrange. rewrite !read_arm7_from_rom_eq.
  rewrite !le_u32_at_app by (cbn; lia). f_equal.
  unfold byte_range.
  pose proof (le_u32_at_range raw_rom 0x30) as Hoffset.
  pose proof (le_u32_at_range raw_rom 0x3C) as Hsize.
  rewrite drop_app_le by lia.
  rewrite take_app_le; [done|]. rewrite length_drop. lia.
Qed.

Lemma read_arm7_from_rom_ignores_rest_witness :
  read_arm7_from_rom (small_rom ++ [xff; xff]) = read_arm7_from_rom small_rom.
Proof.
  apply read_arm7_from_rom_ignores_rest; [vm_compute; lia | vm_compute; congruence].
Defined.

Lemma dec_digit_pretty_N_char d :
  (d < 10)%N -> dec_digit (pretty_N_char d) = Some (Z.of_N d).
Proof.
  intros Hd.
  assert (d = 0 \/ d = 1 \/ d = 2 \/ d = 3 \/ d = 4 \/ d = 5 \/ d = 6
          \/ d = 7 \/ d = 8 \/ d = 9)%N as Hcases by lia.
  repeat (destruct Hcases as [-> | Hcases]; [reflexivity|]). by subst d.
Qed.

Lemma length_pretty_N_go x s :
  (String.length s <= String.length (pretty_N_go x s))%nat.
Proof.
  revert s. induction (N.lt_wf_0 x) as [x _ IH]; intros s.
  destruct (decide (x = 0)%N) as [->|Hpos]; [by rewrite pretty_N_go_0|].
  rewrite pretty_N_go_step by lia.
  etrans; [|apply IH, N.div_lt; lia]. cbn. lia.
Qed.

(** The digits [pretty_N_go] puts before [s] are those of [x]. *)
Lemma dec_value_pretty_N_go x s v :
  dec_value s = Some v ->
  dec_value (pretty_N_go x s) = Some (Z.of_N x * 10 ^ Z.of_nat (String.length s) + v).
Proof.
  revert s v. induction (N.lt_wf_0 x) as [x _ IH]; intros s v Hs.
  destruct (decide (x = 0)%N) as [->|Hpos].
  { rewrite pretty_N_go_0, Hs. f_equal; lia. }
  rewrite pretty_N_go_step by lia.
  rewrite (IH (x `div` 10)%N ltac:(apply N.div_lt; lia)
             (String (pretty_N_char (x `mod` 10)) s)
             (Z.of_N (x `mod` 10) * 10 ^ Z.of_nat (String.length s) + v)).
  - f_equal. cbn [String.length]. rewrite Nat2Z.inj_succ, Z.pow_succ_r by lia.
    rewrite (N.div_mod x 10) at 3 by done. lia.
  - cbn [dec_value]. rewrite dec_digit_pretty_N_char by (apply N.mod_lt; lia).
    by rewrite Hs.
Qed.

Lemma dec_value_pretty_N (x : N) :
  dec_value (pretty x) = Some (Z.of_N x) /\ pretty x <> "".
Proof.
  unfold pretty, pretty_N. destruct (decide (x = 0)%N) as [->|Hpos]; [done|].
  split.
  - rewrite (dec_value_pretty_N_go x "" 0) by done. f_equal. cbn. lia.
  - rewrite pretty_N_go_step by lia. intros Hempty.
    pose proof (length_pretty_N_go (x `div` 10)
                  (String (pretty_N_char (x `mod` 10)) "")) as Hlen.
    rewrite Hempty in Hlen. cbn in Hlen. lia.
Qed.

(** X17: the decimal text of a number reads back as the number:
    when [str(n)] returns [t], [int(t)] in base 10 returns [n]. So
    the arguments [main] builds for the ROM builder after [-e9] and
    [-e7] denote the entrypoints it computed. *)
Theorem str_reads_back (n : Z) (t : string) :
  Py.str n = Ok t -> Py.int t 10 = Ok n.
Proof.
  unfold Py.str.
  destruct (bool_decide_reflect
              (Py.max_str_digits < String.length (pretty (Z.abs n)))%nat) as [|Hlen];
    [done|].
  intros [= <-]. destruct n as [|p|p].
  - done.
  - destruct (dec_value_pretty_N (N.pos p)) as [Hvalue Hne].
    change (Z.abs (Z.pos p)) with (Z.pos p) in Hlen.
    change (pretty (Z.pos p)) with (pretty (N.pos p)) in *.
    apply int10_dec_digits; [done | lia | done].
  - destruct (dec_value_pretty_N (N.pos p)) as [Hvalue Hne].
    change (Z.abs (Z.neg p)) with (Z.pos p) in Hlen.
    change (pretty (Z.pos p)) with (pretty (N.pos p)) in Hlen.
    change (pretty (Z.neg p)) with (String "-" (pretty (N.pos p))).
    destruct (pretty (N.pos p)) as [|c s] eqn:Htext; [done|].
    pose proof Hvalue as Hscan. cbn [dec_value] in Hvalue.
    destruct (dec_digit c) as [d|] eqn:Hdigit; [|done].
    destruct (dec_digit_char c d Hdigit) as (_ & _ & _ & _ & _ & Hunder).
    unfold Py.int. cbn [Py.skip_int_space]. change (Py.is_int_space "-") with false.
    cbv iota. cbn [Py.split_sign]. change (Ascii.eqb "-" "+") with false.
    change (Ascii.eqb "-" "-") with true. cbv iota.
    assert (Hprefix : Py.skip_base_prefix 10 (String c s) = String c s).
    { destruct s as [|c1 s']; try done. unfold Py.skip_base_prefix. cbn.
      by rewrite andb_false_r. }
    rewrite Hprefix. cbn [Py.starts_with_underscore]. rewrite Hunder.
    rewrite (scan_dec_digits _ 0 0%nat _ Hscan).
    rewrite bool_decide_false by (cbn [String.length]; lia).
    rewrite (bool_decide_false (_ < _)%nat) by lia.
    cbn. f_equal; lia.
Qed.

Lemma str_reads_back_witness : Py.int "37224448" 10 = Ok 0x2380000.
Proof. apply str_reads_back. vm_compute. reflexivity. Defined.

Lemma length_pretty_N_go_bound (k : nat) x s :
  (x < 10 ^ N.of_nat k)%N ->
  (String.length (pretty_N_go x s) <= String.length s + k)%nat.
Proof.
  revert x s. induction k as [|k IH]; intros x s Hx.
  { assert (x = 0%N) as -> by (cbn in Hx; lia). rewrite pretty_N_go_0. lia. }
  destruct (decide (x = 0)%N) as [->|Hpos]; [rewrite pretty_N_go_0; lia|].
  rewrite pretty_N_go_step by lia.
  etrans; [apply IH|cbn [String.length]; lia].
  rewrite Nat2N.inj_succ, N.pow_succ_r' in Hx.
  apply N.Div0.div_lt_upper_bound. lia.
Qed.

(** X18: the entrypoint [read_arm7_from_rom] returns always has a
    decimal text: it is a 32-bit number, of at most ten digits, far
    from the limit at which [str] raises [ValueError]. With an ARM7
    image taken from a ROM, building the argument after [-e7] cannot
    fail, whatever the file holds. *)
Theorem rom_entrypoint_has_text (raw_rom : list byte) :
  0 <= (read_arm7_from_rom raw_rom).1 < 2 ^ 32
  /\ exists e7,
       Py.str (read_arm7_from_rom raw_rom).1 = Ok e7
       /\ (String.length e7 <= 10)%nat.
Proof.
  rewrite read_arm7_from_rom_eq. cbn [fst].
  pose proof (le_u32_at_range raw_rom 0x34) as Hrange. split; [done|].
  set (n := le_u32_at raw_rom 0x34) in *.
  assert (Hlen : (String.length (pretty n) <= 10)%nat).
  { destruct n as [|p|p]; [cbn; lia | | lia].
    change (pretty (Z.pos p)) with (pretty (N.pos p)).
    unfold pretty, pretty_N. destruct (decide (N.pos p = 0)%N); [done|].
    apply (length_pretty_N_go_bound 10 (N.pos p) ""). cbn. lia. }
  exists (pretty n). split; [|done].
  unfold Py.str. rewrite Z.abs_eq by lia.
  rewrite bool_decide_false; [done|]. unfold Py.max_str_digits. lia.
Qed.

(** ** What a run leaves alone *)

Section Frame.

Context (W : world) (TOOL_PREFIX : string) (path : string).

Hypothesis tools_keep :
  forall cmd files returncode stdout files',
    spawn W cmd files = Some (returncode, stdout, files') ->
    files' !! path = files !! path.

Hypothesis directories_elsewhere :
  forall sfx files, outside (mkdtemp W sfx files) path.

Lemma insert_inside_keeps dir name (n : node) (files : gmap string node) :
  outside dir path -> <[joinpath dir name := n]> files !! path = files !! path.
Proof.
  intros Hout. apply lookup_insert_ne. intros Heq.
  apply (joinpath_inside dir name). by rewrite Heq.
Qed.

Lemma mkdir_keeps dir (files : gmap string node) :
  outside dir path -> <[dir := Dir]> files !! path = files !! path.
Proof. intros [Hne _]. by apply lookup_insert_ne. Qed.

Lemma get_elf_headers_keeps elf_path s :
  fs (get_elf_headers W TOOL_PREFIX elf_path s).2 !! path = fs s !! path.
Proof.
  rewrite get_elf_headers_cases. cbv zeta.
  destruct (refused W _); [done|].
  destruct (spawn W _ (fs s)) as [[[rc out] files]|] eqn:Hspawn; [|done].
  cbn [snd fs]. by apply tools_keep in Hspawn.
Qed.

Lemma read_from_elf_keeps elf_path s :
  fs (read_from_elf W TOOL_PREFIX elf_path s).2 !! path = fs s !! path.
Proof.
  rewrite read_from_elf_cases. cbv zeta.
  pose proof (directories_elsewhere "" (fs s)) as Hout.
  destruct (refused W _); cbn [snd fs].
  { by rewrite rmtree_outside, mkdir_keeps. }
  destruct (spawn W _ _) as [[[rc out] files]|] eqn:Hspawn; cbn [snd fs].
  - apply tools_keep in Hspawn. by rewrite rmtree_outside, Hspawn, mkdir_keeps.
  - by rewrite rmtree_outside, mkdir_keeps.
Qed.

Lemma read_arm7_keeps arm7_image s :
  fs (read_arm7 W TOOL_PREFIX arm7_image s).2 !! path = fs s !! path.
Proof.
  rewrite read_arm7_cases. destruct arm7_image as [arm7_path|]; [|done].
  destruct (String.eqb _ _).
  { by destruct (fs s !! arm7_path) as [[raw|]|]. }
  pose proof (get_elf_headers_keeps arm7_path s) as Hheaders.
  destruct (get_elf_headers W TOOL_PREFIX arm7_path s) as [[arm7_headers|] s1];
    cbn [snd] in Hheaders; [|done].
  destruct (arm7_entry_point arm7_headers) as [arm7_ep|]; [|done].
  pose proof (read_from_elf_keeps arm7_path s1) as Hdata.
  destruct (read_from_elf W TOOL_PREFIX arm7_path s1) as [[arm7_data|] s2];
    cbn [snd] in *; congruence.
Qed.

Lemma packer_invocation_keeps arm9_ep arm9_data arm7_ep arm7_data mk gc gt s :
  fs (packer_invocation W arm9_ep arm9_data arm7_ep arm7_data mk gc gt s).2 !! path
  = fs s !! path.
Proof.
  rewrite packer_invocation_cases. cbv zeta.
  pose proof (directories_elsewhere "ndspacker" (fs s)) as Hout.
  set (dir := mkdtemp W "ndspacker" (fs s)) in *.
  assert (Hsaved : forall files,
             files !! path = fs s !! path -> rmtree dir files !! path = fs s !! path).
  { intros files <-. by apply rmtree_outside. }
  assert (Hmade : <[dir := Dir]> (fs s) !! path = fs s !! path) by by apply mkdir_keeps.
  assert (Hsaved9 : <[joinpath dir "arm9.tmp.bin" := File arm9_data]> (<[dir := Dir]> (fs s))
                    !! path = fs s !! path) by by rewrite insert_inside_keeps.
  assert (Hsaved7 : <[joinpath dir "arm7.tmp.bin" := File arm7_data]>
                      (<[joinpath dir "arm9.tmp.bin" := File arm9_data]>
                         (<[dir := Dir]> (fs s)))
                    !! path = fs s !! path) by by rewrite insert_inside_keeps.
  destruct (fs s !! joinpath dir "arm9.tmp.bin") as [[?|]|].
  2: { destruct (fs s !! joinpath dir "arm7.tmp.bin") as [[?|]|];
         cbn [snd fs]; by apply Hsaved. }
  all: destruct (fs s !! joinpath dir "arm7.tmp.bin") as [[?|]|];
    [|cbn [snd fs]; by apply Hsaved|].
  all: destruct (Py.str arm9_ep) as [e9|]; [|cbn [snd fs]; by apply Hsaved].
  all: destruct (Py.str arm7_ep) as [e7|]; [|cbn [snd fs]; by apply Hsaved].
  all: destruct (strings_of _) as [cmd|]; [|cbn [snd fs]; by apply Hsaved].
  all: destruct (refused W cmd); [cbn [snd fs]; by apply Hsaved|].
  all: destruct (spawn W cmd _) as [[[rc out] files]|] eqn:Hspawn;
    [|cbn [snd fs]; by apply Hsaved].
  all: cbn [snd fs]; apply Hsaved; apply tools_keep in Hspawn; congruence.
Qed.

Lemma main_keeps s : fs (main W TOOL_PREFIX s).2 !! path = fs s !! path.
Proof.
  rewrite main_cases.
  destruct (Py.path_str <$> argv W !! 1%nat) as [arm9_image|]; [|done].
  destruct (missing_input W s); [done|].
  pose proof (load_packer_settings_state W s) as Hload.
  destruct (load_packer_settings W s) as [[settings|] s0]; cbn [snd] in Hload;
    [|by subst s0].
  pose proof (get_elf_headers_keeps arm9_image s) as Hheaders.
  destruct (get_elf_headers W TOOL_PREFIX arm9_image s) as [[arm9_headers|] s1];
    cbn [snd] in Hheaders; [|done].
  destruct (arm9_headers !! "machine") as [type|]; [|done].
  destruct (negb _); [done|].
  destruct (arm9_entry_point arm9_headers) as [arm9_ep|]; [|done].
  pose proof (read_from_elf_keeps arm9_image s1) as Hdata.
  destruct (read_from_elf W TOOL_PREFIX arm9_image s1) as [[arm9_data|] s2];
    cbn [snd] in *; [|congruence].
  pose proof (read_arm7_keeps (Py.path_str <$> argv W !! 2%nat) s2) as Harm7.
  destruct (read_arm7 W TOOL_PREFIX (Py.path_str <$> argv W !! 2%nat) s2)
    as [[[arm7_ep arm7_data]|] s3];
    cbn [snd] in *; [|congruence].
  rewrite packer_invocation_keeps. congruence.
Qed.

End Frame.

(** X19: a run changes no path of its own accord. A path that lies
    outside every temporary directory, and that no command changes,
    is at the end of a run of the script what it was at the start:
    the same file with the same content, the same directory, or
    still absent. What a run leaves behind is what the tools wrote. *)
Theorem untouched_paths_survive (W : world) (s : state) (path : string) :
  (forall cmd files returncode stdout files',
      spawn W cmd files = Some (returncode, stdout, files') ->
      files' !! path = files !! path) ->
  (forall sfx files, outside (mkdtemp W sfx files) path) ->
  fs (script W s).2 !! path = fs s !! path.
Proof.
  intros Htools Hdirs.
  destruct (script_run W s) as (probes & _ & [-> | (prefix & _ & ->)]); [done|].
  by rewrite main_keeps.
Qed.

Lemma untouched_paths_survive_witness :
  fs (script (example_world_tools quiet_tools) (State example_files [])).2 !! "arm9.elf"
  = Some (File [x7f; x45; x4c; x46]).
Proof.
  rewrite (untouched_paths_survive (example_world_tools quiet_tools)
             (State example_files []) "arm9.elf").
  - reflexivity.
  - intros cmd files returncode stdout files' Hspawn.
    cbv [spawn example_world_tools quiet_tools] in Hspawn.
    repeat case_match; by injection Hspawn as _ _ <-.
  - intros sfx files. apply (bool_decide_unpack _).
    vm_compute. exact I.
Defined.
